(** * Limitless replication bot: ledger, simulator and live reconciliation

    A shallow embedding of [src/tradeTracker.js] (the ledger), of
    [src/simulator.js] (the simulation harness) and of the live bot
    (position differ, trade sizer, open and close legs), followed by the
    properties the specification states about them.

    Conventions of the embedding.
    - A finite JavaScript number is an exact rational ([Q]), compared with
      [==]; binary rounding of arithmetic is outside the model.  Where a
      value that is not finite can reach the code, it is modelled: the
      simulator's buy and sell are also given over [Num.number], which has
      [NaN] and the two infinities ([SimJs], which [Sim] is the finite part
      of), and [Number(text)] on a token balance is rounded to binary64
      ([Js.NumberOfInt]).
    - A [BigInt] is an integer ([Z]); BigInt division is [Z.quot].
    - A [Map] keyed by market slug is a [gmap string _].
    - Every call into the chain client is answered by an oracle record, one
      field per awaited call; [None] stands for a call that throws.
    - [Date] and [Math.random] are inputs ([Stamp]). *)

From Stdlib Require Import ZArith QArith Qround Qminmax Lia Lqa.
From stdpp Require Import gmap strings list fin_maps.

Local Open Scope string_scope.
Local Open Scope list_scope.

(** ** JavaScript values shared by the three files *)

Module Js.

(** A ledger amount as the tracker sees it: the tracker only asks whether
    the field is truthy and what [BigInt] makes of it. *)
Inductive amount : Type :=
| AmtAbsent            (* null, undefined or the empty string: falsy *)
| AmtInt (z : Z)       (* a text that BigInt accepts *)
| AmtBad.              (* a truthy text that BigInt rejects, e.g. 2500000.5 *)

Definition truthy (a : amount) : bool :=
  match a with AmtAbsent => false | _ => true end.

(** [BigInt(a)]; [None] is the SyntaxError. *)
Definition BigInt (a : amount) : option Z :=
  match a with AmtInt z => Some z | _ => None end.

(** Truthiness of a string-or-null field. *)
Definition truthyStr (o : option string) : bool :=
  match o with
  | Some s => negb (String.eqb s "")
  | None => false
  end.

(** [x || null] on a string-or-null field. *)
Definition orNull (o : option string) : option string :=
  if truthyStr o then o else None.

(** [x || d] on a string-or-null field with a string default. *)
Definition orStr (o : option string) (d : string) : string :=
  match o with
  | Some s => if String.eqb s "" then d else s
  | None => d
  end.

Definition Qltb (a b : Q) : bool := negb (Qle_bool b a).

(** [x || d] on a number-or-null: [0] and [null] are falsy. *)
Definition orNum (o : option Q) (d : Q) : Q :=
  match o with
  | Some q => if Qeq_bool q 0 then d else q
  | None => d
  end.

(** [(q).toString()] read back by the tracker: an integer text when [q]
    is integral, a decimal text (which BigInt rejects) otherwise. *)
Definition numToAmount (q : Q) : amount :=
  let r := Qred q in
  if Pos.eqb (Qden r) 1 then AmtInt (Qnum r) else AmtBad.

(** [BigInt(n)] on a number: a RangeError unless [n] is integral. *)
Definition BigIntOfNumber (q : Q) : option Z :=
  let r := Qred q in
  if Pos.eqb (Qden r) 1 then Some (Qnum r) else None.

(** [ethers.parseUnits(q.toFixed(d), d)]: [q] scaled by [10^d] and rounded
    to the nearest integer, halves away from zero. *)
Definition parseUnitsFixed (q : Q) (d : nat) : Z :=
  let s := (q * inject_Z (10 ^ Z.of_nat d))%Q in
  if Qle_bool 0 s then Qfloor (s + (1 # 2))%Q
  else (- Qfloor ((- s) + (1 # 2))%Q)%Z.

Definition e6 : Q := inject_Z 1000000.

(** A non-negative integer [a] rounded to a multiple of [ulp]: the
    nearest one, the even multiple on a tie. *)
Definition roundTo (ulp a : Z) : Z :=
  let q := (a / ulp)%Z in
  let r := (a mod ulp)%Z in
  if Z.ltb ulp (2 * r) || (Z.eqb (2 * r) ulp && Z.odd q)
  then ((q + 1) * ulp)%Z else (q * ulp)%Z.

(** [Number(text)] on an integer text, as the integer the resulting double
    stands for: the nearest binary64 value, ties to even (as V8 rounds).
    Integers of magnitude up to [2^53] are exact; a larger one keeps 53
    significant bits.  A text that rounds to [2^1024] or beyond gives an
    infinity; it is represented by [2^1024] (negated for [-Infinity]),
    which no double reaches, so that it compares with every value, itself
    included, as the infinity does. *)
Definition NumberOfInt (z : Z) : Z :=
  let a := Z.abs z in
  if Z.leb a (2 ^ 53) then z
  else (Z.sgn z * Z.min (roundTo (2 ^ (Z.log2 a - 52)) a) (2 ^ 1024))%Z.

End Js.

(** ** JavaScript numbers that need not be finite *)

Module Num.
Import Js.

(** A finite number is an exact rational; the sign of a zero is not
    observed by the code modelled. *)
Inductive number : Type :=
| NaN
| NegInf
| Fin (q : Q)
| PosInf.

Definition isFinite (x : number) : bool :=
  match x with Fin _ => true | _ => false end.

(** [x + y]. *)
Definition add (x y : number) : number :=
  match x, y with
  | NaN, _ | _, NaN => NaN
  | PosInf, NegInf | NegInf, PosInf => NaN
  | PosInf, _ | _, PosInf => PosInf
  | NegInf, _ | _, NegInf => NegInf
  | Fin a, Fin b => Fin (a + b)
  end.

(** [x - y]. *)
Definition sub (x y : number) : number :=
  match x, y with
  | NaN, _ | _, NaN => NaN
  | PosInf, PosInf | NegInf, NegInf => NaN
  | PosInf, _ | _, NegInf => PosInf
  | NegInf, _ | _, PosInf => NegInf
  | Fin a, Fin b => Fin (a - b)
  end.

(** An infinity multiplied by the finite [q]. *)
Definition scaleInf (positive : bool) (q : Q) : number :=
  if Qeq_bool q 0 then NaN
  else if Bool.eqb positive (Qle_bool 0 q) then PosInf else NegInf.

(** [x * y]. *)
Definition mul (x y : number) : number :=
  match x, y with
  | NaN, _ | _, NaN => NaN
  | PosInf, PosInf | NegInf, NegInf => PosInf
  | PosInf, NegInf | NegInf, PosInf => NegInf
  | PosInf, Fin q | Fin q, PosInf => scaleInf true q
  | NegInf, Fin q | Fin q, NegInf => scaleInf false q
  | Fin a, Fin b => Fin (a * b)
  end.

(** [x / c] for a positive literal [c]. *)
Definition divBy (x : number) (c : Q) : number :=
  match x with
  | Fin a => Fin (a / c)
  | other => other
  end.

(** [x < y]: false as soon as one side is [NaN]. *)
Definition lt (x y : number) : bool :=
  match x, y with
  | NaN, _ | _, NaN => false
  | _, NegInf => false
  | NegInf, _ => true
  | PosInf, _ => false
  | _, PosInf => true
  | Fin a, Fin b => Qltb a b
  end.

(** [x >= y]: false as soon as one side is [NaN]. *)
Definition ge (x y : number) : bool :=
  match x, y with
  | NaN, _ | _, NaN => false
  | _, NegInf => true
  | NegInf, _ => false
  | PosInf, _ => true
  | _, PosInf => false
  | Fin a, Fin b => Qle_bool b a
  end.

(** [Math.max(x, y)] and [Math.min(x, y)]: [NaN] as soon as one argument
    is. *)
Definition max (x y : number) : number :=
  match x, y with
  | NaN, _ | _, NaN => NaN
  | PosInf, _ | _, PosInf => PosInf
  | NegInf, other | other, NegInf => other
  | Fin a, Fin b => Fin (Qmax a b)
  end.

Definition min (x y : number) : number :=
  match x, y with
  | NaN, _ | _, NaN => NaN
  | NegInf, _ | _, NegInf => NegInf
  | PosInf, other | other, PosInf => other
  | Fin a, Fin b => Fin (Qmin a b)
  end.

(** [x || d] on a number-or-null: [null], [0] and [NaN] are falsy. *)
Definition orNumber (o : option number) (d : number) : number :=
  match o with
  | Some (Fin q) => if Qeq_bool q 0 then d else Fin q
  | Some NaN | None => d
  | Some other => other
  end.

(** [(x).toString()] read back by the tracker: the texts of [NaN] and of
    the infinities are truthy and rejected by BigInt. *)
Definition toAmount (x : number) : amount :=
  match x with
  | Fin q => numToAmount q
  | _ => AmtBad
  end.

End Num.

(** ** tradeTracker.js *)

Module Tracker.
Import Js.

Inductive TradeType := BUY | SELL.
Inductive Status := OPEN | CLOSED.

Definition TradeType_eqb (a b : TradeType) : bool :=
  match a, b with BUY, BUY | SELL, SELL => true | _, _ => false end.
Definition Status_eqb (a b : Status) : bool :=
  match a, b with OPEN, OPEN | CLOSED, CLOSED => true | _, _ => false end.

(** A ledger entry.  Kept: every field that a tracker operation reads or
    that [closeTrade] writes, and the fields the two callers use to tell
    entries apart.  Left out: titles, labels, formatted amounts, gas and
    price fields, which are stored and never read back. *)
Record Trade := mkTrade {
  t_id : string;
  t_type : TradeType;
  t_timestamp : string;
  t_marketSlug : string;
  t_outcome : Z;
  t_investmentAmount : amount;
  t_returnAmount : amount;
  t_actualReturnReceived : amount;
  t_txHash : option string;
  t_targetWalletAction : string;
  t_relatedBuyTradeId : option string;
  t_pnlAmount : amount;
  t_status : Status;
  t_realizedPnL : amount;
  t_closedAt : option string;
  t_closeTxHash : option string
}.

(** [Date] and [generateTradeId] as inputs of one tracker call. *)
Record Stamp := mkStamp { now : string; freshId : string }.

Record BuyData := mkBuyData {
  bd_marketSlug : string;
  bd_outcome : Z;
  bd_investmentAmount : amount;
  bd_txHash : option string;
  bd_targetWalletAction : option string
}.

Record SellData := mkSellData {
  sd_marketSlug : string;
  sd_outcome : Z;
  sd_returnAmount : amount;
  sd_actualReturnReceived : amount;
  sd_txHash : option string;
  sd_targetWalletAction : option string;
  sd_relatedBuyTradeId : option string;
  sd_pnlAmount : amount
}.

Record CloseData := mkCloseData {
  cd_closedAt : option string;
  cd_closeTxHash : option string;
  cd_realizedPnL : amount
}.

Definition buyTrade (st : Stamp) (data : BuyData) : Trade :=
  {| t_id := freshId st;
     t_type := BUY;
     t_timestamp := now st;
     t_marketSlug := bd_marketSlug data;
     t_outcome := bd_outcome data;
     t_investmentAmount := bd_investmentAmount data;
     t_returnAmount := AmtAbsent;
     t_actualReturnReceived := AmtAbsent;
     t_txHash := orNull (bd_txHash data);
     t_targetWalletAction := orStr (bd_targetWalletAction data) "NEW_POSITION";
     t_relatedBuyTradeId := None;
     t_pnlAmount := AmtAbsent;
     t_status := OPEN;
     t_realizedPnL := AmtAbsent;
     t_closedAt := None;
     t_closeTxHash := None |}.

(** [recordBuy(data)]: push the entry, return its id. *)
Definition recordBuy (st : Stamp) (data : BuyData) (trades : list Trade)
  : list Trade * string :=
  (trades ++ [buyTrade st data], freshId st).

Definition sellTrade (st : Stamp) (data : SellData) : Trade :=
  {| t_id := freshId st;
     t_type := SELL;
     t_timestamp := now st;
     t_marketSlug := sd_marketSlug data;
     t_outcome := sd_outcome data;
     t_investmentAmount := AmtAbsent;
     t_returnAmount := sd_returnAmount data;
     t_actualReturnReceived := sd_actualReturnReceived data;
     t_txHash := orNull (sd_txHash data);
     t_targetWalletAction := orStr (sd_targetWalletAction data) "CLOSE_POSITION";
     t_relatedBuyTradeId := orNull (sd_relatedBuyTradeId data);
     t_pnlAmount := sd_pnlAmount data;
     t_status := CLOSED;
     t_realizedPnL := AmtAbsent;
     t_closedAt := None;
     t_closeTxHash := None |}.

Definition closeFields (clock : string) (cd : CloseData) (t : Trade) : Trade :=
  {| t_id := t_id t;
     t_type := t_type t;
     t_timestamp := t_timestamp t;
     t_marketSlug := t_marketSlug t;
     t_outcome := t_outcome t;
     t_investmentAmount := t_investmentAmount t;
     t_returnAmount := t_returnAmount t;
     t_actualReturnReceived := t_actualReturnReceived t;
     t_txHash := t_txHash t;
     t_targetWalletAction := t_targetWalletAction t;
     t_relatedBuyTradeId := t_relatedBuyTradeId t;
     t_pnlAmount := t_pnlAmount t;
     t_status := CLOSED;
     t_realizedPnL := cd_realizedPnL cd;
     t_closedAt := Some (orStr (cd_closedAt cd) clock);
     t_closeTxHash := orNull (cd_closeTxHash cd) |}.

(** [closeTrade(tradeId, closeData)]: [this.trades.find] takes the first
    entry with that id and the closure fields are written into it. *)
Fixpoint closeTrade (clock : string) (tradeId : string) (cd : CloseData)
    (trades : list Trade) : list Trade * bool :=
  match trades with
  | [] => ([], false)
  | t :: rest =>
      if String.eqb (t_id t) tradeId
      then (closeFields clock cd t :: rest, true)
      else let '(rest', found) := closeTrade clock tradeId cd rest in
           (t :: rest', found)
  end.

Definition isOpenBuyFor (marketSlug : string) (outcome : Z) (t : Trade) : bool :=
  TradeType_eqb (t_type t) BUY
  && String.eqb (t_marketSlug t) marketSlug
  && Z.eqb (t_outcome t) outcome
  && Status_eqb (t_status t) OPEN.

(** [findOpenBuy]: [Array.prototype.find], the first match in ledger order. *)
Definition findOpenBuy (marketSlug : string) (outcome : Z) (trades : list Trade)
  : option Trade :=
  List.find (isOpenBuyFor marketSlug outcome) trades.

(** [trade.relatedBuyTradeId = id] on the entry just pushed (the last one). *)
Fixpoint setLastRelated (id : string) (trades : list Trade) : list Trade :=
  match trades with
  | [] => []
  | [t] =>
      [ {| t_id := t_id t; t_type := t_type t; t_timestamp := t_timestamp t;
           t_marketSlug := t_marketSlug t; t_outcome := t_outcome t;
           t_investmentAmount := t_investmentAmount t;
           t_returnAmount := t_returnAmount t;
           t_actualReturnReceived := t_actualReturnReceived t;
           t_txHash := t_txHash t;
           t_targetWalletAction := t_targetWalletAction t;
           t_relatedBuyTradeId := Some id;
           t_pnlAmount := t_pnlAmount t;
           t_status := t_status t;
           t_realizedPnL := t_realizedPnL t;
           t_closedAt := t_closedAt t;
           t_closeTxHash := t_closeTxHash t |} ]
  | t :: rest => t :: setLastRelated id rest
  end.

(** [recordSell(data)]. *)
Definition recordSell (st : Stamp) (data : SellData) (trades : list Trade)
  : list Trade * string :=
  let trade := sellTrade st data in
  let pushed := trades ++ [trade] in
  let cd := {| cd_closedAt := Some (t_timestamp trade);
               cd_closeTxHash := t_txHash trade;
               cd_realizedPnL := sd_pnlAmount data |} in
  match orNull (sd_relatedBuyTradeId data) with
  | Some rid =>
      (fst (closeTrade (now st) rid cd pushed), freshId st)
  | None =>
      match findOpenBuy (sd_marketSlug data) (sd_outcome data) pushed with
      | Some relatedBuy =>
          (setLastRelated (t_id relatedBuy)
             (fst (closeTrade (now st) (t_id relatedBuy) cd pushed)),
           freshId st)
      | None => (pushed, freshId st)
      end
  end.

Definition isBuy (t : Trade) : bool := TradeType_eqb (t_type t) BUY.
Definition isSell (t : Trade) : bool := TradeType_eqb (t_type t) SELL.
Definition isOpen (t : Trade) : bool := Status_eqb (t_status t) OPEN.
Definition isClosed (t : Trade) : bool := Status_eqb (t_status t) CLOSED.

Definition getOpenPositions (trades : list Trade) : list Trade :=
  List.filter (fun t => isBuy t && isOpen t) trades.

Definition getClosedPositions (trades : list Trade) : list Trade :=
  List.filter (fun t => isBuy t && isClosed t) trades.

(** Body of the first [for] loop of [updateStats]. *)
Definition addInvested (acc : Z) (buy : Trade) : Z :=
  if truthy (t_investmentAmount buy)
  then match BigInt (t_investmentAmount buy) with
       | Some z => (acc + z)%Z
       | None => acc
       end
  else acc.

(** Body of the second [for] loop of [updateStats]. *)
Definition addReturned (acc : Z) (sell : Trade) : Z :=
  if truthy (t_actualReturnReceived sell)
  then match BigInt (t_actualReturnReceived sell) with
       | Some z => (acc + z)%Z
       | None => acc
       end
  else if truthy (t_returnAmount sell)
  then match BigInt (t_returnAmount sell) with
       | Some z => (acc + z)%Z
       | None => acc
       end
  else acc.

(** The filter predicate of [profitableClosedTrades]. *)
Definition isProfitable (t : Trade) : bool :=
  if negb (truthy (t_realizedPnL t)) then false
  else match BigInt (t_realizedPnL t) with
       | Some z => Z.ltb 0 z
       | None => false
       end.

(** The statistics object; [lastUpdated] is left out, and [winRate] is the
    number handed to [toFixed(2)], before it is rendered. *)
Record Stats := mkStats {
  totalTrades : nat;
  totalBuys : nat;
  totalSells : nat;
  totalInvested : Z;
  totalReturned : Z;
  totalPnL : Z;
  activePositions : nat;
  closedPositions : nat;
  winRate : Q
}.

Definition updateStats (trades : list Trade) : Stats :=
  let buys := List.filter isBuy trades in
  let sells := List.filter isSell trades in
  let openPositions := List.filter isOpen buys in
  let closedPositions := List.filter isClosed buys in
  let totalInvested := fold_left addInvested buys 0%Z in
  let totalReturned := fold_left addReturned sells 0%Z in
  let totalPnL := (totalReturned - totalInvested)%Z in
  let profitableClosedTrades := List.filter isProfitable closedPositions in
  let winRate :=
    if Nat.ltb 0 (length closedPositions)
    then (inject_Z (Z.of_nat (length profitableClosedTrades))
          / inject_Z (Z.of_nat (length closedPositions)) * 100)%Q
    else 0%Q in
  {| totalTrades := length trades;
     totalBuys := length buys;
     totalSells := length sells;
     totalInvested := totalInvested;
     totalReturned := totalReturned;
     totalPnL := totalPnL;
     activePositions := length openPositions;
     closedPositions := length closedPositions;
     winRate := winRate |}.

(** [getStats()]: recompute, then return. *)
Definition getStats (trades : list Trade) : Stats := updateStats trades.

End Tracker.

(** ** The position feed

    One element of the array the portfolio endpoint returns, as far as the
    two programs read it.  Numerals of the feed are taken as well formed:
    token balances are integer texts, cost and market value decimal texts
    (always truthy when present), prices are numbers.  An absent or empty
    text field is the empty string. *)

Module Feed.

Record CollateralToken := mkCollateralToken {
  ct_address : string;
  ct_decimals : nat
}.

Record Market := mkMarket {
  m_slug : string;                        (* "" when missing *)
  m_status : string;
  m_closed : bool;
  m_address : string;                     (* "" when missing (CLOB) *)
  m_collateralToken : option CollateralToken;
  m_winningOutcomeIndex : option Z        (* null or undefined: None *)
}.

Record TokensBalance := mkTokensBalance {
  tb_yes : option Z;
  tb_no : option Z
}.

Record SidePosition := mkSidePosition {
  sp_cost : option Q;
  sp_marketValue : option Q
}.

Record LatestTrade := mkLatestTrade {
  lt_latestYesPrice : option Q;
  lt_latestNoPrice : option Q
}.

Record Position := mkPosition {
  p_market : option Market;
  p_tokensBalance : option TokensBalance;
  p_yes : option SidePosition;            (* positions?.yes *)
  p_no : option SidePosition;             (* positions?.no *)
  p_latestTrade : option LatestTrade
}.

(** [x || '0']: the integer the balance text denotes. *)
Definition orZero (o : option Z) : Z := default 0%Z o.

End Feed.

(** ** simulator.js

    The simulator on finite numbers; [SimJs] below gives the Config block,
    [simulateBuy] and [simulateSell] over all numbers and coincides with
    this module on the finite ones. *)

Module Sim.
Import Js Feed.

Record Config := mkConfig {
  STARTING_BALANCE_USDC : Q;
  BET_MULTIPLIER : Q;
  MIN_BET_USDC : Q;
  MAX_BET_USDC : Q;
  SLIPPAGE_BPS : Q;
  FEE_BPS : Q
}.

(** The defaults of the Config block of the file. *)
Definition defaultConfig : Config :=
  {| STARTING_BALANCE_USDC := 100; BET_MULTIPLIER := 1; MIN_BET_USDC := 1;
     MAX_BET_USDC := 100; SLIPPAGE_BPS := 200; FEE_BPS := 100 |}.

Record SimPosition := mkSimPosition {
  outcome : Z;
  invested : Q;
  tokens : Q
}.

Record State := mkState {
  balance : Q;
  startingBalance : Q;
  positions : gmap string SimPosition;
  tradeTracker : list Tracker.Trade
}.

(** The constructor; the ledger is what [data/simulation_trades.json]
    held when the tracker loaded it. *)
Definition init (cfg : Config) (loaded : list Tracker.Trade) : State :=
  {| balance := STARTING_BALANCE_USDC cfg;
     startingBalance := STARTING_BALANCE_USDC cfg;
     positions := ∅;
     tradeTracker := loaded |}.

(** Lines 56-57 of [simulateBuy]: the sized investment. *)
Definition ourInvestment (cfg : Config) (targetInvestment : Q) : Q :=
  Qmax (MIN_BET_USDC cfg)
       (Qmin (MAX_BET_USDC cfg) (targetInvestment * BET_MULTIPLIER cfg)).

(** [simulateBuy]; the result is [None] for [false], the trade id
    otherwise. *)
Definition simulateBuy (cfg : Config) (stamp : Tracker.Stamp) (st : State)
    (marketSlug : string) (outcome : Z) (targetInvestment : Q)
  : State * option string :=
  let ourInvestment := ourInvestment cfg targetInvestment in
  if Qltb (balance st) ourInvestment then (st, None)
  else
    let balance' := (balance st - ourInvestment)%Q in
    let slippageLoss := (ourInvestment * (SLIPPAGE_BPS cfg / 10000))%Q in
    let effectiveInvestment := (ourInvestment - slippageLoss)%Q in
    let tokens := effectiveInvestment in
    let positions' :=
      <[marketSlug := {| outcome := outcome; invested := ourInvestment;
                         tokens := tokens |}]> (positions st) in
    let '(trades', tradeId) :=
      Tracker.recordBuy stamp
        {| Tracker.bd_marketSlug := marketSlug;
           Tracker.bd_outcome := outcome;
           Tracker.bd_investmentAmount := numToAmount (ourInvestment * e6);
           Tracker.bd_txHash := None;
           Tracker.bd_targetWalletAction := Some "NEW_POSITION" |}
        (tradeTracker st) in
    ({| balance := balance'; startingBalance := startingBalance st;
        positions := positions'; tradeTracker := trades' |},
     Some tradeId).

(** The amount [simulateSell] pays back before the fee is taken. *)
Definition returnAmount (cfg : Config) (position : SimPosition) (outcome : Z)
    (marketValue : option Q) (winningOutcome : option Z) : Q :=
  match winningOutcome with
  | Some w =>
      if Z.eqb w outcome
      then (invested position * (1 - FEE_BPS cfg / 10000))%Q
      else 0%Q
  | None => orNum marketValue (invested position * (95 # 100))%Q
  end.

Definition netReturn (cfg : Config) (position : SimPosition) (outcome : Z)
    (marketValue : option Q) (winningOutcome : option Z) : Q :=
  let r := returnAmount cfg position outcome marketValue winningOutcome in
  (r - r * (FEE_BPS cfg / 10000))%Q.

(** [simulateSell]; an [undefined] fourth argument takes the default
    [null], so both are [None]. *)
Definition simulateSell (cfg : Config) (stamp : Tracker.Stamp) (st : State)
    (marketSlug : string) (outcome : Z) (marketValue : option Q)
    (winningOutcome : option Z) : State * bool :=
  match positions st !! marketSlug with
  | None => (st, false)
  | Some position =>
      if negb (Z.eqb (Sim.outcome position) outcome) then (st, false)
      else
        let netReturn := netReturn cfg position outcome marketValue winningOutcome in
        let balance' := (balance st + netReturn)%Q in
        let pnlAmount := (netReturn - invested position)%Q in
        let resolved := match winningOutcome with Some _ => true | None => false end in
        let '(trades', _) :=
          Tracker.recordSell stamp
            {| Tracker.sd_marketSlug := marketSlug;
               Tracker.sd_outcome := outcome;
               Tracker.sd_returnAmount := numToAmount (netReturn * e6);
               Tracker.sd_actualReturnReceived := numToAmount (netReturn * e6);
               Tracker.sd_txHash := None;
               Tracker.sd_targetWalletAction :=
                 Some (if resolved then "MARKET_RESOLVED" else "CLOSE_POSITION");
               Tracker.sd_relatedBuyTradeId := None;
               Tracker.sd_pnlAmount := numToAmount (pnlAmount * e6) |}
            (tradeTracker st) in
        ({| balance := balance'; startingBalance := startingBalance st;
            positions := delete marketSlug (positions st);
            tradeTracker := trades' |},
         true)
  end.

(** [estimateMarketValue(position, positionData)]. *)
Definition estimateMarketValue (position : SimPosition) (positionData : Position)
  : option Q :=
  let side := if Z.eqb (outcome position) 0 then p_no positionData
              else p_yes positionData in
  match side ≫= sp_marketValue with
  | Some marketValueRaw => Some (marketValueRaw / e6)%Q
  | None =>
      let latestPrice :=
        p_latestTrade positionData ≫=
          (if Z.eqb (outcome position) 0 then lt_latestNoPrice
           else lt_latestYesPrice) in
      match latestPrice with
      | Some price =>
          if Qeq_bool price 0 then None
          else Some (invested position * price)%Q
      | None => None
      end
  end.

(** Lines 225-241: the two balance texts (after [|| '0']) converted by
    [Number], and the side the target holds. *)
Definition targetOutcome (yesText noText : Z) : option Z :=
  let yesBalance := NumberOfInt yesText in
  let noBalance := NumberOfInt noText in
  if Z.ltb 0 yesBalance && Z.eqb noBalance 0 then Some 1%Z
  else if Z.ltb 0 noBalance && Z.eqb yesBalance 0 then Some 0%Z
  else if Z.ltb 0 yesBalance && Z.ltb 0 noBalance
       then Some (if Z.ltb noBalance yesBalance then 1%Z else 0%Z)
  else None.

(** The stamps one loop iteration may consume: one for the SELL, one for
    the BUY. *)
Record Stamps := mkStamps {
  sellStamp : Tracker.Stamp;
  buyStamp : Tracker.Stamp
}.

(** The body of the [for] loop of [runSimulation]. *)
Definition processPosition (cfg : Config) (stamps : Stamps) (st : State)
    (pos : Position) : State :=
  match p_market pos with
  | None => st
  | Some market =>
    if String.eqb (m_slug market) "" then st else
    let slug := m_slug market in
    match p_tokensBalance pos with
    | None => st
    | Some tokensBalance =>
      let yesBalance := orZero (tb_yes tokensBalance) in
      let noBalance := orZero (tb_no tokensBalance) in
      match targetOutcome yesBalance noBalance with
      | None => st
      | Some targetOutcome =>
        let side := if Z.eqb targetOutcome 0 then p_no pos else p_yes pos in
        let targetInvestment :=
          match side ≫= sp_cost with
          | Some targetCostRaw => (targetCostRaw / e6)%Q
          | None => MIN_BET_USDC cfg
          end in
        let isResolved := String.eqb (m_status market) "RESOLVED" in
        let winningOutcome := m_winningOutcomeIndex market in
        if isResolved then
          match positions st !! slug with
          | Some held =>
              fst (simulateSell cfg (sellStamp stamps) st slug (outcome held)
                     None winningOutcome)
          | None => st
          end
        else
          match positions st !! slug with
          | None =>
              fst (simulateBuy cfg (buyStamp stamps) st slug targetOutcome
                     targetInvestment)
          | Some ourPos =>
              if negb (Z.eqb (outcome ourPos) targetOutcome) then
                let marketValue := estimateMarketValue ourPos pos in
                let st1 := fst (simulateSell cfg (sellStamp stamps) st slug
                                  (outcome ourPos) marketValue None) in
                fst (simulateBuy cfg (buyStamp stamps) st1 slug targetOutcome
                       targetInvestment)
              else st
          end
      end
    end
  end.

(** [runSimulation] after the fetch: nothing on an empty feed, the loop
    otherwise.  [stamps i] serves the iteration on the [i]-th position. *)
Fixpoint runLoop (cfg : Config) (stamps : nat -> Stamps) (i : nat)
    (st : State) (ps : list Position) : State :=
  match ps with
  | [] => st
  | pos :: rest =>
      runLoop cfg stamps (S i) (processPosition cfg (stamps i) st pos) rest
  end.

Definition runSimulation (cfg : Config) (stamps : nat -> Stamps) (st : State)
    (fetched : list Position) : State :=
  runLoop cfg stamps 0 st fetched.

End Sim.

(** ** simulator.js over numbers that need not be finite

    The Config block, the constructor, [simulateBuy] and [simulateSell]
    once more, with every number a [Num.number]: a setting such as
    [BET_MULTIPLIER=0,5] is [NaN] after [Number(...)].  [Sim] above is the
    part of this module where every number is finite. *)

Module SimJs.
Import Js Feed.

(** The numeric variables of the environment: [None] when unset or empty
    (falsy), the value of [Number(text)] otherwise. *)
Record ProcessEnv := mkProcessEnv {
  env_STARTING_BALANCE_USDC : option Num.number;
  env_BET_MULTIPLIER : option Num.number;
  env_MIN_BET_USDC : option Num.number;
  env_MAX_BET_USDC : option Num.number;
  env_SLIPPAGE_BPS : option Num.number;
  env_FEE_BPS : option Num.number
}.

Record Config := mkConfig {
  STARTING_BALANCE_USDC : Num.number;
  BET_MULTIPLIER : Num.number;
  MIN_BET_USDC : Num.number;
  MAX_BET_USDC : Num.number;
  SLIPPAGE_BPS : Num.number;
  FEE_BPS : Num.number
}.

(** Lines 14-19: [process.env.X ? Number(process.env.X) : d]. *)
Definition loadConfig (env : ProcessEnv) : Config :=
  {| STARTING_BALANCE_USDC := default (Num.Fin 100) (env_STARTING_BALANCE_USDC env);
     BET_MULTIPLIER := default (Num.Fin 1) (env_BET_MULTIPLIER env);
     MIN_BET_USDC := default (Num.Fin 1) (env_MIN_BET_USDC env);
     MAX_BET_USDC := default (Num.Fin 100) (env_MAX_BET_USDC env);
     SLIPPAGE_BPS := default (Num.Fin 200) (env_SLIPPAGE_BPS env);
     FEE_BPS := default (Num.Fin 100) (env_FEE_BPS env) |}.

Record SimPosition := mkSimPosition {
  outcome : Z;
  invested : Num.number;
  tokens : Num.number
}.

Record State := mkState {
  balance : Num.number;
  startingBalance : Num.number;
  positions : gmap string SimPosition;
  tradeTracker : list Tracker.Trade
}.

Definition init (cfg : Config) (loaded : list Tracker.Trade) : State :=
  {| balance := STARTING_BALANCE_USDC cfg;
     startingBalance := STARTING_BALANCE_USDC cfg;
     positions := ∅;
     tradeTracker := loaded |}.

(** Lines 56-57 of [simulateBuy]. *)
Definition ourInvestment (cfg : Config) (targetInvestment : Num.number)
  : Num.number :=
  Num.max (MIN_BET_USDC cfg)
          (Num.min (MAX_BET_USDC cfg)
                   (Num.mul targetInvestment (BET_MULTIPLIER cfg))).

(** [simulateBuy]; [None] is [false]. *)
Definition simulateBuy (cfg : Config) (stamp : Tracker.Stamp) (st : State)
    (marketSlug : string) (outcome : Z) (targetInvestment : Num.number)
  : State * option string :=
  let ourInvestment := ourInvestment cfg targetInvestment in
  if Num.lt (balance st) ourInvestment then (st, None)
  else
    let balance' := Num.sub (balance st) ourInvestment in
    let slippageLoss :=
      Num.mul ourInvestment (Num.divBy (SLIPPAGE_BPS cfg) 10000) in
    let effectiveInvestment := Num.sub ourInvestment slippageLoss in
    let tokens := effectiveInvestment in
    let positions' :=
      <[marketSlug := {| outcome := outcome; invested := ourInvestment;
                         tokens := tokens |}]> (positions st) in
    let '(trades', tradeId) :=
      Tracker.recordBuy stamp
        {| Tracker.bd_marketSlug := marketSlug;
           Tracker.bd_outcome := outcome;
           Tracker.bd_investmentAmount :=
             Num.toAmount (Num.mul ourInvestment (Num.Fin e6));
           Tracker.bd_txHash := None;
           Tracker.bd_targetWalletAction := Some "NEW_POSITION" |}
        (tradeTracker st) in
    ({| balance := balance'; startingBalance := startingBalance st;
        positions := positions'; tradeTracker := trades' |},
     Some tradeId).

Definition returnAmount (cfg : Config) (position : SimPosition) (outcome : Z)
    (marketValue : option Num.number) (winningOutcome : option Z)
  : Num.number :=
  match winningOutcome with
  | Some w =>
      if Z.eqb w outcome
      then Num.mul (invested position)
             (Num.sub (Num.Fin 1) (Num.divBy (FEE_BPS cfg) 10000))
      else Num.Fin 0
  | None =>
      Num.orNumber marketValue (Num.mul (invested position) (Num.Fin (95 # 100)))
  end.

Definition netReturn (cfg : Config) (position : SimPosition) (outcome : Z)
    (marketValue : option Num.number) (winningOutcome : option Z)
  : Num.number :=
  let r := returnAmount cfg position outcome marketValue winningOutcome in
  Num.sub r (Num.mul r (Num.divBy (FEE_BPS cfg) 10000)).

(** [simulateSell]. *)
Definition simulateSell (cfg : Config) (stamp : Tracker.Stamp) (st : State)
    (marketSlug : string) (outcome : Z) (marketValue : option Num.number)
    (winningOutcome : option Z) : State * bool :=
  match positions st !! marketSlug with
  | None => (st, false)
  | Some position =>
      if negb (Z.eqb (SimJs.outcome position) outcome) then (st, false)
      else
        let netReturn := netReturn cfg position outcome marketValue winningOutcome in
        let balance' := Num.add (balance st) netReturn in
        let pnlAmount := Num.sub netReturn (invested position) in
        let resolved := match winningOutcome with Some _ => true | None => false end in
        let '(trades', _) :=
          Tracker.recordSell stamp
            {| Tracker.sd_marketSlug := marketSlug;
               Tracker.sd_outcome := outcome;
               Tracker.sd_returnAmount :=
                 Num.toAmount (Num.mul netReturn (Num.Fin e6));
               Tracker.sd_actualReturnReceived :=
                 Num.toAmount (Num.mul netReturn (Num.Fin e6));
               Tracker.sd_txHash := None;
               Tracker.sd_targetWalletAction :=
                 Some (if resolved then "MARKET_RESOLVED" else "CLOSE_POSITION");
               Tracker.sd_relatedBuyTradeId := None;
               Tracker.sd_pnlAmount :=
                 Num.toAmount (Num.mul pnlAmount (Num.Fin e6)) |}
            (tradeTracker st) in
        ({| balance := balance'; startingBalance := startingBalance st;
            positions := delete marketSlug (positions st);
            tradeTracker := trades' |},
         true)
  end.

(** The finite part: a configuration, a position and a state of [Sim]
    seen as ones of this module. *)
Definition ofConfig (cfg : Sim.Config) : Config :=
  {| STARTING_BALANCE_USDC := Num.Fin (Sim.STARTING_BALANCE_USDC cfg);
     BET_MULTIPLIER := Num.Fin (Sim.BET_MULTIPLIER cfg);
     MIN_BET_USDC := Num.Fin (Sim.MIN_BET_USDC cfg);
     MAX_BET_USDC := Num.Fin (Sim.MAX_BET_USDC cfg);
     SLIPPAGE_BPS := Num.Fin (Sim.SLIPPAGE_BPS cfg);
     FEE_BPS := Num.Fin (Sim.FEE_BPS cfg) |}.

Definition ofPosition (p : Sim.SimPosition) : SimPosition :=
  {| outcome := Sim.outcome p; invested := Num.Fin (Sim.invested p);
     tokens := Num.Fin (Sim.tokens p) |}.

Definition ofState (st : Sim.State) : State :=
  {| balance := Num.Fin (Sim.balance st);
     startingBalance := Num.Fin (Sim.startingBalance st);
     positions := ofPosition <$> Sim.positions st;
     tradeTracker := Sim.tradeTracker st |}.

End SimJs.

(** ** The live bot (configuration, differ, open leg, close leg, poll) *)

Module Bot.
Import Js Feed.

(** The environment variables the Config block reads.  A numeric variable
    is [None] when unset or empty and its [Number(...)] otherwise. *)
Record ProcessEnv := mkProcessEnv {
  env_RPC_URL : option string;
  env_TARGET_WALLET : option string;
  env_PRIVATE_KEY : option string;
  env_BET_MULTIPLIER : option Q;
  env_MIN_BET_USDC : option Q;
  env_MAX_BET_USDC : option Q;
  env_SLIPPAGE_BPS : option Q
}.

Record Config := mkConfig {
  BET_MULTIPLIER : Q;
  MIN_BET_USDC : Q;
  MAX_BET_USDC : Q;
  SLIPPAGE_BPS : Q
}.

(** Lines 17-20: the trading constants and their defaults. *)
Definition loadConfig (env : ProcessEnv) : Config :=
  {| BET_MULTIPLIER := default 1%Q (env_BET_MULTIPLIER env);
     MIN_BET_USDC := default 1%Q (env_MIN_BET_USDC env);
     MAX_BET_USDC := default 100%Q (env_MAX_BET_USDC env);
     SLIPPAGE_BPS := default 200%Q (env_SLIPPAGE_BPS env) |}.



Record LastSeen := mkLastSeen {
  ls_outcomeIndex : Z;
  ls_tokensBalance : Z
}.

Record OurPosition := mkOurPosition {
  op_outcomeIndex : Z;
  op_amount : Z;
  op_marketAddress : string;
  op_collateralToken : string;
  op_decimals : nat;
  op_tradeId : option string
}.

(** A trade transaction handed to the chain. *)
Inductive Tx :=
| TxBuy (marketAddress : string) (investment outcomeIndex minTokens : Z)
| TxSell (marketAddress : string) (returnAmount outcomeIndex maxTokens : Z).

(** The module-level state, the ledger, and the trades submitted so far.
    [tradeTracker] is assigned in [main] before the first poll, so it is
    never null while positions are processed. *)
Record State := mkState {
  lastSeenPositions : gmap string LastSeen;
  ourPositions : gmap string OurPosition;
  isInitialSync : bool;
  tradeTracker : list Tracker.Trade;
  submitted : list Tx
}.

Definition setLastSeen (m : gmap string LastSeen) (st : State) : State :=
  {| lastSeenPositions := m; ourPositions := ourPositions st;
     isInitialSync := isInitialSync st; tradeTracker := tradeTracker st;
     submitted := submitted st |}.

Definition setOurPositions (m : gmap string OurPosition) (st : State) : State :=
  {| lastSeenPositions := lastSeenPositions st; ourPositions := m;
     isInitialSync := isInitialSync st; tradeTracker := tradeTracker st;
     submitted := submitted st |}.

Definition setInitialSync (b : bool) (st : State) : State :=
  {| lastSeenPositions := lastSeenPositions st; ourPositions := ourPositions st;
     isInitialSync := b; tradeTracker := tradeTracker st;
     submitted := submitted st |}.

Definition setTradeTracker (l : list Tracker.Trade) (st : State) : State :=
  {| lastSeenPositions := lastSeenPositions st; ourPositions := ourPositions st;
     isInitialSync := isInitialSync st; tradeTracker := l;
     submitted := submitted st |}.

Definition submit (tx : Tx) (st : State) : State :=
  {| lastSeenPositions := lastSeenPositions st; ourPositions := ourPositions st;
     isInitialSync := isInitialSync st; tradeTracker := tradeTracker st;
     submitted := submitted st ++ [tx] |}.

(** What the chain answers during one open leg. *)
Record OpenOracle := mkOpenOracle {
  usdcBalanceOf : option Z;        (* usdc.balanceOf(wallet) *)
  usdcApprovalOk : bool;           (* ensureUsdcApproval(...) *)
  calcBuyAmount : option Z;        (* marketContract.calcBuyAmount(...) *)
  buyGasEstimate : option Z;       (* estimateGasFor(..., 'buy', ...) *)
  buyFeeData : bool;               (* txOverrides: getFeeData answered *)
  buyTx : option string;           (* marketContract.buy(...): the hash *)
  buyReceipt : bool                (* buyTx.wait(CONFIRMATIONS) resolved *)
}.

(** What the chain answers during one close leg. *)
Record CloseOracle := mkCloseOracle {
  marketReads : bool;              (* positionId(0), positionId(1), conditionalTokens() *)
  tokenBalanceOf : option Z;       (* erc1155.balanceOf(wallet, tokenId) *)
  erc1155ApprovalOk : bool;        (* ensureErc1155Approval(...) *)
  sellGasEstimate : option Z;      (* estimateGasFor(..., 'sell', ...) *)
  sellFeeData : bool;              (* txOverrides: getFeeData answered *)
  sellTx : option string;          (* marketContract.sell(...): the hash *)
  sellReceipt : bool               (* sellTx.wait(CONFIRMATIONS) resolved *)
}.

(** Line 419: the sized investment of the open leg. *)
Definition ourInvestmentNumber (cfg : Config) : Q :=
  Qmax (MIN_BET_USDC cfg)
       (Qmin (MAX_BET_USDC cfg) (MIN_BET_USDC cfg * BET_MULTIPLIER cfg)).

(** [if (!gasEst)]: null and 0n are both falsy. *)
Definition gasOk (g : option Z) : bool :=
  match g with Some z => negb (Z.eqb z 0) | None => false end.

(** [replicateOpen]; every [return] and every caught exception leaves
    the state as it is at that point. *)
Definition replicateOpen (cfg : Config) (stamp : Tracker.Stamp)
    (chain : OpenOracle) (slug : string) (market : Market) (outcomeIndex : Z)
    (st : State) : State :=
  if String.eqb (m_address market) "" then st else
  let marketAddress := m_address market in
  match m_collateralToken market with
  | None => st
  | Some token =>
    let collateralTokenAddress := ct_address token in
    let decimals := ct_decimals token in
    let ourInvestmentNumber := ourInvestmentNumber cfg in
    (* toFixed(decimals) is a RangeError beyond 100 digits *)
    if Nat.ltb 100 decimals then st else
    let investment := parseUnitsFixed ourInvestmentNumber decimals in
    match usdcBalanceOf chain with
    | None => st
    | Some usdcBal =>
      if Z.ltb usdcBal investment then st else
      if negb (usdcApprovalOk chain) then st else
      match calcBuyAmount chain, BigIntOfNumber (SLIPPAGE_BPS cfg) with
      | Some expectedTokens, Some slippage =>
        let minOutcomeTokensToBuy :=
          (expectedTokens - Z.quot (expectedTokens * slippage) 10000)%Z in
        if negb (gasOk (buyGasEstimate chain)) then st else
        if negb (buyFeeData chain) then st else
        match buyTx chain with
        | None => st
        | Some hash =>
          let st1 := submit (TxBuy marketAddress investment outcomeIndex
                               minOutcomeTokensToBuy) st in
          if negb (buyReceipt chain) then st1 else
          let '(trades', tradeId) :=
            Tracker.recordBuy stamp
              {| Tracker.bd_marketSlug := slug;
                 Tracker.bd_outcome := outcomeIndex;
                 Tracker.bd_investmentAmount := AmtInt investment;
                 Tracker.bd_txHash := Some hash;
                 Tracker.bd_targetWalletAction := Some "NEW_POSITION" |}
              (tradeTracker st1) in
          setOurPositions
            (<[slug := {| op_outcomeIndex := outcomeIndex;
                          op_amount := investment;
                          op_marketAddress := marketAddress;
                          op_collateralToken := collateralTokenAddress;
                          op_decimals := decimals;
                          op_tradeId := Some tradeId |}]> (ourPositions st1))
            (setTradeTracker trades' st1)
        end
      | _, _ => st
      end
    end
  end.

(** [replicateClose]. *)
Definition replicateClose (stamp : Tracker.Stamp) (chain : CloseOracle)
    (slug : string) (market : Market) (outcomeIndex : Z) (st : State) : State :=
  match ourPositions st !! slug with
  | None => st
  | Some ourPos =>
    if negb (Z.eqb (op_outcomeIndex ourPos) outcomeIndex) then st else
    if String.eqb (m_address market) ""
    then setOurPositions (delete slug (ourPositions st)) st else
    let marketAddress := op_marketAddress ourPos in
    if negb (marketReads chain) then st else
    match tokenBalanceOf chain with
    | None => st
    | Some balance =>
      if Z.eqb balance 0
      then setOurPositions (delete slug (ourPositions st)) st else
      if negb (erc1155ApprovalOk chain) then st else
      let investedAmount := op_amount ourPos in
      let returnAmount := (investedAmount - Z.quot investedAmount 100)%Z in
      if negb (gasOk (sellGasEstimate chain)) then st else
      if negb (sellFeeData chain) then st else
      match sellTx chain with
      | None => st
      | Some hash =>
        let st1 := submit (TxSell marketAddress returnAmount outcomeIndex balance) st in
        if negb (sellReceipt chain) then st1 else
        let pnlAmount := (returnAmount - investedAmount)%Z in
        let '(trades', _) :=
          Tracker.recordSell stamp
            {| Tracker.sd_marketSlug := slug;
               Tracker.sd_outcome := outcomeIndex;
               Tracker.sd_returnAmount := AmtInt returnAmount;
               Tracker.sd_actualReturnReceived := AmtInt returnAmount;
               Tracker.sd_txHash := Some hash;
               Tracker.sd_targetWalletAction := Some "CLOSE_POSITION";
               Tracker.sd_relatedBuyTradeId := orNull (op_tradeId ourPos);
               Tracker.sd_pnlAmount := AmtInt pnlAmount |}
            (tradeTracker st1) in
        setOurPositions (delete slug (ourPositions st1))
          (setTradeTracker trades' st1)
      end
    end
  end.

(** Lines 329-347: the side the target holds and its balance. *)
Definition targetOutcome (yesBalance noBalance : Z) : option (Z * Z) :=
  if Z.ltb 0 yesBalance && Z.eqb noBalance 0 then Some (1%Z, yesBalance)
  else if Z.ltb 0 noBalance && Z.eqb yesBalance 0 then Some (0%Z, noBalance)
  else if Z.ltb 0 yesBalance && Z.ltb 0 noBalance
       then (if Z.ltb noBalance yesBalance then Some (1%Z, yesBalance)
             else Some (0%Z, noBalance))
  else None.

(** Lines 383-385: the relative increase, in percent. *)
Definition increasePercent (targetBalance lastBalance : Z) : Z :=
  if Z.ltb 0 lastBalance
  then Z.quot ((targetBalance - lastBalance) * 100) lastBalance
  else 0%Z.

(** What one call of [processPosition] may consume: the answers of the
    chain and the stamps for the close leg and for the open leg. *)
Record World := mkWorld {
  closeChain : CloseOracle;
  closeStamp : Tracker.Stamp;
  openChain : OpenOracle;
  openStamp : Tracker.Stamp
}.

(** [processPosition]. *)
Definition processPosition (cfg : Config) (w : World) (st : State)
    (position : Position) : State :=
  match p_market position with
  | None => st
  | Some market =>
    if String.eqb (m_slug market) "" then st else
    let slug := m_slug market in
    let status := m_status market in
    if String.eqb status "RESOLVED" || m_closed market then st else
    match p_tokensBalance position with
    | None => st
    | Some tokensBalance =>
      let yesBalance := orZero (tb_yes tokensBalance) in
      let noBalance := orZero (tb_no tokensBalance) in
      match targetOutcome yesBalance noBalance with
      | None =>
          match lastSeenPositions st !! slug with
          | Some lastSeen =>
              let st1 := replicateClose (closeStamp w) (closeChain w) slug market
                           (ls_outcomeIndex lastSeen) st in
              setLastSeen (delete slug (lastSeenPositions st1)) st1
          | None => st
          end
      | Some (targetOutcome, targetBalance) =>
          let seen := {| ls_outcomeIndex := targetOutcome;
                         ls_tokensBalance := targetBalance |} in
          match lastSeenPositions st !! slug with
          | None =>
              let st1 :=
                if isInitialSync st then st
                else replicateOpen cfg (openStamp w) (openChain w) slug market
                       targetOutcome st in
              setLastSeen (<[slug := seen]> (lastSeenPositions st1)) st1
          | Some lastSeen =>
              if negb (Z.eqb (ls_outcomeIndex lastSeen) targetOutcome) then
                let st1 := replicateClose (closeStamp w) (closeChain w) slug market
                             (ls_outcomeIndex lastSeen) st in
                let st2 := replicateOpen cfg (openStamp w) (openChain w) slug market
                             targetOutcome st1 in
                setLastSeen (<[slug := seen]> (lastSeenPositions st2)) st2
              else
                setLastSeen (<[slug := seen]> (lastSeenPositions st)) st
          end
      end
    end
  end.

(** The [for] loop of [poll]; [worlds i] serves the [i]-th position. *)
Fixpoint pollLoop (cfg : Config) (worlds : nat -> World) (i : nat)
    (st : State) (ps : list Position) : State :=
  match ps with
  | [] => st
  | pos :: rest =>
      pollLoop cfg worlds (S i) (processPosition cfg (worlds i) st pos) rest
  end.

(** [poll] after the fetch (a failed fetch is the empty list): an empty
    feed returns at once; otherwise every position is processed and the
    initial-sync flag is cleared. *)
Definition poll (cfg : Config) (worlds : nat -> World) (st : State)
    (fetched : list Position) : State :=
  match fetched with
  | [] => st
  | _ => setInitialSync false (pollLoop cfg worlds 0 st fetched)
  end.

(** The state when [main] starts monitoring: the maps as [loadState]
    filled them, the ledger as the tracker loaded it. *)
Definition init (lastSeen : gmap string LastSeen)
    (ours : gmap string OurPosition) (ledger : list Tracker.Trade) : State :=
  {| lastSeenPositions := lastSeen; ourPositions := ours;
     isInitialSync := true; tradeTracker := ledger; submitted := [] |}.

End Bot.

(** ** Notions the properties are stated with *)

Module Props.
Import Js Tracker.

(** The integer a ledger amount stands for; an amount that is absent or
    not an integer text stands for nothing. *)
Definition intValue (a : amount) : Z :=
  match a with AmtInt z => z | _ => 0%Z end.

(** The return of a SELL: the actual return when the entry has one, the
    estimated return otherwise. *)
Definition returnOf (t : Trade) : Z :=
  match t_actualReturnReceived t with
  | AmtAbsent => intValue (t_returnAmount t)
  | actual => intValue actual
  end.

Definition sumZ (l : list Z) : Z := foldr Z.add 0%Z l.

(** Sum of the investment amounts of the BUY entries. *)
Definition sumInvested (trades : list Trade) : Z :=
  sumZ (map (fun t => intValue (t_investmentAmount t)) (List.filter isBuy trades)).

(** Sum of the returns of the SELL entries. *)
Definition sumReturned (trades : list Trade) : Z :=
  sumZ (map returnOf (List.filter isSell trades)).

(** The most recent OPEN BUY for a market and outcome: the last match in
    ledger order. *)
Definition mostRecentOpenBuy (marketSlug : string) (outcome : Z)
    (trades : list Trade) : option Trade :=
  List.find (isOpenBuyFor marketSlug outcome) (rev trades).

(** The markets of the entries [getOpenPositions] returns, in order. *)
Definition openSlugs (trades : list Trade) : list string :=
  map t_marketSlug (getOpenPositions trades).

(** At most one open BUY per market. *)
Definition oneOpenPerMarket (trades : list Trade) : Prop :=
  NoDup (openSlugs trades).

Definition hasOpenBuy (marketSlug : string) (trades : list Trade) : bool :=
  existsb (fun t => String.eqb (t_marketSlug t) marketSlug)
          (getOpenPositions trades).

(** The mutating operations of the ledger. *)
Inductive LedgerOp :=
| OpBuy (stamp : Stamp) (data : BuyData)
| OpSell (stamp : Stamp) (data : SellData)
| OpClose (clock tradeId : string) (cd : CloseData).

Definition applyOp (trades : list Trade) (op : LedgerOp) : list Trade :=
  match op with
  | OpBuy stamp data => fst (recordBuy stamp data trades)
  | OpSell stamp data => fst (recordSell stamp data trades)
  | OpClose clock tradeId cd => fst (closeTrade clock tradeId cd trades)
  end.

Definition applyOps (trades : list Trade) (ops : list LedgerOp) : list Trade :=
  fold_left applyOp ops trades.

(** Every [recordBuy] of the sequence is for a market that has no open
    BUY when it is called. *)
Fixpoint buysGuarded (trades : list Trade) (ops : list LedgerOp) : bool :=
  match ops with
  | [] => true
  | op :: rest =>
      match op with
      | OpBuy _ data => negb (hasOpenBuy (bd_marketSlug data) trades)
      | _ => true
      end && buysGuarded (applyOp trades op) rest
  end.

(** Two entries that differ at most in the fields a closure or a link
    writes. *)
Definition sameEntry (a b : Trade) : Prop :=
  t_id a = t_id b /\ t_type a = t_type b /\ t_timestamp a = t_timestamp b
  /\ t_marketSlug a = t_marketSlug b /\ t_outcome a = t_outcome b
  /\ t_investmentAmount a = t_investmentAmount b
  /\ t_returnAmount a = t_returnAmount b
  /\ t_actualReturnReceived a = t_actualReturnReceived b
  /\ t_txHash a = t_txHash b
  /\ t_targetWalletAction a = t_targetWalletAction b
  /\ t_pnlAmount a = t_pnlAmount b.

Definition isSellOf (marketSlug : string) (outcome : Z) (t : Trade) : Prop :=
  t_type t = SELL /\ t_marketSlug t = marketSlug /\ t_outcome t = outcome.

Definition isBuyOf (marketSlug : string) (outcome : Z) (t : Trade) : Prop :=
  t_type t = BUY /\ t_marketSlug t = marketSlug /\ t_outcome t = outcome
  /\ t_status t = OPEN.

(** What a side switch from [prev] to [next] appends to the ledger: the
    SELL of the old side exactly when the close leg completed ([closed]),
    followed by the BUY of the new side exactly when the open leg
    completed ([opened]). *)
Definition closeThenOpen (marketSlug : string) (prev next : Z)
    (closed opened : bool) (appended : list Trade) : Prop :=
  exists sells buys,
    appended = sells ++ buys
    /\ (if closed then exists s, sells = [s] /\ isSellOf marketSlug prev s
        else sells = [])
    /\ (if opened then exists b, buys = [b] /\ isBuyOf marketSlug next b
        else buys = []).

(** The close leg gets as far as recording the SELL (lines 499-587): the
    bot holds a position on the side to close, the market has an address,
    the chain reads are answered, there are tokens to sell, the ERC1155
    approval is given, gas is estimated, fee data is served, the
    transaction is sent and its receipt arrives. *)
Definition closeLegCompletes (chain : Bot.CloseOracle) (slug : string)
    (market : Feed.Market) (outcomeIndex : Z) (st : Bot.State) : bool :=
  match Bot.ourPositions st !! slug with
  | None => false
  | Some ourPos =>
      Z.eqb (Bot.op_outcomeIndex ourPos) outcomeIndex
      && negb (String.eqb (Feed.m_address market) "")
      && Bot.marketReads chain
      && match Bot.tokenBalanceOf chain with
         | Some balance => negb (Z.eqb balance 0)
         | None => false
         end
      && Bot.erc1155ApprovalOk chain
      && Bot.gasOk (Bot.sellGasEstimate chain)
      && Bot.sellFeeData chain
      && match Bot.sellTx chain with Some _ => true | None => false end
      && Bot.sellReceipt chain
  end.

(** The open leg gets as far as recording the BUY (lines 403-481): the
    market has an address and a collateral token, the USDC balance covers
    the sized investment, the approval is given, the quote is served, the
    slippage setting is an integer, gas is estimated, fee data is served,
    the transaction is sent and its receipt arrives. *)
Definition openLegCompletes (cfg : Bot.Config) (chain : Bot.OpenOracle)
    (market : Feed.Market) : bool :=
  negb (String.eqb (Feed.m_address market) "")
  && match Feed.m_collateralToken market with
     | None => false
     | Some token =>
         negb (Nat.ltb 100 (Feed.ct_decimals token))
         && match Bot.usdcBalanceOf chain with
            | Some usdcBal =>
                negb (Z.ltb usdcBal
                        (parseUnitsFixed (Bot.ourInvestmentNumber cfg)
                           (Feed.ct_decimals token)))
            | None => false
            end
         && Bot.usdcApprovalOk chain
         && match Bot.calcBuyAmount chain with Some _ => true | None => false end
         && match BigIntOfNumber (Bot.SLIPPAGE_BPS cfg) with
            | Some _ => true
            | None => false
            end
         && Bot.gasOk (Bot.buyGasEstimate chain)
         && Bot.buyFeeData chain
         && match Bot.buyTx chain with Some _ => true | None => false end
         && Bot.buyReceipt chain
     end.

(** Lines 244-246 of [runSimulation]: the target's investment the
    simulator sizes its buy from. *)
Definition targetInvestmentOf (cfg : Sim.Config) (pos : Feed.Position)
    (targetOutcome : Z) : Q :=
  match (if Z.eqb targetOutcome 0 then Feed.p_no pos else Feed.p_yes pos)
        ≫= Feed.sp_cost with
  | Some targetCostRaw => (targetCostRaw / e6)%Q
  | None => Sim.MIN_BET_USDC cfg
  end.

(** The balance of the simulator covers the buy sized from
    [targetInvestment]. *)
Definition simBuyFits (cfg : Sim.Config) (st : Sim.State)
    (targetInvestment : Q) : bool :=
  negb (Qltb (Sim.balance st) (Sim.ourInvestment cfg targetInvestment)).

(** The usual clamp of [x] into [[lo, hi]]. *)
Definition clamp (x lo hi : Q) : Q :=
  if Qltb x lo then lo else if Qltb hi x then hi else x.

(** The simulator calls the specification quantifies over. *)
Inductive SimOp :=
| OpSimBuy (stamp : Stamp) (marketSlug : string) (outcome : Z)
    (targetInvestment : Q)
| OpSimSell (stamp : Stamp) (marketSlug : string) (outcome : Z)
    (marketValue : option Q) (winningOutcome : option Z).

Definition applySimOp (cfg : Sim.Config) (st : Sim.State) (op : SimOp)
  : Sim.State :=
  match op with
  | OpSimBuy stamp slug outcome t => fst (Sim.simulateBuy cfg stamp st slug outcome t)
  | OpSimSell stamp slug outcome mv w =>
      fst (Sim.simulateSell cfg stamp st slug outcome mv w)
  end.

Definition applySimOps (cfg : Sim.Config) (st : Sim.State) (ops : list SimOp)
  : Sim.State :=
  fold_left (applySimOp cfg) ops st.

(** The amount a [simulateSell] call credits in state [st]: the net
    return when the call finds its position, nothing otherwise. *)
Definition credited (cfg : Sim.Config) (st : Sim.State) (op : SimOp) : Q :=
  match op with
  | OpSimBuy _ _ _ _ => 0%Q
  | OpSimSell _ slug outcome mv w =>
      match Sim.positions st !! slug with
      | Some position =>
          if Z.eqb (Sim.outcome position) outcome
          then Sim.netReturn cfg position outcome mv w
          else 0%Q
      | None => 0%Q
      end
  end.

(** Every sell of the sequence credits a non-negative amount. *)
Fixpoint creditsNonneg (cfg : Sim.Config) (st : Sim.State) (ops : list SimOp)
  : bool :=
  match ops with
  | [] => true
  | op :: rest =>
      Qle_bool 0 (credited cfg st op)
      && creditsNonneg cfg (applySimOp cfg st op) rest
  end.

(** Every market value handed to a sell is non-negative. *)
Definition marketValuesNonneg (ops : list SimOp) : Prop :=
  Forall (fun op => match op with
                    | OpSimSell _ _ _ (Some mv) _ => (0 <= mv)%Q
                    | _ => True
                    end) ops.

(** Every held position was entered with a non-negative investment. *)
Definition investedNonneg (st : Sim.State) : Prop :=
  map_Forall (fun _ p => (0 <= Sim.invested p)%Q) (Sim.positions st).

(** The simulator calls once more, over numbers that need not be
    finite. *)
Inductive Call :=
| CallBuy (stamp : Stamp) (marketSlug : string) (outcome : Z)
    (targetInvestment : Num.number)
| CallSell (stamp : Stamp) (marketSlug : string) (outcome : Z)
    (marketValue : option Num.number) (winningOutcome : option Z).

Definition applyCall (cfg : SimJs.Config) (st : SimJs.State) (c : Call)
  : SimJs.State :=
  match c with
  | CallBuy stamp slug outcome t =>
      fst (SimJs.simulateBuy cfg stamp st slug outcome t)
  | CallSell stamp slug outcome mv w =>
      fst (SimJs.simulateSell cfg stamp st slug outcome mv w)
  end.

Definition applyCalls (cfg : SimJs.Config) (st : SimJs.State)
    (calls : list Call) : SimJs.State :=
  fold_left (applyCall cfg) calls st.

(** A call of [Sim] seen as a call over numbers. *)
Definition ofSimOp (op : SimOp) : Call :=
  match op with
  | OpSimBuy stamp slug outcome t => CallBuy stamp slug outcome (Num.Fin t)
  | OpSimSell stamp slug outcome mv w =>
      CallSell stamp slug outcome (Num.Fin <$> mv) w
  end.

(** The three settings the sizer reads are finite numbers. *)
Definition sizerFinite (cfg : SimJs.Config) : bool :=
  Num.isFinite (SimJs.BET_MULTIPLIER cfg)
  && Num.isFinite (SimJs.MIN_BET_USDC cfg)
  && Num.isFinite (SimJs.MAX_BET_USDC cfg).

(** Every buy of the sequence is sized to a finite amount. *)
Definition sizedFinite (cfg : SimJs.Config) (calls : list Call) : bool :=
  forallb (fun c => match c with
                    | CallBuy _ _ _ t => Num.isFinite (SimJs.ourInvestment cfg t)
                    | CallSell _ _ _ _ _ => true
                    end) calls.

(** The amount a [simulateSell] call credits in state [st]. *)
Definition creditedBy (cfg : SimJs.Config) (st : SimJs.State) (c : Call)
  : Num.number :=
  match c with
  | CallBuy _ _ _ _ => Num.Fin 0
  | CallSell _ slug outcome mv w =>
      match SimJs.positions st !! slug with
      | Some position =>
          if Z.eqb (SimJs.outcome position) outcome
          then SimJs.netReturn cfg position outcome mv w
          else Num.Fin 0
      | None => Num.Fin 0
      end
  end.

(** Every sell of the sequence credits an amount that is [>= 0]. *)
Fixpoint creditsAtLeastZero (cfg : SimJs.Config) (st : SimJs.State)
    (calls : list Call) : bool :=
  match calls with
  | [] => true
  | c :: rest =>
      Num.ge (creditedBy cfg st c) (Num.Fin 0)
      && creditsAtLeastZero cfg (applyCall cfg st c) rest
  end.

(** How the live differ reads one feed element (lines 310-347). *)
Inductive Reading :=
| Skipped
| Gone (slug : string) (market : Feed.Market)
| Held (slug : string) (market : Feed.Market) (outcome balance : Z).

Definition reading (p : Feed.Position) : Reading :=
  match Feed.p_market p with
  | None => Skipped
  | Some market =>
      if String.eqb (Feed.m_slug market) "" then Skipped
      else if String.eqb (Feed.m_status market) "RESOLVED" || Feed.m_closed market
      then Skipped
      else match Feed.p_tokensBalance p with
           | None => Skipped
           | Some tb =>
               match Bot.targetOutcome (Feed.orZero (Feed.tb_yes tb))
                                       (Feed.orZero (Feed.tb_no tb)) with
               | None => Gone (Feed.m_slug market) market
               | Some (o, b) => Held (Feed.m_slug market) market o b
               end
           end
  end.

(** The markets a feed mentions, one entry per element that is read. *)
Definition slugOf (p : Feed.Position) : option string :=
  match reading p with
  | Skipped => None
  | Gone slug _ => Some slug
  | Held slug _ _ _ => Some slug
  end.

Definition slugs (feed : list Feed.Position) : list string := omap slugOf feed.

(** The last-seen map agrees with a feed element: nothing for a market
    the target has left, the side and balance for a market it holds. *)
Definition recorded (m : gmap string Bot.LastSeen) (p : Feed.Position) : Prop :=
  match reading p with
  | Skipped => True
  | Gone slug _ => m !! slug = None
  | Held slug _ o b => m !! slug = Some (Bot.mkLastSeen o b)
  end.

End Props.

(** ** Concrete ledgers, states and feeds used below *)

Module Examples.
Import Js Tracker.

(** One BUY, closed by a SELL that realised a profit of 5. *)
Definition oneWin : list Trade :=
  fst (recordSell (mkStamp "t1" "s1")
         (mkSellData "M1" 1 (AmtInt 15) (AmtInt 15) None None None (AmtInt 5))
         (fst (recordBuy (mkStamp "t0" "b1")
                 (mkBuyData "M1" 1 (AmtInt 10) None None) []))).

Definition stampB1 : Stamp := mkStamp "t0" "b1".
Definition stampB2 : Stamp := mkStamp "t1" "b2".
Definition stampS1 : Stamp := mkStamp "t2" "s1".

Definition buyM1 : BuyData := mkBuyData "M1" 1 (AmtInt 10) None None.

(** Two BUYs of the same market and outcome, both still open. *)
Definition twoOpen : list Trade :=
  fst (recordBuy stampB2 buyM1 (fst (recordBuy stampB1 buyM1 []))).

(** A SELL of that market and outcome that names no BUY. *)
Definition sellM1 : SellData :=
  mkSellData "M1" 1 (AmtInt 9) (AmtInt 9) None None None (AmtInt (-1)).

(** The settings of the README's example: copy at half size, between 5
    and 50. *)
Definition readmeEnv : Bot.ProcessEnv :=
  {| Bot.env_RPC_URL := Some "https://mainnet.base.org";
     Bot.env_TARGET_WALLET := Some "0x333Afd65D93A95eE6e66415C07785B2E341Bff2d";
     Bot.env_PRIVATE_KEY := Some "0xabcd";
     Bot.env_BET_MULTIPLIER := Some (1 # 2);
     Bot.env_MIN_BET_USDC := Some 5%Q;
     Bot.env_MAX_BET_USDC := Some 50%Q;
     Bot.env_SLIPPAGE_BPS := None |}.

Definition readmeLive : Bot.Config := Bot.loadConfig readmeEnv.

Definition readmeSim : Sim.Config :=
  {| Sim.STARTING_BALANCE_USDC := 100; Sim.BET_MULTIPLIER := 1 # 2;
     Sim.MIN_BET_USDC := 5; Sim.MAX_BET_USDC := 50;
     Sim.SLIPPAGE_BPS := 200; Sim.FEE_BPS := 100 |}.




(** An AMM market with a six-decimal collateral token. *)
Definition marketM2 : Feed.Market :=
  {| Feed.m_slug := "M2"; Feed.m_status := "FUNDED"; Feed.m_closed := false;
     Feed.m_address := "0xM2";
     Feed.m_collateralToken := Some (Feed.mkCollateralToken "0xUSDC" 6);
     Feed.m_winningOutcomeIndex := None |}.

(** A chain on which every step of an open leg succeeds. *)
Definition openSucceeds : Bot.OpenOracle :=
  {| Bot.usdcBalanceOf := Some 1000000000%Z; Bot.usdcApprovalOk := true;
     Bot.calcBuyAmount := Some 9000000%Z; Bot.buyGasEstimate := Some 120000%Z;
     Bot.buyFeeData := true; Bot.buyTx := Some "0xb0"; Bot.buyReceipt := true |}.

(** A chain on which every step of a close leg succeeds. *)
Definition closeSucceeds : Bot.CloseOracle :=
  {| Bot.marketReads := true; Bot.tokenBalanceOf := Some 4800000%Z;
     Bot.erc1155ApprovalOk := true; Bot.sellGasEstimate := Some 150000%Z;
     Bot.sellFeeData := true; Bot.sellTx := Some "0x5e"; Bot.sellReceipt := true |}.

Definition world : Bot.World :=
  {| Bot.closeChain := closeSucceeds; Bot.closeStamp := stampS1;
     Bot.openChain := openSucceeds; Bot.openStamp := stampB1 |}.

(** The bot after its initial sync, holding nothing. *)
Definition liveIdle : Bot.State :=
  Bot.setInitialSync false (Bot.init ∅ ∅ []).

(** The bot after its initial sync, holding YES in M2 (bought as b1)
    and having last seen the target on YES. *)
Definition liveHolding : Bot.State :=
  {| Bot.lastSeenPositions := {[ "M2" := Bot.mkLastSeen 1 1000 ]};
     Bot.ourPositions :=
       {[ "M2" := Bot.mkOurPosition 1 5000000 "0xM2" "0xUSDC" 6 (Some "b1") ]};
     Bot.isInitialSync := false;
     Bot.tradeTracker :=
       fst (recordBuy stampB1
              (mkBuyData "M2" 1 (AmtInt 5000000) (Some "0xb0") None) []);
     Bot.submitted := [] |}.

Definition feedOf (market : Feed.Market) (yes no : Z) : Feed.Position :=
  {| Feed.p_market := Some market;
     Feed.p_tokensBalance := Some (Feed.mkTokensBalance (Some yes) (Some no));
     Feed.p_yes := Some (Feed.mkSidePosition (Some 200000000%Q) None);
     Feed.p_no := Some (Feed.mkSidePosition (Some 200000000%Q) None);
     Feed.p_latestTrade := None |}.

(** M2 once it is resolved in favour of YES. *)
Definition marketM2resolved : Feed.Market :=
  {| Feed.m_slug := "M2"; Feed.m_status := "RESOLVED"; Feed.m_closed := false;
     Feed.m_address := "0xM2";
     Feed.m_collateralToken := Some (Feed.mkCollateralToken "0xUSDC" 6);
     Feed.m_winningOutcomeIndex := Some 1%Z |}.

(** A simulator holding YES in M2. *)
Definition simHolding : Sim.State :=
  {| Sim.balance := 50; Sim.startingBalance := 100;
     Sim.positions := {[ "M2" := Sim.mkSimPosition 1 50 49 ]};
     Sim.tradeTracker :=
       fst (recordBuy stampB1
              (mkBuyData "M2" 1 (AmtInt 50000000) None None) []) |}.

Definition simStamps : Sim.Stamps :=
  {| Sim.sellStamp := stampS1; Sim.buyStamp := stampB2 |}.

Definition worldSwitch : Bot.World :=
  {| Bot.closeChain := closeSucceeds; Bot.closeStamp := stampS1;
     Bot.openChain := openSucceeds; Bot.openStamp := stampB2 |}.

Definition marketOf (slug address : string) : Feed.Market :=
  {| Feed.m_slug := slug; Feed.m_status := "FUNDED"; Feed.m_closed := false;
     Feed.m_address := address;
     Feed.m_collateralToken := Some (Feed.mkCollateralToken "0xUSDC" 6);
     Feed.m_winningOutcomeIndex := None |}.

(** A first feed with three markets: YES in A, NO in B, both sides in C. *)
Definition threeMarkets : list Feed.Position :=
  [ feedOf (marketOf "A" "0xA") 700 0;
    feedOf (marketOf "B" "0xB") 0 300;
    feedOf (marketOf "C" "0xC") 20 90 ].

(** The bot as [main] leaves it when no state file exists. *)
Definition coldStart : Bot.State := Bot.init ∅ ∅ [].

Definition worlds (i : nat) : Bot.World := worldSwitch.

End Examples.

(** ** tradeTracker.js: the read-only queries *)

Module Queries.
Import Js Tracker.

(** [getTradesByMarket(marketSlug)]. *)
Definition getTradesByMarket (marketSlug : string) (trades : list Trade)
  : list Trade :=
  List.filter (fun t => String.eqb (t_marketSlug t) marketSlug) trades.

(** [Array.prototype.slice(start)] with one argument: a negative start
    counts from the end, and both ends are clamped to the array. *)
Definition sliceFrom {A} (start : Z) (l : list A) : list A :=
  let len := Z.of_nat (length l) in
  let k := if Z.ltb start 0 then Z.max (len + start) 0 else Z.min start len in
  drop (Z.to_nat k) l.

(** [getRecentTrades(count = 10)]: [this.trades.slice(-count).reverse()];
    [None] is a call without argument.  [-0] is [0] for [slice]. *)
Definition getRecentTrades (count : option Z) (trades : list Trade)
  : list Trade :=
  rev (sliceFrom (- default 10%Z count) trades).

End Queries.

(** ** The live bot: gas overrides and token approval *)

Module Chain.
Import Js.

(** [GAS_PRICE_GWEI] and [MAX_GAS_ETH] once [ethers.parseUnits] and
    [ethers.parseEther] have turned them into wei. *)
Record GasConfig := mkGasConfig {
  GAS_PRICE_WEI : Z;
  MAX_GAS_WEI : Z
}.

(** The defaults: 0.005 gwei and 0.015 ether. *)
Definition defaultGas : GasConfig :=
  {| GAS_PRICE_WEI := 5000000; MAX_GAS_WEI := 15000000000000000 |}.

(** What [provider.getFeeData()] answers; a field is [None] when null. *)
Record FeeData := mkFeeData {
  fee_maxFeePerGas : option Z;
  fee_gasPrice : option Z;
  fee_maxPriorityFeePerGas : option Z
}.

Record Overrides := mkOverrides {
  ov_gasLimit : option Z;
  ov_maxFeePerGas : Z;
  ov_maxPriorityFeePerGas : Z
}.

(** [txOverrides(provider, gasLimit)] once the fee data is there.  The
    callers pass a bigint or nothing, so [BigInt(gasLimit)] does not
    throw. *)
Definition txOverrides (gas : GasConfig) (fee : FeeData) (gasLimit : option Z)
  : Overrides :=
  let suggested :=
    match fee_maxFeePerGas fee with
    | Some v => v
    | None => default (GAS_PRICE_WEI gas) (fee_gasPrice fee)
    end in
  let priority := default 100000000%Z (fee_maxPriorityFeePerGas fee) in
  match gasLimit with
  | Some gl =>
      if Z.ltb 0 gl then
        let capPerGas := Z.quot (MAX_GAS_WEI gas) gl in
        let suggested' := if Z.ltb capPerGas suggested then capPerGas else suggested in
        let priority' := if Z.ltb suggested' priority then suggested' else priority in
        {| ov_gasLimit := Some gl; ov_maxFeePerGas := suggested';
           ov_maxPriorityFeePerGas := priority' |}
      else
        {| ov_gasLimit := Some gl; ov_maxFeePerGas := suggested;
           ov_maxPriorityFeePerGas := priority |}
  | None =>
      {| ov_gasLimit := None; ov_maxFeePerGas := suggested;
         ov_maxPriorityFeePerGas := priority |}
  end.

(** The padding every caller applies to a gas estimate:
    [(gasEst * 120n) / 100n + 10000n]. *)
Definition padGas (gasEst : Z) : Z := (Z.quot (gasEst * 120) 100 + 10000)%Z.

(** The loop of [readAllowance]: [allowance n] is what the [n]-th call of
    [usdc.allowance] answers ([None]: it throws), [call] counts the calls
    made so far, [remaining] the attempts left.  The result is [None] when
    the last attempt throws; the [return 0n] after the loop is kept. *)
Fixpoint readAllowanceLoop (allowance : nat -> option Z) (call remaining : nat)
  : option Z * nat :=
  match remaining with
  | O => (Some 0%Z, call)
  | S rest =>
      match allowance call with
      | Some v => (Some v, S call)
      | None =>
          match rest with
          | O => (None, S call)
          | S _ => readAllowanceLoop allowance (S call) rest
          end
      end
  end.

Definition readAllowance (allowance : nat -> option Z) (call : nat)
  : option Z * nat :=
  readAllowanceLoop allowance call 3.

(** What the chain answers during [ensureUsdcApproval].  For a
    transaction, [None]: the overrides or the submission throw, nothing is
    sent; [Some c]: it is sent and [c] tells whether [wait] resolves. *)
Record ApprovalChain := mkApprovalChain {
  allowanceAt : nat -> option Z;
  resetGasEstimate : option Z;
  resetTx : option bool;
  approveGasEstimate : option Z;
  approveTx : option bool
}.

(** [ensureUsdcApproval(wallet, usdc, marketAddress, needed)]: the answer
    and the amounts of the [approve] transactions sent, in order. *)
Definition ensureUsdcApproval (chain : ApprovalChain) (needed : Z)
  : bool * list Z :=
  let '(read, calls) := readAllowance (allowanceAt chain) 0 in
  let current := default 0%Z read in
  if Z.leb needed current then (true, []) else
  let reset : bool * list Z :=
    if Z.ltb 0 current then
      if negb (Bot.gasOk (resetGasEstimate chain)) then (false, [])
      else match resetTx chain with
           | None => (false, [])
           | Some false => (false, [0%Z])
           | Some true => (true, [0%Z])
           end
    else (true, []) in
  if negb (fst reset) then (false, snd reset) else
  if negb (Bot.gasOk (approveGasEstimate chain)) then (false, snd reset) else
  match approveTx chain with
  | None => (false, snd reset)
  | Some false => (false, snd reset ++ [needed])
  | Some true =>
      match fst (readAllowance (allowanceAt chain) calls) with
      | Some after => (Z.leb needed after, snd reset ++ [needed])
      | None => (false, snd reset ++ [needed])
      end
  end.

End Chain.

(** ** The live bot: the state file *)

Module Persist.
Import Js.

(** The parsed content of [STATE_FILE]: each field is the array of
    [slug, value] pairs of one map, [None] when the field is missing. *)
Record StateFile := mkStateFile {
  sf_lastSeenPositions : option (list (string * Bot.LastSeen));
  sf_ourPositions : option (list (string * Bot.OurPosition))
}.

(** [saveState()]: [Array.from(map.entries())] of both maps.  A [Map]
    lists its entries in insertion order, which a [gmap] does not keep; the
    order chosen here is the [gmap]'s. *)
Definition saveState (st : Bot.State) : StateFile :=
  {| sf_lastSeenPositions := Some (map_to_list (Bot.lastSeenPositions st));
     sf_ourPositions := Some (map_to_list (Bot.ourPositions st)) |}.

(** [for (const [slug, pos] of entries) map.set(slug, pos)]. *)
Definition setAll {V} (entries : list (string * V)) (m : gmap string V)
  : gmap string V :=
  fold_left (fun acc e => <[fst e := snd e]> acc) entries m.

(** [loadState()]: [None] is a missing or unreadable file. *)
Definition loadState (file : option StateFile) (st : Bot.State) : Bot.State :=
  match file with
  | None => st
  | Some data =>
      let st1 :=
        match sf_lastSeenPositions data with
        | Some entries =>
            Bot.setLastSeen (setAll entries (Bot.lastSeenPositions st)) st
        | None => st
        end in
      match sf_ourPositions data with
      | Some entries =>
          Bot.setOurPositions (setAll entries (Bot.ourPositions st1)) st1
      | None => st1
      end
  end.

(** A file [saveState] can have written for [st]: the entries of the two
    maps, in any order. *)
Definition savedFrom (st : Bot.State) (data : StateFile) : Prop :=
  exists seen ours,
    data = {| sf_lastSeenPositions := Some seen; sf_ourPositions := Some ours |}
    /\ seen ≡ₚ map_to_list (Bot.lastSeenPositions st)
    /\ ours ≡ₚ map_to_list (Bot.ourPositions st).

End Persist.

(** ** Further notions and scenarios *)

Module Notions.
Import Js Tracker Props.

(** How many entries a ledger operation appends. *)
Definition appends (op : LedgerOp) : nat :=
  match op with
  | OpBuy _ _ => 1
  | OpSell _ _ => 1
  | OpClose _ _ _ => 0
  end.

Definition appendedBy (ops : list LedgerOp) : nat :=
  foldr (fun op n => appends op + n) 0 ops.

Definition isSellTx (tx : Bot.Tx) : Prop :=
  match tx with Bot.TxSell _ _ _ _ => True | Bot.TxBuy _ _ _ _ => False end.

Definition isBuyTx (tx : Bot.Tx) : Prop :=
  match tx with Bot.TxBuy _ _ _ _ => True | Bot.TxSell _ _ _ _ => False end.

(** What a leg may do to the chain and to the ledger: at most one
    transaction, and no ledger entry without one. *)
Definition legOutcome (isTx : Bot.Tx -> Prop) (st st' : Bot.State)
    (txs : list Bot.Tx) : Prop :=
  Bot.submitted st' = Bot.submitted st ++ txs
  /\ length txs <= 1
  /\ Forall isTx txs
  /\ length (Bot.tradeTracker st') <= length (Bot.tradeTracker st) + length txs
  /\ length (Bot.tradeTracker st) <= length (Bot.tradeTracker st').

(** The open BUYs of one market. *)
Definition isOpenBuyOf (marketSlug : string) (t : Trade) : bool :=
  isBuy t && isOpen t && String.eqb (t_marketSlug t) marketSlug.

(** The outcomes of the open BUYs the ledger holds for a market. *)
Definition openOutcomes (marketSlug : string) (trades : list Trade) : list Z :=
  map t_outcome (List.filter (isOpenBuyOf marketSlug) trades).

(** The simulator's ledger and its positions tell the same story: the ids
    of the ledger are distinct, and a market has an open BUY exactly when
    a position is held for it, one BUY, of the side held. *)
Definition simConsistent (st : Sim.State) : Prop :=
  NoDup (map t_id (Sim.tradeTracker st))
  /\ forall slug,
       openOutcomes slug (Sim.tradeTracker st)
       = match Sim.positions st !! slug with
         | Some p => [Sim.outcome p]
         | None => []
         end.

Definition idUnused (id : string) (trades : list Trade) : bool :=
  negb (existsb (fun t => String.eqb (t_id t) id) trades).

(** The trade ids handed to a run are new: at each element of the feed the
    two ids on offer differ from each other and from every id of the
    ledger. *)
Fixpoint stampsFresh (cfg : Sim.Config) (stamps : nat -> Sim.Stamps) (i : nat)
    (st : Sim.State) (feed : list Feed.Position) : bool :=
  match feed with
  | [] => true
  | pos :: rest =>
      idUnused (freshId (Sim.sellStamp (stamps i))) (Sim.tradeTracker st)
      && idUnused (freshId (Sim.buyStamp (stamps i))) (Sim.tradeTracker st)
      && negb (String.eqb (freshId (Sim.sellStamp (stamps i)))
                          (freshId (Sim.buyStamp (stamps i))))
      && stampsFresh cfg stamps (S i)
           (Sim.processPosition cfg (stamps i) st pos) rest
  end.

(** A PnL amount that is no profit: a non-positive integer, or no
    integer at all. *)
Definition lossOrNothing (a : amount) : Prop :=
  match a with AmtInt z => (z <= 0)%Z | _ => True end.

(** No entry of the ledger counts as profitable. *)
Definition noProfit (trades : list Trade) : Prop :=
  Forall (fun t => isProfitable t = false) trades.

(** Every local position of the bot was bought for a non-negative
    amount. *)
Definition amountsNonneg (st : Bot.State) : Prop :=
  map_Forall (fun _ p => (0 <= Bot.op_amount p)%Z) (Bot.ourPositions st).

End Notions.

Module Scenarios.
Import Js Tracker Props.

(** A ledger of three entries: b1 closed by s1, b2 still open. *)
Definition threeEntries : list Trade :=
  applyOps []
    [ OpBuy Examples.stampB1 Examples.buyM1;
      OpSell Examples.stampS1 Examples.sellM1;
      OpBuy Examples.stampB2 (mkBuyData "M7" 0 (AmtInt 20) None None) ].

(** A SELL that names a BUY the ledger does not hold. *)
Definition sellDangling : SellData :=
  mkSellData "M9" 1 (AmtInt 9) (AmtInt 9) None None (Some "gone") (AmtInt (-1)).

Definition stampS2 : Stamp := mkStamp "t3" "s2".

(** Fee data far above the budget. *)
Definition greedyFee : Chain.FeeData :=
  {| Chain.fee_maxFeePerGas := Some 900000000000000%Z;
     Chain.fee_gasPrice := None;
     Chain.fee_maxPriorityFeePerGas := None |}.

(** An allowance call that throws twice, then answers 7. *)
Definition flakyAllowance (n : nat) : option Z :=
  match n with
  | 0 | 1 => None
  | _ => Some 7%Z
  end.

(** A chain on which the allowance is 3, both approvals go through and
    the allowance reads 5000000 afterwards. *)
Definition approving : Chain.ApprovalChain :=
  {| Chain.allowanceAt := fun n => match n with 0 => Some 3%Z | _ => Some 5000000%Z end;
     Chain.resetGasEstimate := Some 50000%Z;
     Chain.resetTx := Some true;
     Chain.approveGasEstimate := Some 50000%Z;
     Chain.approveTx := Some true |}.

(** A chain on which the ERC1155 approval of the close leg fails. *)
Definition closeBlocked : Bot.CloseOracle :=
  {| Bot.marketReads := true; Bot.tokenBalanceOf := Some 4800000%Z;
     Bot.erc1155ApprovalOk := false; Bot.sellGasEstimate := Some 150000%Z;
     Bot.sellFeeData := true; Bot.sellTx := Some "0x5e"; Bot.sellReceipt := true |}.

Definition worldBlocked : Bot.World :=
  {| Bot.closeChain := closeBlocked; Bot.closeStamp := Examples.stampS1;
     Bot.openChain := Examples.openSucceeds; Bot.openStamp := Examples.stampB2 |}.

(** The bot holding YES in M2 while also tracking market A. *)
Definition liveTwoMarkets : Bot.State :=
  Bot.setLastSeen
    (<["A" := Bot.mkLastSeen 0 10]> (Bot.lastSeenPositions Examples.liveHolding))
    Examples.liveHolding.

(** Feeds in which the target stays out of M2 while holding A. *)
Definition staysOut : list Feed.Position :=
  [ Examples.feedOf Examples.marketM2 0 0;
    Examples.feedOf (Examples.marketOf "A" "0xA") 0 10;
    Examples.feedOf Examples.marketM2 0 0 ].

(** The bot right after a restart: the maps of [liveHolding] reloaded, the
    initial-sync flag set again. *)
Definition restarted : Bot.State := Bot.setInitialSync true Examples.liveHolding.

(** Stamps with ids that are never repeated: "s0", "b0", "s1", "b1", ... *)
Definition numbered (prefix : string) (n : nat) : string :=
  prefix ++ String (Ascii.ascii_of_nat (48 + n)) "".

Definition simStampsAt (i : nat) : Sim.Stamps :=
  {| Sim.sellStamp := mkStamp "t" (numbered "s" i);
     Sim.buyStamp := mkStamp "t" (numbered "b" i) |}.

(** A simulated feed: the target holds YES in A, then NO in A (a switch),
    NO in C (which the balance left no longer covers), and YES in the
    resolved M2. *)
Definition simFeed : list Feed.Position :=
  [ Examples.feedOf (Examples.marketOf "A" "0xA") 700 0;
    Examples.feedOf (Examples.marketOf "A" "0xA") 0 700;
    Examples.feedOf (Examples.marketOf "C" "0xC") 0 90;
    Examples.feedOf Examples.marketM2resolved 5 0 ].

(** The bot after a first poll that found the target on YES in M2: the
    side is recorded, nothing is bought. *)
Definition liveRecorded : Bot.State :=
  Bot.poll Examples.readmeLive Examples.worlds Examples.coldStart
    [Examples.feedOf Examples.marketM2 1000 0].

(** The simulator's environment with [BET_MULTIPLIER=0,5], a text that
    [Number] turns into [NaN]. *)
Definition commaEnv : SimJs.ProcessEnv :=
  {| SimJs.env_STARTING_BALANCE_USDC := None;
     SimJs.env_BET_MULTIPLIER := Some Num.NaN;
     SimJs.env_MIN_BET_USDC := None;
     SimJs.env_MAX_BET_USDC := None;
     SimJs.env_SLIPPAGE_BPS := None;
     SimJs.env_FEE_BPS := None |}.

(** Two buys of 50 that empty a balance of 100, a buy that no longer
    fits, a sell at market value 12 and a buy of 5. *)
Definition numberCalls : list Call :=
  [ CallBuy Examples.stampB1 "M1" 1 (Num.Fin 200);
    CallBuy Examples.stampB2 "M3" 0 (Num.Fin 200);
    CallBuy (mkStamp "t2" "b3") "M4" 1 (Num.Fin 200);
    CallSell Examples.stampS1 "M1" 1 (Some (Num.Fin 12)) None;
    CallBuy (mkStamp "t3" "b4") "M4" 1 (Num.Fin 4) ].

End Scenarios.

(** * Properties *)

Import Js Tracker Props.

(** Case analysis on every branch a leg can take.  [split_branches tac]
    destructs the scrutinee of each [match] in the goal and tries [tac] on
    the branches; [split_early_returns tac] does the same but stops in front
    of the tracker call, so that the final branch keeps the call intact. *)
Ltac split_branches tac :=
  repeat (match goal with
          | |- context [match ?x with _ => _ end] => destruct x eqn:?
          end; try tac).

Ltac split_early_returns tac :=
  repeat (match goal with
          | |- context [match ?x with _ => _ end] =>
              lazymatch x with
              | Tracker.recordSell _ _ _ => fail
              | Tracker.recordBuy _ _ _ => fail
              | _ => destruct x eqn:?
              end
          end; try tac).

(** ** The ledger *)

Section LedgerStats.

Lemma fold_addInvested (l : list Trade) (acc : Z) :
  fold_left addInvested l acc
  = (acc + sumZ (map (fun t => intValue (t_investmentAmount t)) l))%Z.
Proof.
  revert acc. induction l as [|t l IH]; intros acc; simpl.
  - lia.
  - rewrite IH. unfold addInvested.
    destruct (t_investmentAmount t); simpl; lia.
Qed.

Lemma fold_addReturned (l : list Trade) (acc : Z) :
  fold_left addReturned l acc = (acc + sumZ (map returnOf l))%Z.
Proof.
  revert acc. induction l as [|t l IH]; intros acc; simpl.
  - lia.
  - rewrite IH. unfold addReturned, returnOf.
    destruct (t_actualReturnReceived t); simpl; try lia.
    destruct (t_returnAmount t); simpl; lia.
Qed.

Lemma filter_filter_and {A} (f g : A -> bool) (l : list A) :
  List.filter g (List.filter f l) = List.filter (fun x => f x && g x) l.
Proof.
  induction l as [|x l IH]; simpl; [reflexivity|].
  destruct (f x); simpl; [destruct (g x)|]; rewrite ?IH; reflexivity.
Qed.

Lemma closed_of_buys (trades : list Trade) :
  List.filter isClosed (List.filter isBuy trades) = getClosedPositions trades.
Proof. apply filter_filter_and. Qed.

Lemma open_of_buys (trades : list Trade) :
  List.filter isOpen (List.filter isBuy trades) = getOpenPositions trades.
Proof. apply filter_filter_and. Qed.

End LedgerStats.

(** C7. For every ledger, the recomputed statistics satisfy
    totalPnL = totalReturned - totalInvested over the integers, where
    totalInvested is the sum of the investment amounts of the BUY entries
    and totalReturned the sum of the returns of the SELL entries, the
    actual return taking precedence over the estimated one. *)
Theorem updateStats_pnl_exact (trades : list Trade) :
  totalPnL (getStats trades)
  = (totalReturned (getStats trades) - totalInvested (getStats trades))%Z
  /\ totalInvested (getStats trades) = sumInvested trades
  /\ totalReturned (getStats trades) = sumReturned trades.
Proof.
  unfold getStats, updateStats, sumInvested, sumReturned; simpl.
  rewrite fold_addInvested, fold_addReturned.
  repeat split; lia.
Qed.

Example stats_three_entries :
  let buy := buyTrade (mkStamp "t0" "b1")
               (mkBuyData "M1" 1 (AmtInt 10000000) None None) in
  let trades :=
    fst (recordSell (mkStamp "t1" "s1")
           (mkSellData "M1" 1 (AmtInt 9000000) (AmtInt 9900000) None None None
              (AmtInt (-100000)))
           [buy]) in
  totalInvested (getStats trades) = 10000000%Z
  /\ totalReturned (getStats trades) = 9900000%Z
  /\ totalPnL (getStats trades) = (-100000)%Z.
Proof. vm_compute. auto. Qed.

(** C9 (as amended). The win rate of the statistics is the PERCENTAGE of
    profitable closed positions, 100 * profitable-closed / total-closed,
    and it is 0 when no closed position exists; a closed BUY is profitable
    exactly when its realised PnL is an integer text greater than 0. *)
Theorem winRate_is_percentage (trades : list Trade) :
  let closed := getClosedPositions trades in
  let wins := List.filter isProfitable closed in
  (winRate (getStats trades)
   == if Nat.eqb (length closed) 0 then 0
      else 100 * (inject_Z (Z.of_nat (length wins))
                  / inject_Z (Z.of_nat (length closed))))%Q
  /\ closedPositions (getStats trades) = length closed
  /\ (forall t : Trade,
        isProfitable t
        = match t_realizedPnL t with AmtInt z => Z.ltb 0 z | _ => false end).
Proof.
  cbv zeta. unfold getStats, updateStats; simpl.
  rewrite closed_of_buys.
  split; [|split].
  - destruct (getClosedPositions trades) as [|c cs] eqn:E; simpl.
    + reflexivity.
    + ring.
  - reflexivity.
  - intros t. unfold isProfitable. destruct (t_realizedPnL t); reflexivity.
Qed.

(** C9, counterexample: with one closed position, which is profitable,
    profitable-closed / total-closed is 1 while the win rate is 100. *)
Lemma winRate_not_ratio :
  length (getClosedPositions Examples.oneWin) = 1
  /\ length (List.filter isProfitable (getClosedPositions Examples.oneWin)) = 1
  /\ (winRate (getStats Examples.oneWin) == 100)%Q
  /\ ~ (winRate (getStats Examples.oneWin)
        == inject_Z (Z.of_nat 1) / inject_Z (Z.of_nat 1))%Q.
Proof.
  repeat split; try reflexivity.
  vm_compute. discriminate.
Qed.

Section LedgerShape.

Lemma setLastRelated_snoc (id : string) (l : list Trade) (t : Trade) :
  exists t', setLastRelated id (l ++ [t]) = l ++ [t']
             /\ t_relatedBuyTradeId t' = Some id
             /\ sameEntry t' t /\ t_status t' = t_status t
             /\ t_txHash t' = t_txHash t.
Proof.
  induction l as [|x l [t' (IH & Hrel & Hsame)]].
  - eexists. split; [reflexivity|]. unfold sameEntry. simpl. tauto.
  - exists t'. split; [|tauto].
    change ((x :: l) ++ [t]) with (x :: (l ++ [t])).
    destruct (l ++ [t]) as [|y r] eqn:E.
    + destruct l; discriminate.
    + simpl. simpl in IH. rewrite IH. reflexivity.
Qed.

Lemma closeTrade_split (clock id : string) (cd : CloseData)
    (pre post : list Trade) (b : Trade) :
  Forall (fun t => t_id t <> id) pre ->
  t_id b = id ->
  closeTrade clock id cd (pre ++ b :: post)
  = (pre ++ closeFields clock cd b :: post, true).
Proof.
  intros Hpre Hb. induction Hpre as [|x pre Hx _ IH]; simpl.
  - rewrite Hb, String.eqb_refl. reflexivity.
  - destruct (String.eqb_spec (t_id x) id) as [E|_]; [contradiction|].
    rewrite IH. reflexivity.
Qed.

Lemma find_split {A} (f : A -> bool) (pre post : list A) (b : A) :
  Forall (fun t => f t = false) pre -> f b = true ->
  List.find f (pre ++ b :: post) = Some b.
Proof.
  intros Hpre Hb. induction Hpre as [|x pre Hx _ IH]; simpl.
  - rewrite Hb. reflexivity.
  - rewrite Hx. exact IH.
Qed.

Lemma closeTrade_length (clock id : string) (cd : CloseData) (l : list Trade) :
  Forall2 sameEntry (fst (closeTrade clock id cd l)) l.
Proof.
  assert (R : forall t, sameEntry t t) by (intros t; unfold sameEntry; tauto).
  induction l as [|t l IH]; simpl; [constructor|].
  destruct (String.eqb (t_id t) id); simpl.
  - constructor; [unfold sameEntry; simpl; tauto|].
    clear IH. induction l; constructor; auto.
  - destruct (closeTrade clock id cd l) as [rest' found]; simpl in *.
    constructor; auto.
Qed.

End LedgerShape.

(** C6 (as amended). A recordSell that carries no relatedBuyTradeId is
    linked to the FIRST (oldest) OPEN BUY of the same market and outcome in
    ledger order, ids being distinct up to that entry: the SELL is appended
    with that BUY's id, and that BUY is the one closed. *)
Theorem recordSell_links_first_open_buy (stamp : Stamp) (data : SellData)
    (pre post : list Trade) (b : Trade) :
  truthyStr (sd_relatedBuyTradeId data) = false ->
  isOpenBuyFor (sd_marketSlug data) (sd_outcome data) b = true ->
  Forall (fun t => isOpenBuyFor (sd_marketSlug data) (sd_outcome data) t = false) pre ->
  Forall (fun t => t_id t <> t_id b) pre ->
  exists closed sell,
    fst (recordSell stamp data (pre ++ b :: post))
    = pre ++ closed :: post ++ [sell]
    /\ t_type sell = SELL
    /\ t_relatedBuyTradeId sell = Some (t_id b)
    /\ sameEntry closed b
    /\ t_status closed = CLOSED
    /\ t_realizedPnL closed = sd_pnlAmount data.
Proof.
  intros Hnone Hb Hpre Hids.
  unfold recordSell, orNull. rewrite Hnone.
  unfold findOpenBuy.
  rewrite <- app_assoc, <- app_comm_cons.
  rewrite (find_split _ pre (post ++ [sellTrade stamp data]) b Hpre Hb).
  cbn [fst].
  rewrite (closeTrade_split _ _ _ pre (post ++ [sellTrade stamp data]) b Hids eq_refl).
  cbn [fst].
  rewrite app_comm_cons, app_assoc.
  destruct (setLastRelated_snoc (t_id b)
              (pre ++ closeFields (now stamp)
                 {| cd_closedAt := Some (t_timestamp (sellTrade stamp data));
                    cd_closeTxHash := t_txHash (sellTrade stamp data);
                    cd_realizedPnL := sd_pnlAmount data |} b :: post)
              (sellTrade stamp data))
    as (sell & Heq & Hrel & Hsame & _).
  eexists _, sell. rewrite Heq, <- app_assoc, <- app_comm_cons.
  split; [reflexivity|].
  split; [destruct Hsame as (_ & Ht & _); rewrite Ht; reflexivity|].
  split; [exact Hrel|].
  split; [unfold sameEntry; simpl; tauto|].
  split; reflexivity.
Qed.

Lemma recordSell_links_first_open_buy_witness :
  exists closed sell,
    fst (recordSell Examples.stampS1 Examples.sellM1 Examples.twoOpen)
    = [closed; buyTrade Examples.stampB2 Examples.buyM1; sell]
    /\ t_relatedBuyTradeId sell = Some "b1"
    /\ t_status closed = CLOSED.
Proof.
  destruct (recordSell_links_first_open_buy Examples.stampS1 Examples.sellM1
              [] [buyTrade Examples.stampB2 Examples.buyM1]
              (buyTrade Examples.stampB1 Examples.buyM1))
    as (closed & sell & Heq & _ & Hrel & _ & Hst & _).
  - reflexivity.
  - reflexivity.
  - constructor.
  - constructor.
  - exists closed, sell. split; [exact Heq|]. split; [exact Hrel | exact Hst].
Defined.

(** C6, counterexample: with two OPEN BUYs of one market and outcome, the
    most recent one is b2, yet the SELL is linked to b1, b1 is closed and
    b2 stays open. *)
Lemma recordSell_not_most_recent :
  truthyStr (sd_relatedBuyTradeId Examples.sellM1) = false
  /\ t_id <$> mostRecentOpenBuy "M1" 1 Examples.twoOpen = Some "b2"
  /\ (let after := fst (recordSell Examples.stampS1 Examples.sellM1
                          Examples.twoOpen) in
      t_relatedBuyTradeId <$> last after = Some (Some "b1")
      /\ t_relatedBuyTradeId <$> last after
         <> Some (t_id <$> mostRecentOpenBuy "M1" 1 Examples.twoOpen)
      /\ map (fun t => (t_id t, t_status t)) after
         = [("b1", CLOSED); ("b2", OPEN); ("s1", CLOSED)]).
Proof.
  vm_compute. repeat split; try reflexivity. discriminate.
Qed.

Section OpenPositions.

Lemma openSlugs_app (l k : list Trade) :
  openSlugs (l ++ k) = openSlugs l ++ openSlugs k.
Proof. unfold openSlugs, getOpenPositions. rewrite List.filter_app, List.map_app. reflexivity. Qed.

Lemma openSlugs_recordBuy (stamp : Stamp) (data : BuyData) (l : list Trade) :
  openSlugs (fst (recordBuy stamp data l)) = openSlugs l ++ [bd_marketSlug data].
Proof. unfold recordBuy. cbn [fst]. rewrite openSlugs_app. reflexivity. Qed.

Lemma openSlugs_snoc_sell (stamp : Stamp) (data : SellData) (l : list Trade) :
  openSlugs (l ++ [sellTrade stamp data]) = openSlugs l.
Proof. rewrite openSlugs_app. cbn. apply app_nil_r. Qed.

Lemma openSlugs_closeTrade (clock id : string) (cd : CloseData) (l : list Trade) :
  openSlugs (fst (closeTrade clock id cd l)) `sublist_of` openSlugs l.
Proof.
  induction l as [|t l IH]; simpl; [constructor|].
  destruct (String.eqb (t_id t) id); simpl.
  - change (closeFields clock cd t :: l) with ([closeFields clock cd t] ++ l).
    change (t :: l) with ([t] ++ l).
    rewrite !openSlugs_app.
    replace (openSlugs [closeFields clock cd t]) with (@nil string).
    + apply sublist_inserts_l. reflexivity.
    + unfold openSlugs, getOpenPositions, isBuy, isOpen. simpl.
      rewrite andb_false_r. reflexivity.
  - destruct (closeTrade clock id cd l) as [rest' found]; simpl in *.
    change (t :: rest') with ([t] ++ rest').
    change (t :: l) with ([t] ++ l).
    rewrite !openSlugs_app. apply sublist_app; [reflexivity | exact IH].
Qed.

Lemma openSlugs_setLastRelated (id : string) (l : list Trade) :
  openSlugs (setLastRelated id l) = openSlugs l.
Proof.
  induction l as [|t l IH]; [reflexivity|].
  destruct l as [|u r].
  - unfold openSlugs, getOpenPositions, isBuy, isOpen. simpl.
    destruct (TradeType_eqb (t_type t) BUY && Status_eqb (t_status t) OPEN);
      reflexivity.
  - change (setLastRelated id (t :: u :: r)) with (t :: setLastRelated id (u :: r)).
    change (t :: setLastRelated id (u :: r))
      with ([t] ++ setLastRelated id (u :: r)).
    change (t :: u :: r) with ([t] ++ u :: r).
    rewrite !openSlugs_app, IH. reflexivity.
Qed.

Lemma openSlugs_recordSell (stamp : Stamp) (data : SellData) (l : list Trade) :
  openSlugs (fst (recordSell stamp data l)) `sublist_of` openSlugs l.
Proof.
  unfold recordSell.
  destruct (orNull (sd_relatedBuyTradeId data)) as [rid|].
  - cbn [fst]. etransitivity; [apply openSlugs_closeTrade|].
    rewrite openSlugs_snoc_sell. reflexivity.
  - destruct (findOpenBuy _ _ _) as [relatedBuy|]; cbn [fst].
    + rewrite openSlugs_setLastRelated.
      etransitivity; [apply openSlugs_closeTrade|].
      rewrite openSlugs_snoc_sell. reflexivity.
    + rewrite openSlugs_snoc_sell. reflexivity.
Qed.

Lemma hasOpenBuy_false (slug : string) (l : list Trade) :
  hasOpenBuy slug l = false -> slug ∉ openSlugs l.
Proof.
  unfold hasOpenBuy, openSlugs.
  induction (getOpenPositions l) as [|t ts IH]; simpl; intros H.
  - apply not_elem_of_nil.
  - apply orb_false_iff in H as [Ht Hts].
    apply not_elem_of_cons. split; [|auto].
    intros ->. rewrite String.eqb_refl in Ht. discriminate.
Qed.

Lemma oneOpenPerMarket_applyOp (l : list Trade) (op : LedgerOp) :
  oneOpenPerMarket l ->
  match op with
  | OpBuy _ data => hasOpenBuy (bd_marketSlug data) l = false
  | _ => True
  end ->
  oneOpenPerMarket (applyOp l op).
Proof.
  unfold oneOpenPerMarket. intros Hl Hg. destruct op as [stamp data|stamp data|clock id cd]; cbn [applyOp].
  - rewrite openSlugs_recordBuy. apply NoDup_app. split; [exact Hl|].
    split; [|apply NoDup_singleton].
    intros x Hx Hin. apply list_elem_of_singleton in Hin as ->.
    exact (hasOpenBuy_false _ _ Hg Hx).
  - eapply sublist_NoDup; [exact Hl | apply openSlugs_recordSell].
  - eapply sublist_NoDup; [exact Hl | apply openSlugs_closeTrade].
Qed.

End OpenPositions.

(** C8 (as amended). The ledger does not refuse a second BUY of a market:
    getOpenPositions holds at most one OPEN BUY per market after every
    sequence of recordBuy, recordSell and closeTrade in which each recordBuy
    is for a market that has no OPEN BUY when it is called; recordSell and
    closeTrade never add an open BUY. *)
Theorem open_positions_unique_when_buys_guarded (trades : list Trade)
    (ops : list LedgerOp) :
  oneOpenPerMarket trades ->
  buysGuarded trades ops = true ->
  oneOpenPerMarket (applyOps trades ops).
Proof.
  revert trades. induction ops as [|op ops IH]; intros trades Hl Hg; simpl.
  - exact Hl.
  - simpl in Hg. apply andb_true_iff in Hg as [Hop Hrest].
    apply IH; [|exact Hrest].
    apply oneOpenPerMarket_applyOp; [exact Hl|].
    destruct op; try exact I.
    apply negb_true_iff in Hop. exact Hop.
Qed.

Lemma open_positions_unique_when_buys_guarded_witness :
  oneOpenPerMarket
    (applyOps []
       [OpBuy Examples.stampB1 Examples.buyM1;
        OpSell Examples.stampS1 Examples.sellM1;
        OpBuy Examples.stampB2 Examples.buyM1]).
Proof.
  apply open_positions_unique_when_buys_guarded.
  - apply NoDup_nil_2.
  - vm_compute. reflexivity.
Defined.

(** C8, counterexample: two recordBuy calls for the same market leave two
    OPEN BUY entries of that market in getOpenPositions. *)
Lemma two_buys_leave_two_open :
  map (fun t => (t_marketSlug t, t_status t))
      (getOpenPositions
         (applyOps [] [OpBuy Examples.stampB1 Examples.buyM1;
                       OpBuy Examples.stampB2 Examples.buyM1]))
  = [("M1", OPEN); ("M1", OPEN)]
  /\ ~ oneOpenPerMarket
       (applyOps [] [OpBuy Examples.stampB1 Examples.buyM1;
                     OpBuy Examples.stampB2 Examples.buyM1]).
Proof.
  split; [reflexivity|].
  unfold oneOpenPerMarket. vm_compute.
  intros H. inversion H as [|x l Hnot _]; subst.
  apply Hnot. left.
Qed.

(** ** The trade sizer *)

Section Sizer.

Lemma Qltb_true (a b : Q) : Qltb a b = true <-> (a < b)%Q.
Proof.
  unfold Qltb. rewrite negb_true_iff. split.
  - intros H. apply Qnot_le_lt. intros Hle.
    apply Qle_bool_iff in Hle. congruence.
  - intros H. destruct (Qle_bool b a) eqn:E; [|reflexivity].
    apply Qle_bool_iff in E. exfalso. exact (Qlt_not_le _ _ H E).
Qed.

Lemma Qltb_false (a b : Q) : Qltb a b = false <-> (b <= a)%Q.
Proof.
  unfold Qltb. rewrite negb_false_iff. apply Qle_bool_iff.
Qed.

(** [Math.max(lo, Math.min(hi, x))] is the clamp when the bounds are in
    order. *)
Lemma max_min_is_clamp (x lo hi : Q) :
  (lo <= hi)%Q -> (Qmax lo (Qmin hi x) == clamp x lo hi)%Q.
Proof.
  intros Hb. unfold clamp.
  destruct (Qltb x lo) eqn:E1.
  - apply Qltb_true in E1. apply Q.max_l.
    eapply Qle_trans; [apply Q.le_min_r|]. apply Qlt_le_weak, E1.
  - apply Qltb_false in E1. destruct (Qltb hi x) eqn:E2.
    + apply Qltb_true in E2. rewrite Q.min_l by (apply Qlt_le_weak, E2).
      apply Q.max_r, Hb.
    + apply Qltb_false in E2. rewrite Q.min_r by exact E2.
      apply Q.max_r, E1.
Qed.


Lemma simulateBuy_size_is_clamp (cfg : Sim.Config) (targetInvestment : Q) :
  (Sim.MIN_BET_USDC cfg <= Sim.MAX_BET_USDC cfg)%Q ->
  (Sim.ourInvestment cfg targetInvestment
   == clamp (targetInvestment * Sim.BET_MULTIPLIER cfg)
        (Sim.MIN_BET_USDC cfg) (Sim.MAX_BET_USDC cfg))%Q.
Proof. apply max_min_is_clamp. Qed.

(** The live open leg sizes from the configured minimum: the target's
    investment is not an input of it. *)
Lemma replicateOpen_size_is_clamp_of_min (cfg : Bot.Config) :
  (Bot.MIN_BET_USDC cfg <= Bot.MAX_BET_USDC cfg)%Q ->
  (Bot.ourInvestmentNumber cfg
   == clamp (Bot.MIN_BET_USDC cfg * Bot.BET_MULTIPLIER cfg)
        (Bot.MIN_BET_USDC cfg) (Bot.MAX_BET_USDC cfg))%Q.
Proof. apply max_min_is_clamp. Qed.

End Sizer.

(** C1, at the failing input. With multiplier 0.5, min 5 and max 50, a
    target investment of 200 is sized at clamp(100, 5, 50) = 50 by
    simulateBuy, while replicateOpen sizes the open leg at
    clamp(5 * 0.5, 5, 50) = 5: the BUY it submits and records is for
    5000000 base units, not 50000000. *)
Theorem open_leg_size_at_readme_example :
  (clamp (200 * (1 # 2)) 5 50 == 50)%Q
  /\ (Sim.ourInvestment Examples.readmeSim 200 == 50)%Q
  /\ (Bot.ourInvestmentNumber Examples.readmeLive == 5)%Q
  /\ ~ (Bot.ourInvestmentNumber Examples.readmeLive
        == clamp (200 * (1 # 2)) 5 50)%Q
  /\ (let st := Bot.replicateOpen Examples.readmeLive Examples.stampB1
                  Examples.openSucceeds "M2" Examples.marketM2 1
                  Examples.liveIdle in
      map t_investmentAmount (Bot.tradeTracker st) = [AmtInt 5000000]
      /\ Bot.submitted st = [Bot.TxBuy "0xM2" 5000000 1 8820000]).
Proof.
  repeat split; try reflexivity; vm_compute; discriminate.
Qed.




(** ** The simulator's balance *)

Section SimBalance.

Variable cfg : Sim.Config.

Lemma simulateBuy_insufficient (stamp : Stamp) (st : Sim.State)
    (slug : string) (outcome : Z) (targetInvestment : Q) :
  (Sim.balance st < Sim.ourInvestment cfg targetInvestment)%Q ->
  Sim.simulateBuy cfg stamp st slug outcome targetInvestment = (st, None).
Proof.
  intros H. unfold Sim.simulateBuy.
  apply Qltb_true in H. rewrite H. reflexivity.
Qed.

Lemma simulateBuy_balance (stamp : Stamp) (st : Sim.State)
    (slug : string) (outcome : Z) (targetInvestment : Q) :
  (0 <= Sim.balance st)%Q ->
  (0 <= Sim.balance
          (fst (Sim.simulateBuy cfg stamp st slug outcome targetInvestment)))%Q.
Proof.
  intros H. unfold Sim.simulateBuy.
  destruct (Qltb (Sim.balance st) (Sim.ourInvestment cfg targetInvestment)) eqn:E.
  - exact H.
  - apply Qltb_false in E. cbn.
    unfold Qminus. rewrite <- Qle_minus_iff. exact E.
Qed.

Lemma simulateSell_balance (stamp : Stamp) (st : Sim.State)
    (slug : string) (outcome : Z) (marketValue : option Q)
    (winningOutcome : option Z) :
  (Sim.balance
     (fst (Sim.simulateSell cfg stamp st slug outcome marketValue winningOutcome))
   == Sim.balance st
      + credited cfg st (OpSimSell stamp slug outcome marketValue winningOutcome))%Q.
Proof.
  unfold Sim.simulateSell, credited.
  destruct (Sim.positions st !! slug) as [position|]; [|cbn; ring].
  destruct (Z.eqb (Sim.outcome position) outcome); [|cbn; ring].
  cbn [negb].
  destruct (recordSell _ _ _) as [trades' id]. cbn. reflexivity.
Qed.

Lemma applySimOp_balance (st : Sim.State) (op : SimOp) :
  (0 <= Sim.balance st)%Q ->
  (0 <= credited cfg st op)%Q ->
  (0 <= Sim.balance (applySimOp cfg st op))%Q.
Proof.
  intros Hb Hc. destruct op as [stamp slug outcome t|stamp slug outcome mv w];
    cbn [applySimOp].
  - apply simulateBuy_balance, Hb.
  - rewrite simulateSell_balance.
    rewrite <- (Qplus_0_l 0). apply Qplus_le_compat; assumption.
Qed.

(** The net return is non-negative as soon as the fee is at most 100%,
    the position was entered with a non-negative amount and the market
    value, when given, is non-negative. *)
Lemma netReturn_nonneg (position : Sim.SimPosition) (outcome : Z)
    (mv : option Q) (w : option Z) :
  (Sim.FEE_BPS cfg <= 10000)%Q ->
  (0 <= Sim.invested position)%Q ->
  match mv with Some q => (0 <= q)%Q | None => True end ->
  (0 <= Sim.netReturn cfg position outcome mv w)%Q.
Proof.
  intros Hfee Hinv Hmv. unfold Sim.netReturn.
  assert (Hk : (Sim.FEE_BPS cfg / 10000 <= 1)%Q).
  { apply Qle_shift_div_r; [reflexivity|]. rewrite Qmult_1_l. exact Hfee. }
  set (k := (Sim.FEE_BPS cfg / 10000)%Q) in *.
  assert (Hr : (0 <= Sim.returnAmount cfg position outcome mv w)%Q).
  { unfold Sim.returnAmount. fold k. destruct w as [w|].
    - destruct (Z.eqb w outcome); [nra | apply Qle_refl].
    - unfold orNum. destruct mv as [q|]; [destruct (Qeq_bool q 0)|];
        try exact Hmv; nra. }
  set (r := Sim.returnAmount cfg position outcome mv w) in *.
  nra.
Qed.

Lemma simulateBuy_invested (stamp : Stamp) (st : Sim.State) (slug : string)
    (outcome : Z) (t : Q) :
  (0 <= Sim.MIN_BET_USDC cfg)%Q ->
  investedNonneg st ->
  investedNonneg (fst (Sim.simulateBuy cfg stamp st slug outcome t)).
Proof.
  intros Hmin Hinv. unfold Sim.simulateBuy.
  destruct (Qltb _ _); [exact Hinv|]. cbn.
  apply map_Forall_insert_2; [|exact Hinv]. cbn.
  eapply Qle_trans; [exact Hmin | apply Q.le_max_l].
Qed.

Lemma simulateSell_invested (stamp : Stamp) (st : Sim.State) (slug : string)
    (outcome : Z) (mv : option Q) (w : option Z) :
  investedNonneg st ->
  investedNonneg (fst (Sim.simulateSell cfg stamp st slug outcome mv w)).
Proof.
  intros Hinv. unfold Sim.simulateSell.
  destruct (Sim.positions st !! slug) as [position|]; [|exact Hinv].
  destruct (negb _); [exact Hinv|].
  destruct (recordSell _ _ _) as [trades' id]. cbn.
  apply map_Forall_delete, Hinv.
Qed.

(** In a well-configured simulator every sell credits a non-negative
    amount. *)
Lemma creditsNonneg_configured (st : Sim.State) (ops : list SimOp) :
  (0 <= Sim.MIN_BET_USDC cfg)%Q ->
  (Sim.FEE_BPS cfg <= 10000)%Q ->
  investedNonneg st ->
  marketValuesNonneg ops ->
  creditsNonneg cfg st ops = true.
Proof.
  intros Hmin Hfee Hinv Hops. revert st Hinv.
  induction Hops as [|op ops Hop _ IH]; intros st Hinv; cbn; [reflexivity|].
  apply andb_true_iff. split.
  - apply Qle_bool_iff. destruct op as [|stamp slug outcome mv w]; cbn.
    + apply Qle_refl.
    + destruct (Sim.positions st !! slug) as [position|] eqn:E; [|apply Qle_refl].
      destruct (Z.eqb _ _); [|apply Qle_refl].
      apply netReturn_nonneg; [exact Hfee|exact (Hinv _ _ E)|].
      destruct mv; [exact Hop | exact I].
  - apply IH. destruct op; cbn.
    + apply simulateBuy_invested; assumption.
    + apply simulateSell_invested; assumption.
Qed.

Lemma applySimOps_balance (st : Sim.State) (ops : list SimOp) :
  (0 <= Sim.balance st)%Q ->
  creditsNonneg cfg st ops = true ->
  (0 <= Sim.balance (applySimOps cfg st ops))%Q.
Proof.
  revert st. induction ops as [|op ops IH]; intros st Hb Hc.
  - exact Hb.
  - cbn in Hc. apply andb_true_iff in Hc as [Hop Hrest].
    apply Qle_bool_iff in Hop.
    apply (IH (applySimOp cfg st op)); [|exact Hrest].
    apply applySimOp_balance; assumption.
Qed.

(** A simulator started by its constructor with a non-negative starting
    balance, a non-negative minimum bet and a fee of at most 100% never
    shows a negative balance, whatever is bought and sold at non-negative
    market values. *)
Lemma configured_sim_balance (loaded : list Trade) (ops : list SimOp) :
  (0 <= Sim.STARTING_BALANCE_USDC cfg)%Q ->
  (0 <= Sim.MIN_BET_USDC cfg)%Q ->
  (Sim.FEE_BPS cfg <= 10000)%Q ->
  marketValuesNonneg ops ->
  (0 <= Sim.balance (applySimOps cfg (Sim.init cfg loaded) ops))%Q.
Proof.
  intros Hstart Hmin Hfee Hops.
  apply applySimOps_balance; [exact Hstart|].
  apply creditsNonneg_configured; try assumption.
  apply map_Forall_empty.
Qed.

End SimBalance.

(** ** The simulator over numbers that need not be finite *)

Section FinitePart.

Variable cfg : Sim.Config.

Lemma netReturn_finite (position : Sim.SimPosition) (outcome : Z)
    (mv : option Q) (w : option Z) :
  SimJs.netReturn (SimJs.ofConfig cfg) (SimJs.ofPosition position) outcome
    (Num.Fin <$> mv) w
  = Num.Fin (Sim.netReturn cfg position outcome mv w).
Proof.
  unfold SimJs.netReturn, Sim.netReturn, SimJs.returnAmount, Sim.returnAmount.
  destruct w as [w|].
  - destruct (Z.eqb w outcome); reflexivity.
  - destruct mv as [q|]; cbn; [destruct (Qeq_bool q 0)|]; reflexivity.
Qed.

Lemma ourInvestment_exact (t : Q) :
  SimJs.ourInvestment (SimJs.ofConfig cfg) (Num.Fin t)
  = Num.Fin (Sim.ourInvestment cfg t).
Proof. reflexivity. Qed.

(** On finite numbers [simulateBuy] is the exact computation of [Sim]. *)
Lemma simulateBuy_finite (stamp : Stamp) (st : Sim.State) (slug : string)
    (outcome : Z) (t : Q) :
  SimJs.simulateBuy (SimJs.ofConfig cfg) stamp (SimJs.ofState st) slug outcome
    (Num.Fin t)
  = (SimJs.ofState (fst (Sim.simulateBuy cfg stamp st slug outcome t)),
     snd (Sim.simulateBuy cfg stamp st slug outcome t)).
Proof.
  unfold SimJs.simulateBuy, Sim.simulateBuy. cbn.
  destruct (Qltb _ _); [reflexivity|].
  cbn. unfold SimJs.ofState. cbn. rewrite fmap_insert. reflexivity.
Qed.

(** On finite numbers [simulateSell] is the exact computation of [Sim]. *)
Lemma simulateSell_finite (stamp : Stamp) (st : Sim.State) (slug : string)
    (outcome : Z) (mv : option Q) (w : option Z) :
  SimJs.simulateSell (SimJs.ofConfig cfg) stamp (SimJs.ofState st) slug outcome
    (Num.Fin <$> mv) w
  = (SimJs.ofState (fst (Sim.simulateSell cfg stamp st slug outcome mv w)),
     snd (Sim.simulateSell cfg stamp st slug outcome mv w)).
Proof.
  unfold SimJs.simulateSell, Sim.simulateSell.
  cbn [SimJs.ofState SimJs.positions]. rewrite lookup_fmap.
  destruct (Sim.positions st !! slug) as [position|]; [|reflexivity].
  cbn [fmap option_fmap option_map SimJs.ofPosition SimJs.outcome].
  destruct (Z.eqb (Sim.outcome position) outcome); [|reflexivity].
  cbn [negb].
  change {| SimJs.outcome := Sim.outcome position;
            SimJs.invested := Num.Fin (Sim.invested position);
            SimJs.tokens := Num.Fin (Sim.tokens position) |}
    with (SimJs.ofPosition position).
  rewrite netReturn_finite.
  cbn [SimJs.ofPosition SimJs.invested SimJs.balance SimJs.tradeTracker
       SimJs.startingBalance Num.add Num.sub Num.mul Num.toAmount].
  destruct (recordSell _ _ _) as [trades' id].
  cbn. unfold SimJs.ofState. cbn. rewrite fmap_delete. reflexivity.
Qed.

(** Hence a run on finite numbers is the run of [Sim]. *)
Lemma applyCalls_finite (st : Sim.State) (ops : list SimOp) :
  applyCalls (SimJs.ofConfig cfg) (SimJs.ofState st) (map ofSimOp ops)
  = SimJs.ofState (applySimOps cfg st ops).
Proof.
  revert st. induction ops as [|op ops IH]; intros st; [reflexivity|].
  cbn [map applyCalls applySimOps fold_left].
  fold (applyCalls (SimJs.ofConfig cfg)
          (applyCall (SimJs.ofConfig cfg) (SimJs.ofState st) (ofSimOp op))
          (map ofSimOp ops)).
  fold (applySimOps cfg (applySimOp cfg st op) ops).
  rewrite <- IH. f_equal.
  destruct op as [stamp slug outcome t|stamp slug outcome mv w];
    cbn [ofSimOp applyCall applySimOp].
  - rewrite simulateBuy_finite. reflexivity.
  - rewrite simulateSell_finite. reflexivity.
Qed.

End FinitePart.

Section SimNumbers.

Variable cfg : SimJs.Config.

Lemma ge_zero_inv (x : Num.number) :
  Num.ge x (Num.Fin 0) = true ->
  x = Num.PosInf \/ exists q, x = Num.Fin q /\ (0 <= q)%Q.
Proof.
  destruct x as [| |q|]; cbn; try discriminate.
  - intros H. right. exists q. split; [reflexivity|]. apply Qle_bool_iff, H.
  - intros _. left. reflexivity.
Qed.

Lemma ourInvestment_finite (t : Num.number) :
  sizerFinite cfg = true ->
  Num.isFinite t = true ->
  Num.isFinite (SimJs.ourInvestment cfg t) = true.
Proof.
  unfold sizerFinite, SimJs.ourInvestment.
  destruct (SimJs.BET_MULTIPLIER cfg), (SimJs.MIN_BET_USDC cfg),
    (SimJs.MAX_BET_USDC cfg), t; cbn; try discriminate; reflexivity.
Qed.

Lemma simulateBuy_short (stamp : Stamp) (st : SimJs.State) (slug : string)
    (outcome : Z) (t : Num.number) :
  Num.lt (SimJs.balance st) (SimJs.ourInvestment cfg t) = true ->
  SimJs.simulateBuy cfg stamp st slug outcome t = (st, None).
Proof. intros H. unfold SimJs.simulateBuy. rewrite H. reflexivity. Qed.

Lemma simulateBuy_ge_zero (stamp : Stamp) (st : SimJs.State) (slug : string)
    (outcome : Z) (t : Num.number) :
  Num.isFinite (SimJs.ourInvestment cfg t) = true ->
  Num.ge (SimJs.balance st) (Num.Fin 0) = true ->
  Num.ge (SimJs.balance (fst (SimJs.simulateBuy cfg stamp st slug outcome t)))
         (Num.Fin 0) = true.
Proof.
  intros Hfin Hb. unfold SimJs.simulateBuy.
  destruct (SimJs.ourInvestment cfg t) as [| |i|]; try discriminate Hfin.
  destruct (Num.lt (SimJs.balance st) (Num.Fin i)) eqn:E; [exact Hb|].
  cbn [fst SimJs.balance Tracker.recordBuy].
  destruct (ge_zero_inv _ Hb) as [Hinf|(b & Hfinb & Hpos)].
  - rewrite Hinf. reflexivity.
  - rewrite Hfinb in E |- *. cbn in E |- *.
    apply Qltb_false in E. apply Qle_bool_iff.
    unfold Qminus. rewrite <- Qle_minus_iff. exact E.
Qed.

Lemma simulateSell_credit (stamp : Stamp) (st : SimJs.State) (slug : string)
    (outcome : Z) (mv : option Num.number) (w : option Z) :
  SimJs.balance (fst (SimJs.simulateSell cfg stamp st slug outcome mv w))
  = match SimJs.positions st !! slug with
    | Some position =>
        if Z.eqb (SimJs.outcome position) outcome
        then Num.add (SimJs.balance st)
               (SimJs.netReturn cfg position outcome mv w)
        else SimJs.balance st
    | None => SimJs.balance st
    end.
Proof.
  unfold SimJs.simulateSell.
  destruct (SimJs.positions st !! slug) as [position|]; [|reflexivity].
  destruct (Z.eqb (SimJs.outcome position) outcome); [|reflexivity].
  cbn [negb]. destruct (recordSell _ _ _) as [trades' id]. reflexivity.
Qed.

Lemma add_ge_zero (x y : Num.number) :
  Num.ge x (Num.Fin 0) = true -> Num.ge y (Num.Fin 0) = true ->
  Num.ge (Num.add x y) (Num.Fin 0) = true.
Proof.
  intros Hx Hy.
  destruct (ge_zero_inv _ Hx) as [->|(a & -> & Ha)],
           (ge_zero_inv _ Hy) as [->|(b & -> & Hb)]; try reflexivity.
  cbn. apply Qle_bool_iff.
  rewrite <- (Qplus_0_l 0). apply Qplus_le_compat; assumption.
Qed.

Lemma applyCall_ge_zero (st : SimJs.State) (c : Call) :
  sizedFinite cfg [c] = true ->
  Num.ge (SimJs.balance st) (Num.Fin 0) = true ->
  Num.ge (creditedBy cfg st c) (Num.Fin 0) = true ->
  Num.ge (SimJs.balance (applyCall cfg st c)) (Num.Fin 0) = true.
Proof.
  intros Hfin Hb Hc. destruct c as [stamp slug outcome t|stamp slug outcome mv w];
    cbn [applyCall].
  - cbn in Hfin. rewrite andb_true_r in Hfin.
    apply simulateBuy_ge_zero; assumption.
  - rewrite simulateSell_credit. cbn [creditedBy] in Hc.
    destruct (SimJs.positions st !! slug) as [position|]; [|exact Hb].
    destruct (Z.eqb (SimJs.outcome position) outcome); [|exact Hb].
    apply add_ge_zero; assumption.
Qed.

Lemma applyCalls_ge_zero (st : SimJs.State) (calls : list Call) :
  sizedFinite cfg calls = true ->
  Num.ge (SimJs.balance st) (Num.Fin 0) = true ->
  creditsAtLeastZero cfg st calls = true ->
  Num.ge (SimJs.balance (applyCalls cfg st calls)) (Num.Fin 0) = true.
Proof.
  revert st. induction calls as [|c calls IH]; intros st Hfin Hb Hc.
  - exact Hb.
  - cbn in Hc. apply andb_true_iff in Hc as [Hcredit Hrest].
    cbn [sizedFinite forallb] in Hfin.
    apply andb_true_iff in Hfin as [Hone Hmore].
    apply (IH (applyCall cfg st c)); [exact Hmore| |exact Hrest].
    apply applyCall_ge_zero; [|assumption|assumption].
    cbn [sizedFinite forallb]. rewrite Hone. reflexivity.
Qed.

End SimNumbers.

(** C10 (as amended). simulateBuy returns false and leaves the whole state
    (balance, positions, ledger) unchanged whenever the balance is below
    the sized investment.  Hence, provided every buy is sized to a finite
    amount - as it is when BET_MULTIPLIER, MIN_BET_USDC, MAX_BET_USDC and
    the target's investment are finite numbers - every sequence of
    simulateBuy and simulateSell calls whose sells credit amounts that are
    >= 0 keeps a balance that is >= 0. *)
Theorem sim_balance_never_negative (cfg : SimJs.Config) (st : SimJs.State)
    (calls : list Call) :
  sizedFinite cfg calls = true ->
  Num.ge (SimJs.balance st) (Num.Fin 0) = true ->
  creditsAtLeastZero cfg st calls = true ->
  Num.ge (SimJs.balance (applyCalls cfg st calls)) (Num.Fin 0) = true
  /\ (forall stamp s slug outcome targetInvestment,
        Num.lt (SimJs.balance s) (SimJs.ourInvestment cfg targetInvestment)
        = true ->
        SimJs.simulateBuy cfg stamp s slug outcome targetInvestment = (s, None))
  /\ (sizerFinite cfg = true ->
      forall targetInvestment,
        Num.isFinite targetInvestment = true ->
        Num.isFinite (SimJs.ourInvestment cfg targetInvestment) = true).
Proof.
  intros Hfin Hb Hc. split; [|split].
  - apply applyCalls_ge_zero; assumption.
  - intros stamp s slug outcome t. apply simulateBuy_short.
  - intros Hcfg t. apply ourInvestment_finite, Hcfg.
Qed.

Lemma sim_balance_never_negative_witness :
  Num.ge (SimJs.balance
            (applyCalls (SimJs.ofConfig Examples.readmeSim)
               (SimJs.init (SimJs.ofConfig Examples.readmeSim) [])
               Scenarios.numberCalls))
         (Num.Fin 0) = true.
Proof.
  apply (sim_balance_never_negative (SimJs.ofConfig Examples.readmeSim)
           (SimJs.init (SimJs.ofConfig Examples.readmeSim) [])
           Scenarios.numberCalls);
    vm_compute; reflexivity.
Defined.

(** C10, counterexample: with BET_MULTIPLIER=0,5 the multiplier is NaN, and
    so is every sized investment; [balance < NaN] is false, so a buy goes
    through with a balance of 100 that could not be compared with its
    price, and the balance is NaN from then on, which is not >= 0. *)
Lemma nan_multiplier_breaks_balance :
  let cfg := SimJs.loadConfig Scenarios.commaEnv in
  let st := SimJs.init cfg [] in
  let r := SimJs.simulateBuy cfg Examples.stampB1 st "M1" 1 (Num.Fin 200) in
  SimJs.balance st = Num.Fin 100
  /\ Num.ge (SimJs.balance st) (Num.Fin 0) = true
  /\ SimJs.ourInvestment cfg (Num.Fin 200) = Num.NaN
  /\ snd r = Some "b1"
  /\ SimJs.balance (fst r) = Num.NaN
  /\ Num.ge (SimJs.balance (fst r)) (Num.Fin 0) = false
  /\ map (fun t => (t_id t, t_type t, t_investmentAmount t, t_status t))
         (SimJs.tradeTracker (fst r))
     = [("b1", BUY, AmtBad, OPEN)].
Proof. cbv zeta. repeat split. Qed.

(** ** The conversion of a balance text by [Number] *)

Section Rounding.

Local Open Scope Z_scope.

Lemma roundTo_bounds (u a : Z) :
  0 < u -> (a / u) * u <= roundTo u a <= (a / u + 1) * u.
Proof.
  intros Hu. unfold roundTo.
  destruct (_ || _); nia.
Qed.

Lemma roundTo_mono (u a b : Z) :
  0 < u -> a <= b -> roundTo u a <= roundTo u b.
Proof.
  intros Hu Hab.
  pose proof (Z.div_le_mono a b u Hu Hab) as Hq.
  destruct (Z.eq_dec (a / u) (b / u)) as [E|N].
  - unfold roundTo. rewrite <- E.
    pose proof (Z.div_mod a u ltac:(lia)) as Ha.
    pose proof (Z.div_mod b u ltac:(lia)) as Hb.
    assert (Hr : a mod u <= b mod u) by (rewrite <- E in Hb; nia).
    destruct (Z.ltb_spec u (2 * (a mod u))), (Z.ltb_spec u (2 * (b mod u))),
      (Z.eqb_spec (2 * (a mod u)) u), (Z.eqb_spec (2 * (b mod u)) u),
      (Z.odd (a / u)); cbn; try lia.
  - pose proof (roundTo_bounds u a Hu). pose proof (roundTo_bounds u b Hu).
    nia.
Qed.

(** Above [2^53] the unit in the last place is [2^(n-52)] for the binade
    [2^n <= a < 2^(n+1)], and rounding stays within the binade's closure. *)
Lemma ulp_facts (a : Z) :
  2 ^ 53 < a ->
  let n := Z.log2 a in
  let u := 2 ^ (n - 52) in
  0 < u /\ 53 <= n /\ 2 ^ n = 2 ^ 52 * u /\ 2 ^ n <= a < 2 * 2 ^ n
  /\ 2 ^ n <= roundTo u a <= 2 * 2 ^ n.
Proof.
  intros Ha n u.
  assert (Hpos : 0 < a) by lia.
  pose proof (Z.log2_spec a Hpos) as Hspec. fold n in Hspec.
  assert (Hn : 53 <= n).
  { destruct (Z.le_gt_cases 53 n) as [|Hlt]; [assumption|].
    assert (Hs : Z.succ n <= 53) by lia.
    pose proof (Z.pow_le_mono_r 2 (Z.succ n) 53 ltac:(lia) Hs). lia. }
  assert (Hu : 0 < u) by (apply Z.pow_pos_nonneg; lia).
  assert (Hsplit : 2 ^ n = 2 ^ 52 * u).
  { unfold u. rewrite <- Z.pow_add_r by lia. f_equal. lia. }
  rewrite Z.pow_succ_r in Hspec by lia.
  repeat split; try lia.
  - pose proof (roundTo_bounds u a Hu) as [Hlo _].
    assert (2 ^ 52 <= a / u) by (apply Z.div_le_lower_bound; lia).
    nia.
  - pose proof (roundTo_bounds u a Hu) as [_ Hhi].
    assert (a / u < 2 ^ 53).
    { apply Z.div_lt_upper_bound; [lia|].
      change (2 ^ 53) with (2 * 2 ^ 52). nia. }
    nia.
Qed.

Lemma NumberOfInt_big (a : Z) :
  2 ^ 53 < a ->
  NumberOfInt a = Z.min (roundTo (2 ^ (Z.log2 a - 52)) a) (2 ^ 1024).
Proof.
  intros Ha. unfold NumberOfInt.
  rewrite Z.abs_eq by lia.
  destruct (Z.leb_spec a (2 ^ 53)); [lia|].
  rewrite Z.sgn_pos by lia. lia.
Qed.

(** The conversion is exact up to [2^53]. *)
Lemma NumberOfInt_exact (z : Z) :
  Z.abs z <= 2 ^ 53 -> NumberOfInt z = z.
Proof.
  intros H. unfold NumberOfInt.
  apply Z.leb_le in H. rewrite H. reflexivity.
Qed.

(** It never reverses the order of two balances. *)
Lemma NumberOfInt_mono (a b : Z) :
  0 <= a <= b -> NumberOfInt a <= NumberOfInt b.
Proof.
  intros [Ha Hab].
  destruct (Z.le_gt_cases b (2 ^ 53)) as [Hb|Hb].
  - rewrite !NumberOfInt_exact by lia. exact Hab.
  - rewrite (NumberOfInt_big b Hb).
    destruct (ulp_facts b Hb) as (Hub & Hnb & Hsb & Hlb & Hrb).
    assert (H53 : 2 ^ 53 <= 2 ^ Z.log2 b) by (apply Z.pow_le_mono_r; lia).
    destruct (Z.le_gt_cases a (2 ^ 53)) as [Ha'|Ha'].
    + rewrite NumberOfInt_exact by lia.
      apply Z.min_glb; [lia|].
      assert (2 ^ 53 <= 2 ^ 1024) by (apply Z.pow_le_mono_r; lia). lia.
    + rewrite (NumberOfInt_big a Ha').
      destruct (ulp_facts a Ha') as (Hua & Hna & Hsa & Hla & Hra).
      apply Z.min_le_compat_r.
      pose proof (Z.log2_le_mono a b Hab) as Hlog.
      destruct (Z.eq_dec (Z.log2 a) (Z.log2 b)) as [E|N].
      * rewrite E. apply roundTo_mono; [|exact Hab].
        rewrite <- E. exact Hua.
      * assert (Hs : Z.succ (Z.log2 a) <= Z.log2 b) by lia.
        pose proof (Z.pow_le_mono_r 2 _ _ ltac:(lia) Hs) as Hp.
        rewrite Z.pow_succ_r in Hp by lia. lia.
Qed.

(** It keeps a positive balance positive. *)
Lemma NumberOfInt_pos (z : Z) : 0 < z -> 0 < NumberOfInt z.
Proof.
  intros Hz.
  destruct (Z.le_gt_cases z (2 ^ 53)) as [H|H].
  - rewrite NumberOfInt_exact by lia. exact Hz.
  - rewrite (NumberOfInt_big z H).
    destruct (ulp_facts z H) as (Hu & Hn & Hs & Hl & Hr).
    assert (0 < 2 ^ Z.log2 z) by (apply Z.pow_pos_nonneg; lia).
    apply Z.min_glb_lt; [lia|]. apply Z.pow_pos_nonneg; lia.
Qed.

End Rounding.

(** ** What the legs append to the ledger *)

Section Legs.

Lemma sameEntry_refl (t : Trade) : sameEntry t t.
Proof. unfold sameEntry. tauto. Qed.

Lemma sameEntry_trans (a b c : Trade) :
  sameEntry a b -> sameEntry b c -> sameEntry a c.
Proof. unfold sameEntry. intuition congruence. Qed.

Lemma Forall2_sameEntry_refl (l : list Trade) : Forall2 sameEntry l l.
Proof. induction l; constructor; auto using sameEntry_refl. Qed.

Lemma closeTrade_snoc (clock id : string) (cd : CloseData) (l : list Trade)
    (t : Trade) :
  exists pre t', fst (closeTrade clock id cd (l ++ [t])) = pre ++ [t']
                 /\ Forall2 sameEntry pre l /\ sameEntry t' t.
Proof.
  pose proof (closeTrade_length clock id cd (l ++ [t])) as H.
  apply Forall2_app_inv_r in H as (pre & last & Hpre & Hlast & ->).
  apply Forall2_cons_inv_r in Hlast as (t' & rest & Ht & Hrest & ->).
  apply Forall2_nil_inv_r in Hrest as ->.
  exists pre, t'. auto.
Qed.

(** recordSell appends exactly one SELL; the older entries keep their
    identity. *)
Lemma recordSell_appends (stamp : Stamp) (data : SellData) (l : list Trade) :
  exists pre sell,
    fst (recordSell stamp data l) = pre ++ [sell]
    /\ Forall2 sameEntry pre l
    /\ sameEntry sell (sellTrade stamp data).
Proof.
  unfold recordSell.
  destruct (orNull (sd_relatedBuyTradeId data)) as [rid|].
  - cbn [fst]. apply closeTrade_snoc.
  - destruct (findOpenBuy _ _ _) as [relatedBuy|]; cbn [fst].
    + destruct (closeTrade_snoc (now stamp) (t_id relatedBuy)
                  {| cd_closedAt := Some (t_timestamp (sellTrade stamp data));
                     cd_closeTxHash := t_txHash (sellTrade stamp data);
                     cd_realizedPnL := sd_pnlAmount data |}
                  l (sellTrade stamp data))
        as (pre & t' & -> & Hpre & Ht').
      destruct (setLastRelated_snoc (t_id relatedBuy) pre t')
        as (t'' & -> & _ & Hsame & _).
      exists pre, t''. repeat split; auto.
      all: eapply sameEntry_trans; eauto.
    + exists l, (sellTrade stamp data).
      auto using Forall2_sameEntry_refl, sameEntry_refl.
Qed.

Lemma simulateSell_ledger (cfg : Sim.Config) (stamp : Stamp) (st : Sim.State)
    (slug : string) (held : Sim.SimPosition) (mv : option Q) (w : option Z) :
  Sim.positions st !! slug = Some held ->
  let st' := fst (Sim.simulateSell cfg stamp st slug (Sim.outcome held) mv w) in
  Sim.positions st' = delete slug (Sim.positions st)
  /\ (Sim.balance st'
      == Sim.balance st + Sim.netReturn cfg held (Sim.outcome held) mv w)%Q
  /\ exists pre sell,
       Sim.tradeTracker st' = pre ++ [sell]
       /\ Forall2 sameEntry pre (Sim.tradeTracker st)
       /\ isSellOf slug (Sim.outcome held) sell
       /\ t_targetWalletAction sell
          = match w with
            | Some _ => "MARKET_RESOLVED"
            | None => "CLOSE_POSITION"
            end.
Proof.
  intros Hheld. unfold Sim.simulateSell. rewrite Hheld, Z.eqb_refl.
  cbn [negb].
  match goal with
  | |- context [Tracker.recordSell ?s ?d ?l] =>
      destruct (recordSell_appends s d l) as (pre & sell & Heq & Hpre & Hsell);
      destruct (Tracker.recordSell s d l) as [trades' id]
  end.
  cbn in Heq |- *. subst trades'.
  split; [reflexivity|]. split; [reflexivity|].
  exists pre, sell. split; [reflexivity|]. split; [exact Hpre|].
  destruct Hsell as (_ & Ht & _ & Hslug & Hout & _ & _ & _ & _ & Hact & _).
  unfold isSellOf. rewrite Ht, Hslug, Hout, Hact.
  repeat split. cbn. destruct w; reflexivity.
Qed.

Lemma sim_targetOutcome (yes no : Z) :
  (Z.abs yes <= 2 ^ 53)%Z -> (Z.abs no <= 2 ^ 53)%Z ->
  Sim.targetOutcome yes no = fst <$> Bot.targetOutcome yes no.
Proof.
  intros Hy Hn. unfold Sim.targetOutcome, Bot.targetOutcome.
  rewrite (NumberOfInt_exact yes Hy), (NumberOfInt_exact no Hn). cbv zeta.
  split_branches ltac:(reflexivity).
Qed.

Ltac unchanged_ledger :=
  solve [ eexists _, []; rewrite app_nil_r;
          repeat split; auto using Forall2_sameEntry_refl
        | exists []; rewrite app_nil_r; split; reflexivity ].

(** The close leg appends the SELL exactly when it completes; otherwise it
    leaves the ledger as it is. *)
Lemma replicateClose_appends (stamp : Stamp) (chain : Bot.CloseOracle)
    (slug : string) (market : Feed.Market) (outcomeIndex : Z) (st : Bot.State) :
  exists pre sells,
    Bot.tradeTracker (Bot.replicateClose stamp chain slug market outcomeIndex st)
    = pre ++ sells
    /\ Forall2 sameEntry pre (Bot.tradeTracker st)
    /\ (if closeLegCompletes chain slug market outcomeIndex st
        then exists s, sells = [s] /\ isSellOf slug outcomeIndex s
        else sells = []).
Proof.
  unfold Bot.replicateClose, closeLegCompletes.
  destruct (Bot.ourPositions st !! slug) as [ourPos|]; [|unchanged_ledger].
  destruct (Z.eqb (Bot.op_outcomeIndex ourPos) outcomeIndex);
    cbn [negb andb]; [|unchanged_ledger].
  destruct (String.eqb (Feed.m_address market) "");
    cbn [negb andb]; [unchanged_ledger|].
  destruct (Bot.marketReads chain); cbn [negb andb]; [|unchanged_ledger].
  destruct (Bot.tokenBalanceOf chain) as [balance|];
    cbn [negb andb]; [|unchanged_ledger].
  destruct (Z.eqb balance 0); cbn [negb andb]; [unchanged_ledger|].
  destruct (Bot.erc1155ApprovalOk chain); cbn [negb andb]; [|unchanged_ledger].
  destruct (Bot.gasOk (Bot.sellGasEstimate chain));
    cbn [negb andb]; [|unchanged_ledger].
  destruct (Bot.sellFeeData chain); cbn [negb andb]; [|unchanged_ledger].
  destruct (Bot.sellTx chain) as [hash|]; cbn [negb andb]; [|unchanged_ledger].
  destruct (Bot.sellReceipt chain); cbn [negb andb]; [|unchanged_ledger].
  match goal with
  | |- context [Tracker.recordSell ?s ?d ?l] =>
      destruct (recordSell_appends s d l) as (pre & sell & Heq & Hpre & Hsell);
      destruct (Tracker.recordSell s d l) as [trades' id]
  end.
  cbn in Heq |- *. subst trades'.
  exists pre, [sell]. repeat split; auto.
  exists sell. split; [reflexivity|].
  unfold isSellOf. destruct Hsell as (_ & Ht & _ & Hslug & Hout & _).
  rewrite Ht, Hslug, Hout. repeat split.
Qed.

(** The open leg appends the BUY exactly when it completes. *)
Lemma replicateOpen_appends (cfg : Bot.Config) (stamp : Stamp)
    (chain : Bot.OpenOracle) (slug : string) (market : Feed.Market)
    (outcomeIndex : Z) (st : Bot.State) :
  exists buys,
    Bot.tradeTracker (Bot.replicateOpen cfg stamp chain slug market outcomeIndex st)
    = Bot.tradeTracker st ++ buys
    /\ (if openLegCompletes cfg chain market
        then exists b, buys = [b] /\ isBuyOf slug outcomeIndex b
        else buys = []).
Proof.
  unfold Bot.replicateOpen, openLegCompletes.
  destruct (String.eqb (Feed.m_address market) "");
    cbn [negb andb]; [unchanged_ledger|].
  destruct (Feed.m_collateralToken market) as [token|]; [|unchanged_ledger].
  destruct (Nat.ltb 100 (Feed.ct_decimals token));
    cbn [negb andb]; [unchanged_ledger|].
  destruct (Bot.usdcBalanceOf chain) as [usdcBal|];
    cbn [negb andb]; [|unchanged_ledger].
  destruct (Z.ltb usdcBal _); cbn [negb andb]; [unchanged_ledger|].
  destruct (Bot.usdcApprovalOk chain); cbn [negb andb]; [|unchanged_ledger].
  destruct (Bot.calcBuyAmount chain) as [expectedTokens|];
    cbn [negb andb]; [|unchanged_ledger].
  destruct (BigIntOfNumber (Bot.SLIPPAGE_BPS cfg)) as [slippage|];
    cbn [negb andb]; [|unchanged_ledger].
  destruct (Bot.gasOk (Bot.buyGasEstimate chain));
    cbn [negb andb]; [|unchanged_ledger].
  destruct (Bot.buyFeeData chain); cbn [negb andb]; [|unchanged_ledger].
  destruct (Bot.buyTx chain) as [hash|]; cbn [negb andb]; [|unchanged_ledger].
  destruct (Bot.buyReceipt chain); cbn [negb andb]; [|unchanged_ledger].
  unfold Tracker.recordBuy. cbn.
  eexists. split; [reflexivity|].
  eexists. split; [reflexivity|]. repeat split.
Qed.

(** [simulateBuy] appends the BUY exactly when the balance covers it. *)
Lemma simulateBuy_appends (cfg : Sim.Config) (stamp : Stamp) (st : Sim.State)
    (slug : string) (outcome : Z) (t : Q) :
  exists buys,
    Sim.tradeTracker (fst (Sim.simulateBuy cfg stamp st slug outcome t))
    = Sim.tradeTracker st ++ buys
    /\ (if simBuyFits cfg st t
        then exists b, buys = [b] /\ isBuyOf slug outcome b
        else buys = []).
Proof.
  unfold Sim.simulateBuy, simBuyFits.
  destruct (Qltb _ _); cbn [negb].
  - exists []. rewrite app_nil_r. auto.
  - cbn. eexists. split; [reflexivity|].
    eexists. split; [reflexivity|]. repeat split.
Qed.

End Legs.

(** ** Resolved markets and side switches *)

(** C2 (as amended). A snapshot of a resolved market is skipped by the live
    path: processPosition returns the state untouched.  The simulation
    path, when the target's side is determinable and a local position is
    held, sells that position with the market's winning outcome: the
    position is removed, the balance is credited with the net return and
    one SELL entry is appended (MARKET_RESOLVED when a winning outcome is
    given). *)
Theorem resolved_market_skipped_live_sold_sim
    (lcfg : Bot.Config) (w : Bot.World) (lst : Bot.State)
    (scfg : Sim.Config) (stamps : Sim.Stamps) (sst : Sim.State)
    (pos : Feed.Position) (market : Feed.Market) (tb : Feed.TokensBalance)
    (side : Z) (held : Sim.SimPosition) :
  Feed.p_market pos = Some market ->
  Feed.m_slug market <> "" ->
  Feed.m_status market = "RESOLVED" ->
  Feed.p_tokensBalance pos = Some tb ->
  Sim.targetOutcome (Feed.orZero (Feed.tb_yes tb)) (Feed.orZero (Feed.tb_no tb))
  = Some side ->
  Sim.positions sst !! Feed.m_slug market = Some held ->
  Bot.processPosition lcfg w lst pos = lst
  /\ (let sst' := Sim.processPosition scfg stamps sst pos in
      sst' = fst (Sim.simulateSell scfg (Sim.sellStamp stamps) sst
                    (Feed.m_slug market) (Sim.outcome held) None
                    (Feed.m_winningOutcomeIndex market))
      /\ Sim.positions sst' !! Feed.m_slug market = None
      /\ (Sim.balance sst'
          == Sim.balance sst
             + Sim.netReturn scfg held (Sim.outcome held) None
                 (Feed.m_winningOutcomeIndex market))%Q
      /\ exists pre sell,
           Sim.tradeTracker sst' = pre ++ [sell]
           /\ Forall2 sameEntry pre (Sim.tradeTracker sst)
           /\ isSellOf (Feed.m_slug market) (Sim.outcome held) sell
           /\ t_targetWalletAction sell
              = match Feed.m_winningOutcomeIndex market with
                | Some _ => "MARKET_RESOLVED"
                | None => "CLOSE_POSITION"
                end).
Proof.
  intros Hm Hslug Hres Htb Hside Hheld.
  apply String.eqb_neq in Hslug.
  split.
  - unfold Bot.processPosition. rewrite Hm, Hslug, Hres. reflexivity.
  - assert (Hstep : Sim.processPosition scfg stamps sst pos
                    = fst (Sim.simulateSell scfg (Sim.sellStamp stamps) sst
                             (Feed.m_slug market) (Sim.outcome held) None
                             (Feed.m_winningOutcomeIndex market))).
    { unfold Sim.processPosition.
      rewrite Hm, Hslug, Htb, Hside, Hres, Hheld. reflexivity. }
    cbv zeta. rewrite Hstep.
    destruct (simulateSell_ledger scfg (Sim.sellStamp stamps) sst
                (Feed.m_slug market) held None
                (Feed.m_winningOutcomeIndex market) Hheld)
      as (Hpos & Hbal & Hled).
    split; [reflexivity|].
    split; [rewrite Hpos; apply lookup_delete_eq|].
    split; [exact Hbal | exact Hled].
Qed.

Lemma resolved_market_skipped_live_sold_sim_witness :
  Bot.processPosition Examples.readmeLive Examples.world Examples.liveHolding
    (Examples.feedOf Examples.marketM2resolved 1000 0)
  = Examples.liveHolding
  /\ Sim.positions
       (Sim.processPosition Examples.readmeSim Examples.simStamps
          Examples.simHolding (Examples.feedOf Examples.marketM2resolved 1000 0))
     !! "M2" = None.
Proof.
  destruct (resolved_market_skipped_live_sold_sim
              Examples.readmeLive Examples.world Examples.liveHolding
              Examples.readmeSim Examples.simStamps Examples.simHolding
              (Examples.feedOf Examples.marketM2resolved 1000 0)
              Examples.marketM2resolved
              (Feed.mkTokensBalance (Some 1000%Z) (Some 0%Z)) 1
              (Sim.mkSimPosition 1 50 49))
    as (Hlive & _ & Hgone & _).
  - reflexivity.
  - discriminate.
  - reflexivity.
  - reflexivity.
  - reflexivity.
  - reflexivity.
  - split; [exact Hlive | exact Hgone].
Defined.

(** C2, counterexample: the bot holds YES in M2, the feed reports M2 as
    resolved, the chain would let a close leg through; processPosition
    submits nothing, records no SELL and keeps the local position. *)
Lemma live_leaves_resolved_position_open :
  Feed.m_status Examples.marketM2resolved = "RESOLVED"
  /\ (let st' := Bot.processPosition Examples.readmeLive Examples.world
                   Examples.liveHolding
                   (Examples.feedOf Examples.marketM2resolved 1000 0) in
      Bot.op_outcomeIndex <$> Bot.ourPositions st' !! "M2" = Some 1%Z
      /\ Bot.submitted st' = []
      /\ map (fun t => (t_type t, t_status t)) (Bot.tradeTracker st')
         = [(BUY, OPEN)]
      /\ ~ (exists t, In t (Bot.tradeTracker st') /\ t_type t = SELL)).
Proof.
  split; [reflexivity|].
  cbv zeta. repeat split; try reflexivity.
  intros (t & [<-|[]] & Ht). discriminate Ht.
Qed.

(** C4 (as amended). When the target has switched sides, the close leg
    runs to its end before the open leg starts, and the open leg runs
    whatever became of the close leg.  The entries the switch appends to
    the ledger are therefore: the SELL of the old side exactly when the
    close leg completed (a local position on that side, every chain step
    answered), followed by the BUY of the new side exactly when the open
    leg completed; never a BUY before a SELL, but a BUY without a SELL when
    the bot held nothing or the close leg failed.  In the simulation a
    switch is seen only while a position is held: its SELL is always
    appended, followed by the BUY exactly when the balance after the sale
    covers it. *)
Theorem switch_appends_sell_before_buy
    (lcfg : Bot.Config) (w : Bot.World) (lst : Bot.State)
    (scfg : Sim.Config) (stamps : Sim.Stamps) (sst : Sim.State)
    (pos : Feed.Position) (market : Feed.Market) (tb : Feed.TokensBalance)
    (side balance simSide : Z) (lastSeen : Bot.LastSeen)
    (ourPos : Sim.SimPosition) :
  Feed.p_market pos = Some market ->
  Feed.m_slug market <> "" ->
  Feed.m_status market <> "RESOLVED" ->
  Feed.m_closed market = false ->
  Feed.p_tokensBalance pos = Some tb ->
  Bot.targetOutcome (Feed.orZero (Feed.tb_yes tb)) (Feed.orZero (Feed.tb_no tb))
  = Some (side, balance) ->
  Bot.lastSeenPositions lst !! Feed.m_slug market = Some lastSeen ->
  Bot.ls_outcomeIndex lastSeen <> side ->
  Sim.targetOutcome (Feed.orZero (Feed.tb_yes tb)) (Feed.orZero (Feed.tb_no tb))
  = Some simSide ->
  Sim.positions sst !! Feed.m_slug market = Some ourPos ->
  Sim.outcome ourPos <> simSide ->
  (exists pre appended,
     Bot.tradeTracker (Bot.processPosition lcfg w lst pos) = pre ++ appended
     /\ Forall2 sameEntry pre (Bot.tradeTracker lst)
     /\ closeThenOpen (Feed.m_slug market) (Bot.ls_outcomeIndex lastSeen) side
          (closeLegCompletes (Bot.closeChain w) (Feed.m_slug market) market
             (Bot.ls_outcomeIndex lastSeen) lst)
          (openLegCompletes lcfg (Bot.openChain w) market)
          appended)
  /\ (exists pre appended,
       Sim.tradeTracker (Sim.processPosition scfg stamps sst pos)
       = pre ++ appended
       /\ Forall2 sameEntry pre (Sim.tradeTracker sst)
       /\ closeThenOpen (Feed.m_slug market) (Sim.outcome ourPos) simSide
            true
            (simBuyFits scfg
               (fst (Sim.simulateSell scfg (Sim.sellStamp stamps) sst
                       (Feed.m_slug market) (Sim.outcome ourPos)
                       (Sim.estimateMarketValue ourPos pos) None))
               (targetInvestmentOf scfg pos simSide))
            appended).
Proof.
  intros Hm Hslug Hres Hclosed Htb Hside Hseen Hdiff Hsim Hours Hdiff'.
  apply String.eqb_neq in Hslug, Hres.
  apply Z.eqb_neq in Hdiff, Hdiff'.
  split.
  - unfold Bot.processPosition.
    rewrite Hm, Hslug, Hres, Hclosed, Htb, Hside, Hseen, Hdiff. cbn [orb negb].
    cbn [Bot.setLastSeen Bot.tradeTracker].
    set (st1 := Bot.replicateClose _ _ _ _ _ lst).
    destruct (replicateOpen_appends lcfg (Bot.openStamp w) (Bot.openChain w)
                (Feed.m_slug market) market side st1) as (buys & -> & Hbuys).
    subst st1.
    destruct (replicateClose_appends (Bot.closeStamp w) (Bot.closeChain w)
                (Feed.m_slug market) market (Bot.ls_outcomeIndex lastSeen) lst)
      as (pre & sells & -> & Hpre & Hsells).
    exists pre, (sells ++ buys). rewrite app_assoc.
    split; [reflexivity|]. split; [exact Hpre|].
    exists sells, buys. auto.
  - unfold Sim.processPosition.
    rewrite Hm, Hslug, Htb, Hsim, Hres, Hours, Hdiff'. cbn [negb].
    fold (targetInvestmentOf scfg pos simSide).
    set (st1 := fst (Sim.simulateSell _ _ sst _ _ _ None)).
    destruct (simulateBuy_appends scfg (Sim.buyStamp stamps) st1
                (Feed.m_slug market) simSide
                (targetInvestmentOf scfg pos simSide)) as (buys & -> & Hbuys).
    subst st1.
    destruct (simulateSell_ledger scfg (Sim.sellStamp stamps) sst
                (Feed.m_slug market) ourPos
                (Sim.estimateMarketValue ourPos pos) None Hours)
      as (_ & _ & pre & sell & -> & Hpre & Hsell & _).
    exists pre, ([sell] ++ buys). rewrite <- app_assoc.
    split; [reflexivity|]. split; [exact Hpre|].
    exists [sell], buys. split; [reflexivity|]. split; [|exact Hbuys].
    exists sell. auto.
Qed.

Lemma switch_appends_sell_before_buy_witness :
  (exists pre appended,
     Bot.tradeTracker
       (Bot.processPosition Examples.readmeLive Examples.worldSwitch
          Examples.liveHolding (Examples.feedOf Examples.marketM2 0 1000))
     = pre ++ appended
     /\ Forall2 sameEntry pre (Bot.tradeTracker Examples.liveHolding)
     /\ closeThenOpen "M2" 1 0 true true appended)
  /\ (exists pre appended,
       Sim.tradeTracker
         (Sim.processPosition Examples.readmeSim Examples.simStamps
            Examples.simHolding (Examples.feedOf Examples.marketM2 0 1000))
       = pre ++ appended
       /\ Forall2 sameEntry pre (Sim.tradeTracker Examples.simHolding)
       /\ closeThenOpen "M2" 1 0 true true appended).
Proof.
  apply (switch_appends_sell_before_buy
           Examples.readmeLive Examples.worldSwitch Examples.liveHolding
           Examples.readmeSim Examples.simStamps Examples.simHolding
           (Examples.feedOf Examples.marketM2 0 1000) Examples.marketM2
           (Feed.mkTokensBalance (Some 0%Z) (Some 1000%Z)) 0 1000 0
           (Bot.mkLastSeen 1 1000) (Sim.mkSimPosition 1 50 49));
    solve [reflexivity | discriminate].
Defined.

(** C4, counterexample: a switch that appends a BUY and no SELL.  First
    the bot has only recorded the target's YES side of M2 in its first
    poll and holds nothing: when the target switches to NO, the close leg
    finds no position and the open leg buys NO.  Second the bot holds YES
    and the ERC1155 approval of the close leg fails: the open leg still
    buys NO, the YES position is never sold and its local record is
    overwritten. *)
Lemma switch_opens_without_close :
  (let st := Scenarios.liveRecorded in
   let st' := Bot.processPosition Examples.readmeLive Examples.worldSwitch st
                (Examples.feedOf Examples.marketM2 0 1000) in
   Bot.ls_outcomeIndex <$> Bot.lastSeenPositions st !! "M2" = Some 1%Z
   /\ Bot.ourPositions st = ∅
   /\ Bot.tradeTracker st = []
   /\ map (fun t => (t_id t, t_type t, t_outcome t, t_status t))
          (Bot.tradeTracker st')
      = [("b2", BUY, 0%Z, OPEN)]
   /\ Bot.submitted st' = [Bot.TxBuy "0xM2" 5000000 0 8820000])
  /\ (let st := Examples.liveHolding in
      let st' := Bot.processPosition Examples.readmeLive Scenarios.worldBlocked
                   st (Examples.feedOf Examples.marketM2 0 1000) in
      Bot.ls_outcomeIndex <$> Bot.lastSeenPositions st !! "M2" = Some 1%Z
      /\ Bot.op_outcomeIndex <$> Bot.ourPositions st !! "M2" = Some 1%Z
      /\ map (fun t => (t_id t, t_type t, t_outcome t, t_status t))
             (Bot.tradeTracker st')
         = [("b1", BUY, 1%Z, OPEN); ("b2", BUY, 0%Z, OPEN)]
      /\ Bot.submitted st' = [Bot.TxBuy "0xM2" 5000000 0 8820000]
      /\ Bot.op_outcomeIndex <$> Bot.ourPositions st' !! "M2" = Some 0%Z).
Proof.
  split; cbv zeta; repeat split; vm_compute; reflexivity.
Qed.

Example switch_ledgers_computed :
  map (fun t => (t_id t, t_type t, t_outcome t, t_status t))
      (Bot.tradeTracker
         (Bot.processPosition Examples.readmeLive Examples.worldSwitch
            Examples.liveHolding (Examples.feedOf Examples.marketM2 0 1000)))
  = [("b1", BUY, 1%Z, CLOSED); ("s1", SELL, 1%Z, CLOSED); ("b2", BUY, 0%Z, OPEN)]
  /\ map (fun t => (t_id t, t_type t, t_outcome t, t_status t))
       (Sim.tradeTracker
          (Sim.processPosition Examples.readmeSim Examples.simStamps
             Examples.simHolding (Examples.feedOf Examples.marketM2 0 1000)))
    = [("b1", BUY, 1%Z, CLOSED); ("s1", SELL, 1%Z, CLOSED); ("b2", BUY, 0%Z, OPEN)].
Proof. vm_compute. split; reflexivity. Qed.

(** ** Cold start and unchanged snapshots *)

Section ColdStart.

Variable cfg : Bot.Config.

Lemma replicateOpen_keeps (stamp : Stamp) (chain : Bot.OpenOracle)
    (slug : string) (market : Feed.Market) (o : Z) (st : Bot.State) :
  Bot.lastSeenPositions (Bot.replicateOpen cfg stamp chain slug market o st)
  = Bot.lastSeenPositions st
  /\ Bot.isInitialSync (Bot.replicateOpen cfg stamp chain slug market o st)
     = Bot.isInitialSync st.
Proof.
  unfold Bot.replicateOpen.
  split_branches ltac:(split; reflexivity).
Qed.

Lemma replicateClose_keeps (stamp : Stamp) (chain : Bot.CloseOracle)
    (slug : string) (market : Feed.Market) (o : Z) (st : Bot.State) :
  Bot.lastSeenPositions (Bot.replicateClose stamp chain slug market o st)
  = Bot.lastSeenPositions st
  /\ Bot.isInitialSync (Bot.replicateClose stamp chain slug market o st)
     = Bot.isInitialSync st.
Proof.
  unfold Bot.replicateClose.
  split_branches ltac:(split; reflexivity).
Qed.

(** [processPosition] through the reading of the feed element. *)
Lemma processPosition_reading (w : Bot.World) (st : Bot.State)
    (p : Feed.Position) :
  Bot.processPosition cfg w st p
  = match reading p with
    | Skipped => st
    | Gone slug market =>
        match Bot.lastSeenPositions st !! slug with
        | Some lastSeen =>
            let st1 := Bot.replicateClose (Bot.closeStamp w) (Bot.closeChain w)
                         slug market (Bot.ls_outcomeIndex lastSeen) st in
            Bot.setLastSeen (delete slug (Bot.lastSeenPositions st1)) st1
        | None => st
        end
    | Held slug market o b =>
        match Bot.lastSeenPositions st !! slug with
        | None =>
            let st1 :=
              if Bot.isInitialSync st then st
              else Bot.replicateOpen cfg (Bot.openStamp w) (Bot.openChain w)
                     slug market o st in
            Bot.setLastSeen
              (<[slug := Bot.mkLastSeen o b]> (Bot.lastSeenPositions st1)) st1
        | Some lastSeen =>
            if negb (Z.eqb (Bot.ls_outcomeIndex lastSeen) o) then
              let st1 := Bot.replicateClose (Bot.closeStamp w) (Bot.closeChain w)
                           slug market (Bot.ls_outcomeIndex lastSeen) st in
              let st2 := Bot.replicateOpen cfg (Bot.openStamp w) (Bot.openChain w)
                           slug market o st1 in
              Bot.setLastSeen
                (<[slug := Bot.mkLastSeen o b]> (Bot.lastSeenPositions st2)) st2
            else
              Bot.setLastSeen
                (<[slug := Bot.mkLastSeen o b]> (Bot.lastSeenPositions st)) st
        end
    end.
Proof.
  unfold Bot.processPosition, reading.
  destruct (Feed.p_market p) as [market|]; [|reflexivity].
  destruct (String.eqb (Feed.m_slug market) ""); [reflexivity|].
  destruct (String.eqb (Feed.m_status market) "RESOLVED" || Feed.m_closed market);
    [reflexivity|].
  destruct (Feed.p_tokensBalance p) as [tb|]; [|reflexivity].
  destruct (Bot.targetOutcome _ _) as [[o b]|]; reflexivity.
Qed.

Lemma setLastSeen_same (st : Bot.State) :
  Bot.setLastSeen (Bot.lastSeenPositions st) st = st.
Proof. destruct st. reflexivity. Qed.

(** A feed element the map already agrees with changes nothing. *)
Lemma processPosition_quiet (w : Bot.World) (st : Bot.State) (p : Feed.Position) :
  recorded (Bot.lastSeenPositions st) p ->
  Bot.processPosition cfg w st p = st.
Proof.
  unfold recorded. rewrite processPosition_reading.
  destruct (reading p) as [|slug market|slug market o b]; intros H.
  - reflexivity.
  - rewrite H. reflexivity.
  - rewrite H. cbn [Bot.ls_outcomeIndex]. rewrite Z.eqb_refl. cbn [negb].
    rewrite (insert_id _ _ _ H). apply setLastSeen_same.
Qed.

(** After a feed element is processed the map agrees with it. *)
Lemma processPosition_records (w : Bot.World) (st : Bot.State) (p : Feed.Position) :
  recorded (Bot.lastSeenPositions (Bot.processPosition cfg w st p)) p.
Proof.
  unfold recorded. rewrite processPosition_reading.
  destruct (reading p) as [|slug market|slug market o b]; [exact I| |].
  - destruct (Bot.lastSeenPositions st !! slug) eqn:E; [|exact E].
    cbn. apply lookup_delete_eq.
  - destruct (Bot.lastSeenPositions st !! slug) eqn:E.
    + destruct (negb _); cbn; apply lookup_insert_eq.
    + cbn. apply lookup_insert_eq.
Qed.

(** Processing a feed element touches the map at its own market only. *)
Lemma processPosition_other (w : Bot.World) (st : Bot.State) (q : Feed.Position)
    (slug : string) :
  slugOf q <> Some slug ->
  Bot.lastSeenPositions (Bot.processPosition cfg w st q) !! slug
  = Bot.lastSeenPositions st !! slug.
Proof.
  unfold slugOf. rewrite processPosition_reading.
  destruct (reading q) as [|s market|s market o b]; intros Hne.
  - reflexivity.
  - assert (s <> slug) by congruence.
    destruct (Bot.lastSeenPositions st !! s); [|reflexivity].
    cbn. rewrite lookup_delete_ne by assumption.
    rewrite (proj1 (replicateClose_keeps _ _ _ _ _ _)). reflexivity.
  - assert (s <> slug) by congruence.
    destruct (Bot.lastSeenPositions st !! s).
    + destruct (negb _); cbn; rewrite lookup_insert_ne by assumption;
        rewrite ?(proj1 (replicateOpen_keeps _ _ _ _ _ _)),
                ?(proj1 (replicateClose_keeps _ _ _ _ _ _)); reflexivity.
    + destruct (Bot.isInitialSync st); cbn;
        rewrite lookup_insert_ne by assumption;
        rewrite ?(proj1 (replicateOpen_keeps _ _ _ _ _ _)); reflexivity.
Qed.

Lemma recorded_other (w : Bot.World) (st : Bot.State) (p q : Feed.Position) :
  (forall slug, slugOf p = Some slug -> slugOf q <> Some slug) ->
  recorded (Bot.lastSeenPositions st) p ->
  recorded (Bot.lastSeenPositions (Bot.processPosition cfg w st q)) p.
Proof.
  unfold recorded, slugOf at 1.
  destruct (reading p) as [|slug market|slug market o b]; intros Hne H.
  - exact I.
  - rewrite processPosition_other by auto. exact H.
  - rewrite processPosition_other by auto. exact H.
Qed.

Lemma slugs_cons (q : Feed.Position) (feed : list Feed.Position) :
  slugs (q :: feed)
  = match slugOf q with Some s => s :: slugs feed | None => slugs feed end.
Proof. reflexivity. Qed.

Lemma recorded_through (worlds : nat -> Bot.World) (feed : list Feed.Position)
    (i : nat) (st : Bot.State) (p : Feed.Position) :
  (forall slug, slugOf p = Some slug -> slug ∉ slugs feed) ->
  recorded (Bot.lastSeenPositions st) p ->
  recorded (Bot.lastSeenPositions (Bot.pollLoop cfg worlds i st feed)) p.
Proof.
  revert i st. induction feed as [|q feed IH]; intros i st Hfresh H; cbn.
  - exact H.
  - apply IH.
    + intros slug Hs Hin. apply (Hfresh slug Hs).
      rewrite slugs_cons. destruct (slugOf q); [right|]; exact Hin.
    + apply recorded_other; [|exact H].
      intros slug Hs Hq. apply (Hfresh slug Hs).
      rewrite slugs_cons, Hq. left.
Qed.

(** After a pass over a feed that names each market once, the map agrees
    with every element of the feed. *)
Lemma pollLoop_records (worlds : nat -> Bot.World) (feed : list Feed.Position)
    (i : nat) (st : Bot.State) :
  NoDup (slugs feed) ->
  Forall (recorded (Bot.lastSeenPositions (Bot.pollLoop cfg worlds i st feed)))
         feed.
Proof.
  revert i st. induction feed as [|q feed IH]; intros i st Hnd; cbn.
  - constructor.
  - assert (Hnd' : NoDup (slugs feed)).
    { rewrite slugs_cons in Hnd. destruct (slugOf q); [|exact Hnd].
      apply NoDup_cons in Hnd as [_ Hnd]. exact Hnd. }
    constructor; [|apply IH, Hnd'].
    apply recorded_through; [|apply processPosition_records].
    intros slug Hs. rewrite slugs_cons, Hs in Hnd.
    apply NoDup_cons in Hnd as [Hnot _]. exact Hnot.
Qed.

Lemma pollLoop_quiet (worlds : nat -> Bot.World) (feed : list Feed.Position)
    (i : nat) (st : Bot.State) :
  Forall (recorded (Bot.lastSeenPositions st)) feed ->
  Bot.pollLoop cfg worlds i st feed = st.
Proof.
  revert i. induction feed as [|q feed IH]; intros i H; cbn.
  - reflexivity.
  - apply Forall_cons in H as [Hq Hrest].
    rewrite (processPosition_quiet _ _ _ Hq). apply IH, Hrest.
Qed.

(** A second pass over the feed of the pass before it changes nothing:
    no leg is run, so nothing is submitted. *)
Lemma poll_unchanged_snapshot (worlds worlds' : nat -> Bot.World)
    (st : Bot.State) (feed : list Feed.Position) :
  NoDup (slugs feed) ->
  Bot.poll cfg worlds' (Bot.poll cfg worlds st feed) feed
  = Bot.poll cfg worlds st feed.
Proof.
  intros Hnd. destruct feed as [|q feed]; [reflexivity|].
  unfold Bot.poll.
  rewrite pollLoop_quiet.
  - destruct (Bot.pollLoop cfg worlds 0 st (q :: feed)). reflexivity.
  - exact (pollLoop_records worlds (q :: feed) 0 st Hnd).
Qed.

(** What one element does to a bot in its initial sync that has not seen
    the element's market: the map gains the entry, nothing else moves. *)
Lemma processPosition_initial (w : Bot.World) (st : Bot.State)
    (p : Feed.Position) :
  Bot.isInitialSync st = true ->
  (forall slug, slugOf p = Some slug -> Bot.lastSeenPositions st !! slug = None) ->
  Bot.processPosition cfg w st p
  = Bot.setLastSeen
      (match reading p with
       | Held slug _ o b => <[slug := Bot.mkLastSeen o b]> (Bot.lastSeenPositions st)
       | _ => Bot.lastSeenPositions st
       end) st.
Proof.
  intros Hinit. unfold slugOf. rewrite processPosition_reading.
  destruct (reading p) as [|slug market|slug market o b]; intros Hunseen.
  - symmetry. apply setLastSeen_same.
  - rewrite (Hunseen slug eq_refl). symmetry. apply setLastSeen_same.
  - rewrite (Hunseen slug eq_refl), Hinit. reflexivity.
Qed.

Lemma pollLoop_initial (worlds : nat -> Bot.World) (feed : list Feed.Position)
    (i : nat) (st : Bot.State) :
  NoDup (slugs feed) ->
  Bot.isInitialSync st = true ->
  Forall (fun s => Bot.lastSeenPositions st !! s = None) (slugs feed) ->
  exists m, Bot.pollLoop cfg worlds i st feed = Bot.setLastSeen m st.
Proof.
  revert i st. induction feed as [|q feed IH]; intros i st Hnd Hinit Hun; cbn.
  - exists (Bot.lastSeenPositions st). symmetry. apply setLastSeen_same.
  - rewrite slugs_cons in Hnd, Hun.
    rewrite processPosition_initial; [|exact Hinit|].
    + set (m := match reading q with
                | Held slug _ o b => _ | _ => _ end).
      destruct (IH (S i) (Bot.setLastSeen m st)) as (m' & ->).
      * destruct (slugOf q); [|exact Hnd].
        apply NoDup_cons in Hnd as [_ Hnd]. exact Hnd.
      * exact Hinit.
      * subst m. unfold slugOf in Hnd, Hun.
        destruct (reading q) as [|slug market|slug market o b]; cbn.
        -- exact Hun.
        -- apply Forall_cons in Hun as [_ Hun]. exact Hun.
        -- apply Forall_cons in Hun as [_ Hun].
           apply NoDup_cons in Hnd as [Hnot _].
           apply Forall_forall. intros s Hs.
           rewrite lookup_insert_ne by (intros ->; contradiction).
           rewrite Forall_forall in Hun. auto.
      * exists m'. reflexivity.
    + intros slug Hs. rewrite Hs in Hun.
      apply Forall_cons in Hun as [Hq _]. exact Hq.
Qed.

(** Once the initial sync is over, the same unseen element runs the open
    leg: the suppression hangs on the flag of the state alone. *)
Lemma processPosition_after_sync (w : Bot.World) (st : Bot.State)
    (p : Feed.Position) (slug : string) (market : Feed.Market) (o b : Z) :
  Bot.isInitialSync st = false ->
  reading p = Held slug market o b ->
  Bot.lastSeenPositions st !! slug = None ->
  Bot.processPosition cfg w st p
  = Bot.setLastSeen (<[slug := Bot.mkLastSeen o b]> (Bot.lastSeenPositions st))
      (Bot.replicateOpen cfg (Bot.openStamp w) (Bot.openChain w) slug market o st).
Proof.
  intros Hinit Hr Hunseen.
  rewrite processPosition_reading, Hr, Hunseen, Hinit. cbv zeta.
  rewrite (proj1 (replicateOpen_keeps _ _ _ _ _ _)). reflexivity.
Qed.

End ColdStart.

(** C3. During the initial sync every target position of a market not
    seen before is recorded in the last-seen map and no leg is run for it:
    nothing is submitted, the ledger and the local positions stay as they
    were.  The flag belongs to the pass: it stays set while the feed is
    processed and is cleared when a non-empty pass ends.  A later pass over
    the unchanged feed changes nothing at all, so it submits no trade. *)
Theorem cold_start_records_without_trading (cfg : Bot.Config)
    (worlds worlds' : nat -> Bot.World) (st : Bot.State)
    (feed : list Feed.Position) :
  NoDup (slugs feed) ->
  Bot.isInitialSync st = true ->
  Forall (fun s => Bot.lastSeenPositions st !! s = None) (slugs feed) ->
  let st1 := Bot.poll cfg worlds st feed in
  (forall p slug market o b,
      p ∈ feed -> reading p = Held slug market o b ->
      Bot.lastSeenPositions st1 !! slug = Some (Bot.mkLastSeen o b))
  /\ Bot.submitted st1 = Bot.submitted st
  /\ Bot.tradeTracker st1 = Bot.tradeTracker st
  /\ Bot.ourPositions st1 = Bot.ourPositions st
  /\ Bot.isInitialSync st1 = match feed with [] => true | _ => false end
  /\ Bot.poll cfg worlds' st1 feed = st1
  /\ Bot.submitted (Bot.poll cfg worlds' st1 feed) = Bot.submitted st.
Proof.
  intros Hnd Hinit Hunseen st1.
  assert (Hidem : Bot.poll cfg worlds' st1 feed = st1)
    by (apply poll_unchanged_snapshot, Hnd).
  assert (Hrec : Forall (recorded (Bot.lastSeenPositions st1)) feed).
  { subst st1. unfold Bot.poll. destruct feed as [|q feed]; [constructor|].
    exact (pollLoop_records cfg worlds (q :: feed) 0 st Hnd). }
  destruct (pollLoop_initial cfg worlds feed 0 st Hnd Hinit Hunseen) as (m & Hm).
  assert (Hsub : Bot.submitted st1 = Bot.submitted st
                 /\ Bot.tradeTracker st1 = Bot.tradeTracker st
                 /\ Bot.ourPositions st1 = Bot.ourPositions st
                 /\ Bot.isInitialSync st1
                    = match feed with [] => true | _ => false end).
  { subst st1. unfold Bot.poll. destruct feed as [|q feed].
    - auto.
    - rewrite Hm. cbn. auto. }
  destruct Hsub as (Hs & Ht & Ho & Hi).
  split.
  - intros p slug market o b Hin Hr.
    rewrite Forall_forall in Hrec. specialize (Hrec p Hin).
    unfold recorded in Hrec. rewrite Hr in Hrec. exact Hrec.
  - rewrite Hidem. auto 10.
Qed.

Lemma cold_start_records_without_trading_witness :
  let st1 := Bot.poll Examples.readmeLive Examples.worlds Examples.coldStart
               Examples.threeMarkets in
  Bot.submitted st1 = []
  /\ Bot.tradeTracker st1 = []
  /\ Bot.isInitialSync st1 = false
  /\ Bot.submitted
       (Bot.poll Examples.readmeLive Examples.worlds st1 Examples.threeMarkets)
     = [].
Proof.
  destruct (cold_start_records_without_trading Examples.readmeLive
              Examples.worlds Examples.worlds Examples.coldStart
              Examples.threeMarkets)
    as (_ & Hs & Ht & _ & Hi & _ & Hs2).
  - apply (bool_decide_unpack _). vm_compute. exact I.
  - reflexivity.
  - vm_compute. repeat constructor.
  - cbv zeta. repeat split; assumption.
Defined.


(** * Further properties of the code *)

Import Notions.

(** ** The ledger: closing, orphans, append-only, statistics, queries *)

Section LedgerMore.

Lemma closeTrade_unknown (clock id : string) (cd : CloseData) (l : list Trade) :
  Forall (fun t => t_id t <> id) l ->
  closeTrade clock id cd l = (l, false).
Proof.
  induction 1 as [|t l Ht _ IH]; simpl; [reflexivity|].
  destruct (String.eqb_spec (t_id t) id) as [E|_]; [contradiction|].
  rewrite IH. reflexivity.
Qed.

Lemma find_none_app {A} (f : A -> bool) (l : list A) (x : A) :
  List.find f l = None -> f x = false -> List.find f (l ++ [x]) = None.
Proof.
  induction l as [|y l IH]; simpl; intros Hl Hx.
  - rewrite Hx. reflexivity.
  - destruct (f y); [discriminate|]. auto.
Qed.

Lemma applyOp_appends (l : list Trade) (op : LedgerOp) :
  exists pre added,
    applyOp l op = pre ++ added
    /\ Forall2 sameEntry pre l
    /\ length added = appends op.
Proof.
  destruct op as [stamp data|stamp data|clock id cd]; cbn [applyOp appends].
  - exists l, [buyTrade stamp data]. auto using Forall2_sameEntry_refl.
  - destruct (recordSell_appends stamp data l) as (pre & sell & -> & Hpre & _).
    exists pre, [sell]. auto.
  - exists (fst (closeTrade clock id cd l)), []. rewrite app_nil_r.
    auto using closeTrade_length.
Qed.

Lemma Forall2_sameEntry_trans (a b c : list Trade) :
  Forall2 sameEntry a b -> Forall2 sameEntry b c -> Forall2 sameEntry a c.
Proof.
  intros Hab. revert c. induction Hab as [|x y a b Hxy _ IH]; intros c Hbc.
  - apply Forall2_nil_inv_l in Hbc as ->. constructor.
  - apply Forall2_cons_inv_l in Hbc as (z & c' & Hyz & Hbc & ->).
    constructor; [eapply sameEntry_trans; eauto | auto].
Qed.

Lemma filter_length_split {A} (f : A -> bool) (l : list A) :
  length (List.filter f l) + length (List.filter (fun x => negb (f x)) l)
  = length l.
Proof.
  induction l as [|x l IH]; simpl; [reflexivity|].
  destruct (f x); simpl; lia.
Qed.

Lemma filter_ext_eq {A} (f g : A -> bool) (l : list A) :
  (forall x, f x = g x) -> List.filter f l = List.filter g l.
Proof.
  intros H. induction l as [|x l IH]; simpl; [reflexivity|].
  rewrite H, IH. reflexivity.
Qed.

Lemma filter_length_le {A} (f : A -> bool) (l : list A) :
  length (List.filter f l) <= length l.
Proof.
  induction l as [|x l IH]; simpl; [lia|]. destruct (f x); simpl; lia.
Qed.

End LedgerMore.

(** X1. A SELL that has nothing to close is still recorded and closes
    nothing: when it names a BUY id the ledger does not hold (and that is
    not its own id), or names none while no OPEN BUY of its market and
    outcome exists, the ledger is the old one followed by the SELL as
    built, dangling link included. *)
Theorem recordSell_orphan (stamp : Stamp) (data : SellData) (l : list Trade) :
  (exists rid, orNull (sd_relatedBuyTradeId data) = Some rid
               /\ Forall (fun t => t_id t <> rid) l /\ freshId stamp <> rid)
  \/ (orNull (sd_relatedBuyTradeId data) = None
      /\ findOpenBuy (sd_marketSlug data) (sd_outcome data) l = None) ->
  recordSell stamp data l = (l ++ [sellTrade stamp data], freshId stamp).
Proof.
  intros [(rid & Hrid & Hl & Hfresh)|(Hnone & Hfind)]; unfold recordSell.
  - rewrite Hrid. rewrite closeTrade_unknown; [reflexivity|].
    apply Forall_app. split; [exact Hl|]. constructor; [exact Hfresh|constructor].
  - rewrite Hnone. unfold findOpenBuy in *.
    rewrite find_none_app; [reflexivity|exact Hfind|reflexivity].
Qed.

Lemma recordSell_orphan_witness :
  recordSell Scenarios.stampS2 Scenarios.sellDangling Scenarios.threeEntries
  = (Scenarios.threeEntries ++ [sellTrade Scenarios.stampS2 Scenarios.sellDangling],
     "s2").
Proof.
  apply recordSell_orphan. left. exists "gone".
  split; [reflexivity|]. split; [|discriminate].
  vm_compute. repeat constructor; discriminate.
Defined.

(** X2. closeTrade does not look at the status of the entry: closing the
    same id a second time overwrites the closure data of the first close,
    so the ledger is as if only the second close had happened. *)
Theorem closeTrade_twice_overwrites (c1 c2 id : string) (cd1 cd2 : CloseData)
    (l : list Trade) :
  closeTrade c2 id cd2 (fst (closeTrade c1 id cd1 l)) = closeTrade c2 id cd2 l.
Proof.
  induction l as [|t l IH]; simpl; [reflexivity|].
  destruct (String.eqb (t_id t) id) eqn:E; simpl.
  - rewrite E. reflexivity.
  - destruct (closeTrade c1 id cd1 l) as [rest found]. simpl in *.
    rewrite E, IH. reflexivity.
Qed.

(** X3. The ledger is append-only: after any sequence of recordBuy,
    recordSell and closeTrade the entries that were there are still there,
    in place and with their identity (id, type, market, outcome, amounts),
    followed by one new entry per recordBuy and recordSell. *)
Theorem ledger_append_only (l : list Trade) (ops : list LedgerOp) :
  exists pre added,
    applyOps l ops = pre ++ added
    /\ Forall2 sameEntry pre l
    /\ length added = appendedBy ops.
Proof.
  revert l. induction ops as [|op ops IH]; intros l.
  - exists l, []. rewrite app_nil_r. simpl. auto using Forall2_sameEntry_refl.
  - cbn [applyOps fold_left appendedBy foldr].
    destruct (applyOp_appends l op) as (pre & a & Hop & Hpre & Ha).
    destruct (IH (applyOp l op)) as (pre' & added & Heq & Hpre' & Hadded).
    rewrite Hop in Hpre'.
    apply Forall2_app_inv_r in Hpre' as (p1 & p2 & Hp1 & Hp2 & ->).
    exists p1, (p2 ++ added).
    split; [unfold applyOps in Heq; rewrite Heq, app_assoc; reflexivity|].
    split; [eapply Forall2_sameEntry_trans; eauto|].
    rewrite length_app, (Forall2_length _ _ _ Hp2), Ha. fold (appendedBy ops). lia.
Qed.

(** X4. The counters of the statistics add up: every entry is a BUY or a
    SELL and every BUY is active or closed, and the active count is the
    size of getOpenPositions. *)
Theorem stats_counts_add_up (trades : list Trade) :
  totalTrades (getStats trades)
  = totalBuys (getStats trades) + totalSells (getStats trades)
  /\ totalBuys (getStats trades)
     = activePositions (getStats trades) + closedPositions (getStats trades)
  /\ activePositions (getStats trades) = length (getOpenPositions trades)
  /\ closedPositions (getStats trades) = length (getClosedPositions trades).
Proof.
  unfold getStats, updateStats; simpl.
  rewrite closed_of_buys, open_of_buys.
  split; [|split; [|split; reflexivity]].
  - rewrite <- (filter_length_split isBuy trades). f_equal. f_equal.
    apply filter_ext_eq. intros t. unfold isBuy, isSell.
    destruct (t_type t); reflexivity.
  - rewrite <- open_of_buys, <- closed_of_buys.
    rewrite <- (filter_length_split isOpen (List.filter isBuy trades)).
    f_equal. f_equal. apply filter_ext_eq. intros t. unfold isOpen, isClosed.
    destruct (t_status t); reflexivity.
Qed.

(** X5. The win rate of the statistics always lies between 0 and 100. *)
Theorem winRate_between_0_and_100 (trades : list Trade) :
  (0 <= winRate (getStats trades) <= 100)%Q.
Proof.
  unfold getStats, updateStats; simpl.
  rewrite closed_of_buys.
  set (closed := getClosedPositions trades).
  pose proof (filter_length_le isProfitable closed) as Hle.
  set (wins := List.filter isProfitable closed) in *.
  destruct (Nat.ltb_spec 0 (length closed)) as [Hpos|_];
    [|split; [apply Qle_refl | discriminate]].
  assert (Hc : (0 < inject_Z (Z.of_nat (length closed)))%Q).
  { change 0%Q with (inject_Z 0). rewrite <- Zlt_Qlt. lia. }
  assert (Hw : (0 <= inject_Z (Z.of_nat (length wins)))%Q).
  { change 0%Q with (inject_Z 0). rewrite <- Zle_Qle. lia. }
  assert (Hwc : (inject_Z (Z.of_nat (length wins))
                 <= inject_Z (Z.of_nat (length closed)))%Q).
  { rewrite <- Zle_Qle. lia. }
  split.
  - apply Qmult_le_0_compat; [|discriminate].
    apply Qle_shift_div_l; [exact Hc|]. rewrite Qmult_0_l. exact Hw.
  - rewrite <- (Qmult_1_l 100) at 2.
    apply Qmult_le_compat_r; [|discriminate].
    apply Qle_shift_div_r; [exact Hc|]. rewrite Qmult_1_l. exact Hwc.
Qed.

(** X6. getRecentTrades(count) returns the [count] newest entries, newest
    first (all of them when there are fewer), and ten without argument;
    but getRecentTrades(0) returns the whole ledger, newest first, because
    slice(-0) is slice(0). *)
Theorem getRecentTrades_newest_first (count : Z) (trades : list Trade) :
  (0 < count)%Z ->
  Queries.getRecentTrades (Some count) trades
  = take (Z.to_nat count) (rev trades)
  /\ Queries.getRecentTrades None trades = take 10 (rev trades)
  /\ Queries.getRecentTrades (Some 0%Z) trades = rev trades.
Proof.
  assert (H : forall c, (0 < c)%Z ->
            Queries.getRecentTrades (Some c) trades
            = take (Z.to_nat c) (rev trades)).
  { intros c Hc. unfold Queries.getRecentTrades, Queries.sliceFrom. simpl.
    destruct (Z.ltb_spec (- c) 0) as [_|]; [|lia].
    rewrite firstn_rev. f_equal. f_equal. lia. }
  intros Hc. split; [apply H, Hc|]. split.
  - apply (H 10%Z). lia.
  - unfold Queries.getRecentTrades, Queries.sliceFrom. simpl.
    rewrite Z.min_l by lia. reflexivity.
Qed.

Lemma getRecentTrades_newest_first_witness :
  map t_id (Queries.getRecentTrades (Some 2%Z) Scenarios.threeEntries)
  = ["b2"; "s1"]
  /\ map t_id (Queries.getRecentTrades (Some 0%Z) Scenarios.threeEntries)
     = ["b2"; "s1"; "b1"].
Proof.
  destruct (getRecentTrades_newest_first 2 Scenarios.threeEntries) as (H2 & _ & H0).
  - reflexivity.
  - rewrite H2, H0. split; reflexivity.
Defined.

(** ** The sizer, the simulated sell and the side of the target *)



(** X8. A simulated sell of a resolved market never pays more than was
    invested: a loss pays nothing and a win pays the investment with the
    fee taken twice, invested * (1 - fee)^2, whatever market value is
    passed. *)
Theorem resolved_sell_never_profits (cfg : Sim.Config) (stamp : Stamp)
    (st : Sim.State) (slug : string) (held : Sim.SimPosition)
    (mv : option Q) (w : Z) :
  (0 <= Sim.FEE_BPS cfg <= 10000)%Q ->
  (0 <= Sim.invested held)%Q ->
  Sim.positions st !! slug = Some held ->
  (Sim.balance (fst (Sim.simulateSell cfg stamp st slug (Sim.outcome held) mv
                       (Some w)))
   <= Sim.balance st + Sim.invested held)%Q
  /\ (Sim.netReturn cfg held (Sim.outcome held) mv (Some w)
      == if Z.eqb w (Sim.outcome held)
         then Sim.invested held * (1 - Sim.FEE_BPS cfg / 10000)
              * (1 - Sim.FEE_BPS cfg / 10000)
         else 0)%Q.
Proof.
  intros [Hf0 Hf1] Hinv Hheld.
  assert (Hk1 : (Sim.FEE_BPS cfg / 10000 <= 1)%Q).
  { apply Qle_shift_div_r; [reflexivity|]. rewrite Qmult_1_l. exact Hf1. }
  assert (Hk0 : (0 <= Sim.FEE_BPS cfg / 10000)%Q).
  { apply Qle_shift_div_l; [reflexivity|]. rewrite Qmult_0_l. exact Hf0. }
  assert (Hnet : (Sim.netReturn cfg held (Sim.outcome held) mv (Some w)
                  == if Z.eqb w (Sim.outcome held)
                     then Sim.invested held * (1 - Sim.FEE_BPS cfg / 10000)
                          * (1 - Sim.FEE_BPS cfg / 10000)
                     else 0)%Q).
  { unfold Sim.netReturn, Sim.returnAmount.
    destruct (Z.eqb w (Sim.outcome held)); ring. }
  split; [|exact Hnet].
  rewrite simulateSell_balance. unfold credited.
  rewrite Hheld, Z.eqb_refl, Hnet.
  set (k := (Sim.FEE_BPS cfg / 10000)%Q) in *.
  destruct (Z.eqb w (Sim.outcome held)); [|nra].
  assert (Hsq : ((1 - k) * (1 - k) <= 1)%Q) by nra.
  set (q := ((1 - k) * (1 - k))%Q) in *.
  assert (E : (Sim.invested held * (1 - k) * (1 - k)
               == Sim.invested held * q)%Q) by (subst q; ring).
  rewrite E. clearbody q. nra.
Qed.

Lemma resolved_sell_never_profits_witness :
  (Sim.balance
     (fst (Sim.simulateSell Examples.readmeSim Examples.stampS1
             Examples.simHolding "M2" 1 (Some 999%Q) (Some 1%Z)))
   <= 50 + 50)%Q.
Proof.
  apply (resolved_sell_never_profits Examples.readmeSim Examples.stampS1
           Examples.simHolding "M2" (Sim.mkSimPosition 1 50 49)
           (Some 999%Q) 1).
  - split; vm_compute; discriminate.
  - vm_compute; discriminate.
  - reflexivity.
Defined.

(** X9. For non-negative balances the bot reads the target's side from
    the exact balances: no side when both are zero, YES (1) when the YES
    balance is strictly larger, NO (0) otherwise, equal non-zero balances
    being read as NO.  The simulator applies the same rule to the balances
    as Number converts them, rounded to 53 significant bits.  Hence both
    read the same side when the balances are at most 2^53; in general
    they read no side together, the simulator never reads YES unless the
    bot does, and it reads NO where the bot reads YES only when the two
    balances round to the same number, as 2^53+1 and 2^53 do. *)
Theorem target_side_rule (yes no : Z) :
  (0 <= yes)%Z -> (0 <= no)%Z ->
  Bot.targetOutcome yes no
  = (if Z.eqb yes 0 && Z.eqb no 0 then None
     else if Z.ltb no yes then Some (1%Z, yes) else Some (0%Z, no))
  /\ Sim.targetOutcome yes no
     = (if Z.eqb yes 0 && Z.eqb no 0 then None
        else if Z.ltb (NumberOfInt no) (NumberOfInt yes) then Some 1%Z
        else Some 0%Z)
  /\ ((yes <= 2 ^ 53)%Z -> (no <= 2 ^ 53)%Z ->
      Sim.targetOutcome yes no = fst <$> Bot.targetOutcome yes no)
  /\ (Sim.targetOutcome yes no = None <-> Bot.targetOutcome yes no = None)
  /\ (Sim.targetOutcome yes no = Some 1%Z ->
      Bot.targetOutcome yes no = Some (1%Z, yes))
  /\ (Sim.targetOutcome yes no = Some 0%Z ->
      Bot.targetOutcome yes no = Some (1%Z, yes) ->
      NumberOfInt yes = NumberOfInt no)
  /\ Bot.targetOutcome (2 ^ 53 + 1) (2 ^ 53) = Some (1%Z, (2 ^ 53 + 1)%Z)
  /\ Sim.targetOutcome (2 ^ 53 + 1) (2 ^ 53) = Some 0%Z.
Proof.
  intros Hy Hn.
  assert (Hbot : Bot.targetOutcome yes no
                 = (if Z.eqb yes 0 && Z.eqb no 0 then None
                    else if Z.ltb no yes then Some (1%Z, yes)
                    else Some (0%Z, no))).
  { unfold Bot.targetOutcome.
    destruct (Z.ltb_spec 0 yes), (Z.ltb_spec 0 no), (Z.eqb_spec yes 0),
      (Z.eqb_spec no 0), (Z.ltb_spec no yes); simpl; try reflexivity; lia. }
  assert (Hsim : Sim.targetOutcome yes no
                 = (if Z.eqb yes 0 && Z.eqb no 0 then None
                    else if Z.ltb (NumberOfInt no) (NumberOfInt yes)
                    then Some 1%Z else Some 0%Z)).
  { unfold Sim.targetOutcome. cbv zeta.
    assert (Hy0 : yes = 0%Z -> NumberOfInt yes = 0%Z) by (intros ->; reflexivity).
    assert (Hn0 : no = 0%Z -> NumberOfInt no = 0%Z) by (intros ->; reflexivity).
    pose proof (NumberOfInt_pos yes) as Hyp.
    pose proof (NumberOfInt_pos no) as Hnp.
    destruct (Z.ltb_spec 0 (NumberOfInt yes)), (Z.ltb_spec 0 (NumberOfInt no)),
      (Z.eqb_spec (NumberOfInt yes) 0), (Z.eqb_spec (NumberOfInt no) 0),
      (Z.eqb_spec yes 0), (Z.eqb_spec no 0),
      (Z.ltb_spec (NumberOfInt no) (NumberOfInt yes));
      simpl; try reflexivity; lia. }
  pose proof (NumberOfInt_mono yes no) as Hmono.
  pose proof (NumberOfInt_mono no yes) as Hmono'.
  split; [exact Hbot|]. split; [exact Hsim|].
  split; [intros; apply sim_targetOutcome; lia|].
  rewrite Hbot, Hsim.
  split; [|split; [|split; [|split; reflexivity]]].
  - destruct (Z.eqb yes 0 && Z.eqb no 0); [tauto|].
    destruct (Z.ltb _ _), (Z.ltb _ _); split; discriminate.
  - destruct (Z.eqb yes 0 && Z.eqb no 0); [discriminate|].
    destruct (Z.ltb_spec (NumberOfInt no) (NumberOfInt yes)); [|discriminate].
    destruct (Z.ltb_spec no yes); [reflexivity|lia].
  - destruct (Z.eqb yes 0 && Z.eqb no 0); [discriminate|].
    destruct (Z.ltb_spec (NumberOfInt no) (NumberOfInt yes)); [discriminate|].
    destruct (Z.ltb_spec no yes); [lia|discriminate].
Qed.

Lemma target_side_rule_witness :
  Bot.targetOutcome 40 40 = Some (0%Z, 40%Z)
  /\ Sim.targetOutcome 40 40 = Some 0%Z.
Proof.
  destruct (target_side_rule 40 40) as (Hb & Hs & _); [lia | lia |].
  split; [exact Hb | exact Hs].
Defined.

(** ** Gas overrides and token approval *)

(** X10. When a positive gas limit is given, the overrides never allow
    the transaction to cost more than MAX_GAS_WEI: maxFeePerGas times the
    gas limit stays within the budget, and the priority fee never exceeds
    maxFeePerGas.  Every caller pads a positive estimate, which keeps the
    limit positive, so the cap always applies. *)
Theorem txOverrides_fee_cap (gas : Chain.GasConfig) (fee : Chain.FeeData)
    (gasLimit : Z) :
  (0 <= Chain.MAX_GAS_WEI gas)%Z ->
  (0 < gasLimit)%Z ->
  let ov := Chain.txOverrides gas fee (Some gasLimit) in
  (Chain.ov_maxFeePerGas ov * gasLimit <= Chain.MAX_GAS_WEI gas)%Z
  /\ (Chain.ov_maxPriorityFeePerGas ov <= Chain.ov_maxFeePerGas ov)%Z
  /\ Chain.ov_gasLimit ov = Some gasLimit
  /\ (forall gasEst, (0 < gasEst)%Z -> (0 < Chain.padGas gasEst)%Z).
Proof.
  intros Hmax Hgl. unfold Chain.txOverrides.
  destruct (Z.ltb_spec 0 gasLimit) as [_|]; [|lia].
  cbn [Chain.ov_maxFeePerGas Chain.ov_maxPriorityFeePerGas Chain.ov_gasLimit].
  set (suggested := match Chain.fee_maxFeePerGas fee with
                    | Some v => v
                    | None => default (Chain.GAS_PRICE_WEI gas) (Chain.fee_gasPrice fee)
                    end).
  set (priority := default 100000000%Z (Chain.fee_maxPriorityFeePerGas fee)).
  assert (Hne : gasLimit <> 0%Z) by lia.
  pose proof (Z.mul_quot_le (Chain.MAX_GAS_WEI gas) gasLimit Hmax Hne) as Hcap.
  set (cap := Z.quot (Chain.MAX_GAS_WEI gas) gasLimit) in *.
  repeat split.
  - destruct (Z.ltb_spec cap suggested); nia.
  - destruct (Z.ltb_spec cap suggested), (Z.ltb_spec cap priority),
      (Z.ltb_spec suggested priority); lia.
  - intros gasEst Hg. unfold Chain.padGas.
    pose proof (Z.quot_pos (gasEst * 120) 100 ltac:(lia) ltac:(lia)). lia.
Qed.

Lemma txOverrides_fee_cap_witness :
  let ov := Chain.txOverrides Chain.defaultGas Scenarios.greedyFee
              (Some (Chain.padGas 100000)) in
  (Chain.ov_maxFeePerGas ov * Chain.padGas 100000 <= 15000000000000000)%Z
  /\ Chain.ov_maxFeePerGas ov = 115384615384%Z.
Proof.
  destruct (txOverrides_fee_cap Chain.defaultGas Scenarios.greedyFee
              (Chain.padGas 100000)) as (Hcap & _).
  - vm_compute. discriminate.
  - reflexivity.
  - split; [exact Hcap | reflexivity].
Defined.

(** X11. readAllowance asks the chain at most three times and stops at
    the first answer: it returns a value exactly when one of the first
    three calls answers, that value being the first answer, and fails when
    all three throw.  The zero after the loop is never what it returns. *)
Theorem readAllowance_bounded_retry (allowance : nat -> option Z) (call : nat) :
  let r := Chain.readAllowance allowance call in
  call < snd r <= call + 3
  /\ (forall i, call <= i < snd r - 1 -> allowance i = None)
  /\ fst r = allowance (snd r - 1)
  /\ (fst r = None -> snd r = call + 3).
Proof.
  unfold Chain.readAllowance, Chain.readAllowanceLoop.
  destruct (allowance call) as [v0|] eqn:E0; cbn [fst snd].
  { repeat split; try lia.
    - replace (S call - 1) with call by lia. auto.
    - discriminate. }
  destruct (allowance (S call)) as [v1|] eqn:E1; cbn [fst snd].
  { repeat split; try lia.
    - intros i Hi. replace i with call by lia. exact E0.
    - replace (S (S call) - 1) with (S call) by lia. auto.
    - discriminate. }
  destruct (allowance (S (S call))) as [v2|] eqn:E2; cbn [fst snd].
  - repeat split; try lia.
    + intros i Hi. assert (i = call \/ i = S call) as [->| ->] by lia; assumption.
    + replace (S (S (S call)) - 1) with (S (S call)) by lia. auto.
  - repeat split; try lia.
    + intros i Hi. assert (i = call \/ i = S call) as [->| ->] by lia; assumption.
    + replace (S (S (S call)) - 1) with (S (S call)) by lia. auto.
Qed.

Example readAllowance_third_attempt :
  Chain.readAllowance Scenarios.flakyAllowance 0 = (Some 7%Z, 3).
Proof. reflexivity. Qed.

Lemma readAllowance_answer (allowance : nat -> option Z) (call : nat) (v : Z) :
  fst (Chain.readAllowance allowance call) = Some v ->
  exists n, allowance n = Some v.
Proof.
  unfold Chain.readAllowance, Chain.readAllowanceLoop.
  destruct (allowance call) eqn:E0; cbn [fst];
    [intros [= <-]; eauto|].
  destruct (allowance (S call)) eqn:E1; cbn [fst];
    [intros [= <-]; eauto|].
  destruct (allowance (S (S call))) eqn:E2; cbn [fst];
    [intros [= <-]; eauto|discriminate].
Qed.

(** X12. ensureUsdcApproval, for a positive amount: it answers true only
    after the chain has reported an allowance of at least that amount; when
    the first reading already suffices it answers true and sends nothing;
    otherwise it sends approve(needed), preceded by approve(0) exactly when
    the reading was positive (and below the amount), and nothing else. *)
Theorem ensureUsdcApproval_protocol (chain : Chain.ApprovalChain) (needed : Z) :
  (0 < needed)%Z ->
  let r := Chain.ensureUsdcApproval chain needed in
  (snd r = [] \/ snd r = [0%Z] \/ snd r = [needed] \/ snd r = [0%Z; needed])
  /\ (fst r = true ->
      exists n v, Chain.allowanceAt chain n = Some v /\ (needed <= v)%Z)
  /\ (forall v, fst (Chain.readAllowance (Chain.allowanceAt chain) 0) = Some v ->
                (needed <= v)%Z -> r = (true, []))
  /\ (In 0%Z (snd r) ->
      exists v, fst (Chain.readAllowance (Chain.allowanceAt chain) 0) = Some v
                /\ (0 < v < needed)%Z).
Proof.
  intros Hneeded. cbv zeta. unfold Chain.ensureUsdcApproval.
  pose proof (readAllowance_answer (Chain.allowanceAt chain) 0) as Hfirst.
  destruct (Chain.readAllowance (Chain.allowanceAt chain) 0) as [read calls].
  cbn [fst] in *.
  pose proof (readAllowance_answer (Chain.allowanceAt chain) calls) as Hafter.
  destruct read as [v0|]; cbn [default];
    split_branches ltac:(idtac); cbn [fst snd negb app] in *; unfold id in *;
    repeat match goal with
           | H : Z.leb _ _ = true |- _ => apply Z.leb_le in H
           | H : Z.leb _ _ = false |- _ => apply Z.leb_gt in H
           | H : Z.ltb _ _ = true |- _ => apply Z.ltb_lt in H
           | H : Z.ltb _ _ = false |- _ => apply Z.ltb_ge in H
           end;
    try discriminate;
    (split; [tauto|]);
    (split; [intros Hok; try discriminate; try apply Z.leb_le in Hok;
             try (exfalso; lia);
             try (destruct (Hfirst _ eq_refl) as [n Hn]; eauto; fail);
             try (destruct (Hafter _ eq_refl) as [n Hn]; eauto; fail)|]);
    (split; [intros v [= <-] Hle; try reflexivity; lia|]);
    cbn [In]; intros Hin;
    repeat match goal with
           | H : _ \/ _ |- _ => destruct H
           | H : False |- _ => destruct H
           end; try lia; try discriminate;
    eexists; (split; [reflexivity|lia]).
Qed.

Lemma ensureUsdcApproval_protocol_witness :
  Chain.ensureUsdcApproval Scenarios.approving 5000000
  = (true, [0%Z; 5000000%Z])
  /\ (exists n v, Chain.allowanceAt Scenarios.approving n = Some v
                  /\ (5000000 <= v)%Z).
Proof.
  destruct (ensureUsdcApproval_protocol Scenarios.approving 5000000)
    as (_ & Hok & _); [lia|].
  split; [reflexivity|]. apply Hok. reflexivity.
Defined.

(** ** The state file *)

Section StateFile.

Lemma setAll_union {V} (entries : list (string * V)) (m : gmap string V) :
  Persist.setAll entries m = list_to_map (rev entries) ∪ m.
Proof.
  unfold Persist.setAll. revert m.
  induction entries as [|[k v] entries IH]; intros m; cbn [fold_left rev].
  - cbn. rewrite (left_id_L ∅ (∪)). reflexivity.
  - rewrite IH. cbn [fst snd].
    rewrite list_to_map_app. cbn [list_to_map foldr].
    rewrite <- (assoc_L (∪)). f_equal.
    rewrite <- insert_union_l, (left_id_L ∅ (∪)). reflexivity.
Qed.

(** Setting the saved entries of a map, in any order, into an empty map
    gives the map back. *)
Lemma setAll_saved {V} (entries : list (string * V)) (m : gmap string V) :
  entries ≡ₚ map_to_list m -> Persist.setAll entries ∅ = m.
Proof.
  intros Hperm. rewrite setAll_union, (right_id_L ∅ (∪)).
  rewrite <- (list_to_map_to_list m).
  apply list_to_map_proper.
  - apply (NoDup_Permutation_proper (map_to_list m).*1).
    + apply fmap_Permutation. rewrite <- Hperm. apply Permutation_rev.
    + apply NoDup_fst_map_to_list.
  - rewrite <- Hperm. symmetry. apply Permutation_rev.
Qed.

End StateFile.

(** X13. Save and load round trip: loading a file saveState wrote for a
    state (the entries of its two maps, in whatever order) into the freshly
    started bot restores the last-seen map and the local positions; the
    initial-sync flag is not part of the file and is set again, and a
    missing or unreadable file leaves the state as it is. *)
Theorem loadState_restores_saved (st fresh : Bot.State) (data : Persist.StateFile)
    (ledger : list Trade) :
  Persist.savedFrom st data ->
  let st' := Persist.loadState (Some data) (Bot.init ∅ ∅ ledger) in
  Bot.lastSeenPositions st' = Bot.lastSeenPositions st
  /\ Bot.ourPositions st' = Bot.ourPositions st
  /\ Bot.isInitialSync st' = true
  /\ Bot.tradeTracker st' = ledger
  /\ Persist.savedFrom st (Persist.saveState st)
  /\ Persist.loadState None fresh = fresh.
Proof.
  intros (seen & ours & -> & Hseen & Hours). cbv zeta.
  unfold Persist.loadState. cbn.
  rewrite (setAll_saved _ _ Hseen), (setAll_saved _ _ Hours).
  repeat split; try reflexivity.
  exists (map_to_list (Bot.lastSeenPositions st)),
         (map_to_list (Bot.ourPositions st)).
  repeat split; reflexivity.
Qed.

Lemma loadState_restores_saved_witness :
  let st' := Persist.loadState (Some (Persist.saveState Examples.liveHolding))
               (Bot.init ∅ ∅ []) in
  Bot.lastSeenPositions st' = Bot.lastSeenPositions Examples.liveHolding
  /\ Bot.ourPositions st' = Bot.ourPositions Examples.liveHolding
  /\ Bot.isInitialSync st' = true.
Proof.
  destruct (loadState_restores_saved Examples.liveHolding Examples.liveHolding
              (Persist.saveState Examples.liveHolding) [])
    as (Hs & Ho & Hi & _).
  - exists (map_to_list (Bot.lastSeenPositions Examples.liveHolding)),
           (map_to_list (Bot.ourPositions Examples.liveHolding)).
    repeat split; reflexivity.
  - cbv zeta. repeat split; assumption.
Defined.

(** X14. Restart safety: when the state was saved after the feed had been
    processed (the last-seen map agrees with every element of the feed),
    a restart that reloads the file and polls the same feed runs no leg:
    nothing is submitted, the ledger and the local positions stay as they
    were loaded. *)
Theorem restart_on_recorded_feed_is_quiet (cfg : Bot.Config)
    (worlds : nat -> Bot.World) (st : Bot.State) (data : Persist.StateFile)
    (ledger : list Trade) (feed : list Feed.Position) :
  Persist.savedFrom st data ->
  Forall (recorded (Bot.lastSeenPositions st)) feed ->
  let st' := Bot.poll cfg worlds
               (Persist.loadState (Some data) (Bot.init ∅ ∅ ledger)) feed in
  Bot.submitted st' = []
  /\ Bot.tradeTracker st' = ledger
  /\ Bot.ourPositions st' = Bot.ourPositions st
  /\ Bot.lastSeenPositions st' = Bot.lastSeenPositions st.
Proof.
  intros (seen & ours & -> & Hseen & Hours) Hrec. cbv zeta.
  unfold Persist.loadState. cbn.
  rewrite (setAll_saved _ _ Hseen), (setAll_saved _ _ Hours).
  unfold Bot.poll. destruct feed as [|q feed]; [repeat split; reflexivity|].
  rewrite pollLoop_quiet; [repeat split; reflexivity|exact Hrec].
Qed.

Lemma restart_on_recorded_feed_is_quiet_witness :
  Bot.submitted
    (Bot.poll Examples.readmeLive Examples.worlds
       (Persist.loadState (Some (Persist.saveState Examples.liveHolding))
          (Bot.init ∅ ∅ (Bot.tradeTracker Examples.liveHolding)))
       [Examples.feedOf Examples.marketM2 1000 0])
  = [].
Proof.
  apply (restart_on_recorded_feed_is_quiet Examples.readmeLive Examples.worlds
           Examples.liveHolding (Persist.saveState Examples.liveHolding)
           (Bot.tradeTracker Examples.liveHolding)
           [Examples.feedOf Examples.marketM2 1000 0]).
  - exists (map_to_list (Bot.lastSeenPositions Examples.liveHolding)),
           (map_to_list (Bot.ourPositions Examples.liveHolding)).
    repeat split; reflexivity.
  - repeat constructor.
Defined.

(** ** The legs of the live bot *)

Section LiveLegs.

Variable cfg : Bot.Config.

Lemma replicateOpen_ours_other (stamp : Stamp) (chain : Bot.OpenOracle)
    (slug other : string) (market : Feed.Market) (o : Z) (st : Bot.State) :
  slug <> other ->
  Bot.ourPositions (Bot.replicateOpen cfg stamp chain slug market o st) !! other
  = Bot.ourPositions st !! other.
Proof.
  intros Hne. unfold Bot.replicateOpen.
  split_branches ltac:(reflexivity).
  cbn. apply lookup_insert_ne, Hne.
Qed.

Lemma replicateClose_ours_other (stamp : Stamp) (chain : Bot.CloseOracle)
    (slug other : string) (market : Feed.Market) (o : Z) (st : Bot.State) :
  slug <> other ->
  Bot.ourPositions (Bot.replicateClose stamp chain slug market o st) !! other
  = Bot.ourPositions st !! other.
Proof.
  intros Hne. unfold Bot.replicateClose.
  split_branches ltac:(first [reflexivity | cbn; apply lookup_delete_ne, Hne]).
Qed.

Lemma processPosition_ours_other (w : Bot.World) (st : Bot.State)
    (q : Feed.Position) (other : string) :
  slugOf q <> Some other ->
  Bot.ourPositions (Bot.processPosition cfg w st q) !! other
  = Bot.ourPositions st !! other.
Proof.
  unfold slugOf. rewrite processPosition_reading.
  destruct (reading q) as [|s market|s market o b]; intros Hne.
  - reflexivity.
  - assert (s <> other) by congruence.
    destruct (Bot.lastSeenPositions st !! s); [|reflexivity].
    cbn. apply replicateClose_ours_other. assumption.
  - assert (s <> other) by congruence.
    destruct (Bot.lastSeenPositions st !! s).
    + destruct (negb _); cbn; [|reflexivity].
      rewrite replicateOpen_ours_other by assumption.
      apply replicateClose_ours_other. assumption.
    + destruct (Bot.isInitialSync st); cbn; [reflexivity|].
      apply replicateOpen_ours_other. assumption.
Qed.

Lemma recordSell_length (stamp : Stamp) (data : SellData) (l : list Trade) :
  length (fst (recordSell stamp data l)) = S (length l).
Proof.
  destruct (recordSell_appends stamp data l) as (pre & sell & -> & Hpre & _).
  rewrite length_app, (Forall2_length _ _ _ Hpre). simpl. lia.
Qed.

Lemma replicateClose_outcome (stamp : Stamp) (chain : Bot.CloseOracle)
    (slug : string) (market : Feed.Market) (o : Z) (st : Bot.State) :
  exists txs,
    legOutcome isSellTx st (Bot.replicateClose stamp chain slug market o st) txs.
Proof.
  unfold Bot.replicateClose, legOutcome.
  split_early_returns
    ltac:(solve [exists []; cbn; rewrite app_nil_r; repeat split; (lia || constructor)
                | eexists [_]; cbn; repeat split; (lia || (repeat constructor))]).
  match goal with
  | |- context [Tracker.recordSell ?s ?d ?l] =>
      pose proof (recordSell_length s d l) as Hlen;
      destruct (Tracker.recordSell s d l) as [trades' id]
  end.
  cbn in *. eexists [_]. cbn. repeat split; try lia. repeat constructor.
Qed.

Lemma replicateOpen_outcome (stamp : Stamp) (chain : Bot.OpenOracle)
    (slug : string) (market : Feed.Market) (o : Z) (st : Bot.State) :
  exists txs,
    legOutcome isBuyTx st (Bot.replicateOpen cfg stamp chain slug market o st) txs.
Proof.
  unfold Bot.replicateOpen, legOutcome.
  split_early_returns
    ltac:(solve [exists []; cbn; rewrite app_nil_r; repeat split; (lia || constructor)
                | eexists [_]; cbn; repeat split; (lia || (repeat constructor))]).
  unfold Tracker.recordBuy. cbn.
  eexists [_]. cbn. rewrite length_app. cbn.
  repeat split; try lia. repeat constructor.
Qed.

End LiveLegs.

(** X15. Failure isolation: processing a feed element, whatever the chain
    answers, leaves the last-seen entry and the local position of every
    other market untouched. *)
Theorem processPosition_touches_own_market_only (cfg : Bot.Config)
    (w : Bot.World) (st : Bot.State) (q : Feed.Position) (other : string) :
  slugOf q <> Some other ->
  Bot.lastSeenPositions (Bot.processPosition cfg w st q) !! other
  = Bot.lastSeenPositions st !! other
  /\ Bot.ourPositions (Bot.processPosition cfg w st q) !! other
     = Bot.ourPositions st !! other.
Proof.
  intros Hne. split.
  - apply processPosition_other, Hne.
  - apply processPosition_ours_other, Hne.
Qed.

Lemma processPosition_touches_own_market_only_witness :
  Bot.lastSeenPositions
    (Bot.processPosition Examples.readmeLive Scenarios.worldBlocked
       Scenarios.liveTwoMarkets (Examples.feedOf Examples.marketM2 0 0))
  !! "A" = Some (Bot.mkLastSeen 0 10).
Proof.
  destruct (processPosition_touches_own_market_only Examples.readmeLive
              Scenarios.worldBlocked Scenarios.liveTwoMarkets
              (Examples.feedOf Examples.marketM2 0 0) "A") as [Hs _].
  - vm_compute. discriminate.
  - rewrite Hs. reflexivity.
Defined.

(** X16. One feed element makes the bot submit at most one SELL followed
    by at most one BUY, never more and never in the other order, and the
    ledger gains at most one entry per submitted transaction: no trade is
    recorded that was not submitted, and no submission is repeated. *)
Theorem processPosition_submits_sell_then_buy (cfg : Bot.Config) (w : Bot.World)
    (st : Bot.State) (p : Feed.Position) :
  exists sells buys,
    Bot.submitted (Bot.processPosition cfg w st p)
    = Bot.submitted st ++ sells ++ buys
    /\ length sells <= 1 /\ length buys <= 1
    /\ Forall isSellTx sells /\ Forall isBuyTx buys
    /\ length (Bot.tradeTracker (Bot.processPosition cfg w st p))
       <= length (Bot.tradeTracker st) + length sells + length buys
    /\ length (Bot.tradeTracker st)
       <= length (Bot.tradeTracker (Bot.processPosition cfg w st p)).
Proof.
  assert (Hnone : forall st0 : Bot.State, exists sells buys,
             Bot.submitted st0 = Bot.submitted st0 ++ sells ++ buys
             /\ length sells <= 1 /\ length buys <= 1
             /\ Forall isSellTx sells /\ Forall isBuyTx buys
             /\ length (Bot.tradeTracker st0)
                <= length (Bot.tradeTracker st0) + length sells + length buys
             /\ length (Bot.tradeTracker st0) <= length (Bot.tradeTracker st0)).
  { intros st0. exists [], []. rewrite app_nil_r. cbn.
    repeat split; (lia || constructor). }
  assert (Hclose : forall o slug market, exists sells buys,
             Bot.submitted (Bot.replicateClose (Bot.closeStamp w) (Bot.closeChain w)
                              slug market o st)
             = Bot.submitted st ++ sells ++ buys
             /\ length sells <= 1 /\ length buys <= 1
             /\ Forall isSellTx sells /\ Forall isBuyTx buys
             /\ length (Bot.tradeTracker
                          (Bot.replicateClose (Bot.closeStamp w) (Bot.closeChain w)
                             slug market o st))
                <= length (Bot.tradeTracker st) + length sells + length buys
             /\ length (Bot.tradeTracker st)
                <= length (Bot.tradeTracker
                             (Bot.replicateClose (Bot.closeStamp w)
                                (Bot.closeChain w) slug market o st))).
  { intros o slug market.
    destruct (replicateClose_outcome (Bot.closeStamp w) (Bot.closeChain w)
                slug market o st) as (txs & Hs & Hl & Hf & Ht & Ht').
    exists txs, []. rewrite app_nil_r. cbn.
    repeat split; (lia || assumption || constructor). }
  rewrite processPosition_reading.
  destruct (reading p) as [|slug market|slug market o b]; [apply Hnone| |].
  - destruct (Bot.lastSeenPositions st !! slug); [|apply Hnone].
    cbn. apply Hclose.
  - destruct (Bot.lastSeenPositions st !! slug) as [lastSeen|].
    + destruct (negb _); cbn; [|apply Hnone].
      destruct (replicateClose_outcome (Bot.closeStamp w) (Bot.closeChain w)
                  slug market (Bot.ls_outcomeIndex lastSeen) st)
        as (sells & Hs & Hl & Hf & Ht & Ht').
      set (st1 := Bot.replicateClose _ _ _ _ _ st) in *.
      destruct (replicateOpen_outcome cfg (Bot.openStamp w) (Bot.openChain w)
                  slug market o st1) as (buys & Hs2 & Hl2 & Hf2 & Ht2 & Ht2').
      exists sells, buys. rewrite Hs2, Hs, <- app_assoc.
      repeat split; (lia || assumption).
    + destruct (Bot.isInitialSync st); cbn; [apply Hnone|].
      destruct (replicateOpen_outcome cfg (Bot.openStamp w) (Bot.openChain w)
                  slug market o st) as (buys & Hs2 & Hl2 & Hf2 & Ht2 & Ht2').
      exists [], buys. cbn. repeat split; (lia || assumption || constructor).
Qed.

(** X17. The open leg submits a BUY only when the wallet balance read from
    the chain covers the sized investment and the approval went through;
    the BUY is for exactly that investment and carries the slippage guard
    expected - expected * SLIPPAGE_BPS / 10000, which for non-negative
    values is at most the expected amount and at least its
    (1 - SLIPPAGE_BPS / 10000) share. *)
Theorem replicateOpen_buy_guarded (cfg : Bot.Config) (stamp : Stamp)
    (chain : Bot.OpenOracle) (slug : string) (market : Feed.Market) (o : Z)
    (st : Bot.State) :
  Bot.submitted (Bot.replicateOpen cfg stamp chain slug market o st)
  <> Bot.submitted st ->
  exists token bal expected slip,
    Feed.m_collateralToken market = Some token
    /\ Bot.usdcBalanceOf chain = Some bal
    /\ Bot.calcBuyAmount chain = Some expected
    /\ BigIntOfNumber (Bot.SLIPPAGE_BPS cfg) = Some slip
    /\ Bot.usdcApprovalOk chain = true
    /\ (parseUnitsFixed (Bot.ourInvestmentNumber cfg) (Feed.ct_decimals token)
        <= bal)%Z
    /\ Bot.submitted (Bot.replicateOpen cfg stamp chain slug market o st)
       = Bot.submitted st
         ++ [Bot.TxBuy (Feed.m_address market)
               (parseUnitsFixed (Bot.ourInvestmentNumber cfg)
                  (Feed.ct_decimals token))
               o (expected - Z.quot (expected * slip) 10000)]
    /\ ((0 <= expected)%Z -> (0 <= slip)%Z ->
        (expected - Z.quot (expected * slip) 10000 <= expected)%Z
        /\ (expected * (10000 - slip)
            <= 10000 * (expected - Z.quot (expected * slip) 10000))%Z).
Proof.
  unfold Bot.replicateOpen.
  split_branches ltac:(intros Hne; exfalso; apply Hne; reflexivity);
    intros _;
    repeat match goal with
           | H : negb _ = false |- _ => apply negb_false_iff in H
           | H : Z.ltb _ _ = false |- _ => apply Z.ltb_ge in H
           end;
    do 4 eexists; repeat (split; [eassumption || reflexivity|]);
    intros He Hs;
    (pose proof (Z.mul_quot_le (z0 * z1) 10000 ltac:(nia) ltac:(lia)); lia).
Qed.

Lemma replicateOpen_buy_guarded_witness :
  exists bal,
    Bot.usdcBalanceOf Examples.openSucceeds = Some bal
    /\ (parseUnitsFixed (Bot.ourInvestmentNumber Examples.readmeLive) 6 <= bal)%Z.
Proof.
  destruct (replicateOpen_buy_guarded Examples.readmeLive Examples.stampB1
              Examples.openSucceeds "M2" Examples.marketM2 1 Examples.liveIdle)
    as (token & bal & expected & slip & Htok & Hbal & _ & _ & _ & Hle & _).
  - vm_compute. discriminate.
  - exists bal. split; [exact Hbal|].
    injection Htok as <-. exact Hle.
Defined.

(** ** The win rate of the live ledger *)

Section LiveWinRate.

Variable cfg : Bot.Config.
Hypothesis minNonneg : (0 <= Bot.MIN_BET_USDC cfg)%Q.

Lemma closeTrade_noProfit (clock id : string) (cd : CloseData) (l : list Trade) :
  lossOrNothing (cd_realizedPnL cd) -> noProfit l ->
  noProfit (fst (closeTrade clock id cd l)).
Proof.
  intros Hcd. unfold noProfit.
  induction 1 as [|t l Ht Hl IH]; simpl; [constructor|].
  destruct (String.eqb (t_id t) id); simpl.
  - constructor; [|exact Hl].
    unfold isProfitable. simpl. destruct (cd_realizedPnL cd); simpl in *;
      try reflexivity. apply Z.ltb_ge, Hcd.
  - destruct (closeTrade clock id cd l) as [rest found]. simpl in *.
    constructor; assumption.
Qed.

Lemma setLastRelated_noProfit (id : string) (l : list Trade) :
  noProfit l -> noProfit (setLastRelated id l).
Proof.
  unfold noProfit. induction 1 as [|t l Ht Hl IH]; [constructor|].
  destruct l as [|u r].
  - constructor; [exact Ht|constructor].
  - change (setLastRelated id (t :: u :: r))
      with (t :: setLastRelated id (u :: r)).
    constructor; assumption.
Qed.

Lemma recordSell_noProfit (stamp : Stamp) (data : SellData) (l : list Trade) :
  lossOrNothing (sd_pnlAmount data) -> noProfit l ->
  noProfit (fst (recordSell stamp data l)).
Proof.
  intros Hpnl Hl.
  assert (Hpushed : noProfit (l ++ [sellTrade stamp data])).
  { apply Forall_app. split; [exact Hl|]. constructor; [reflexivity|constructor]. }
  unfold recordSell.
  destruct (orNull (sd_relatedBuyTradeId data)); cbn [fst].
  - apply closeTrade_noProfit; assumption.
  - destruct (findOpenBuy _ _ _); cbn [fst]; [|exact Hpushed].
    apply setLastRelated_noProfit, closeTrade_noProfit; assumption.
Qed.

Lemma replicateClose_noProfit (stamp : Stamp) (chain : Bot.CloseOracle)
    (slug : string) (market : Feed.Market) (o : Z) (st : Bot.State) :
  amountsNonneg st -> noProfit (Bot.tradeTracker st) ->
  amountsNonneg (Bot.replicateClose stamp chain slug market o st)
  /\ noProfit (Bot.tradeTracker (Bot.replicateClose stamp chain slug market o st)).
Proof.
  intros Hamt Hl. unfold Bot.replicateClose.
  destruct (Bot.ourPositions st !! slug) as [ourPos|] eqn:Hours; [|auto].
  pose proof (Hamt _ _ Hours) as Hpos. cbn beta in Hpos.
  split_early_returns
    ltac:(solve [auto | split; [apply map_Forall_delete, Hamt | exact Hl]]).
  match goal with
  | |- context [Tracker.recordSell ?s ?d ?l] =>
      pose proof (recordSell_noProfit s d l) as Hsell;
      destruct (Tracker.recordSell s d l) as [trades' id]
  end.
  cbn in *. split; [apply map_Forall_delete, Hamt|].
  apply Hsell; [|exact Hl].
  pose proof (Z.quot_pos (Bot.op_amount ourPos) 100 Hpos ltac:(lia)). lia.
Qed.

Lemma parseUnitsFixed_nonneg (q : Q) (d : nat) :
  (0 <= q)%Q -> (0 <= parseUnitsFixed q d)%Z.
Proof.
  intros Hq. unfold parseUnitsFixed.
  assert (Hs : (0 <= q * inject_Z (10 ^ Z.of_nat d))%Q).
  { apply Qmult_le_0_compat; [exact Hq|].
    change 0%Q with (inject_Z 0). rewrite <- Zle_Qle.
    apply Z.pow_nonneg. lia. }
  destruct (Qle_bool 0 (q * inject_Z (10 ^ Z.of_nat d))) eqn:E.
  - change 0%Z with (Qfloor 0). apply Qfloor_resp_le.
    rewrite <- (Qplus_0_r 0). apply Qplus_le_compat; [exact Hs|discriminate].
  - apply Qle_bool_iff in Hs. congruence.
Qed.

Lemma replicateOpen_noProfit (stamp : Stamp) (chain : Bot.OpenOracle)
    (slug : string) (market : Feed.Market) (o : Z) (st : Bot.State) :
  amountsNonneg st -> noProfit (Bot.tradeTracker st) ->
  amountsNonneg (Bot.replicateOpen cfg stamp chain slug market o st)
  /\ noProfit (Bot.tradeTracker (Bot.replicateOpen cfg stamp chain slug market o st)).
Proof.
  intros Hamt Hl. unfold Bot.replicateOpen.
  split_early_returns ltac:(solve [auto]).
  unfold Tracker.recordBuy. cbn. split.
  - apply map_Forall_insert_2; [|exact Hamt]. cbn.
    apply parseUnitsFixed_nonneg.
    eapply Qle_trans; [exact minNonneg | apply Q.le_max_l].
  - apply Forall_app. split; [exact Hl|]. constructor; [reflexivity|constructor].
Qed.

Lemma processPosition_noProfit (w : Bot.World) (st : Bot.State)
    (p : Feed.Position) :
  amountsNonneg st -> noProfit (Bot.tradeTracker st) ->
  amountsNonneg (Bot.processPosition cfg w st p)
  /\ noProfit (Bot.tradeTracker (Bot.processPosition cfg w st p)).
Proof.
  intros Hamt Hl. rewrite processPosition_reading.
  destruct (reading p) as [|slug market|slug market o b]; [auto| |].
  - destruct (Bot.lastSeenPositions st !! slug); [|auto].
    cbn. apply replicateClose_noProfit; assumption.
  - destruct (Bot.lastSeenPositions st !! slug) as [lastSeen|].
    + destruct (negb _); cbn; [|auto].
      destruct (replicateClose_noProfit (Bot.closeStamp w) (Bot.closeChain w)
                  slug market (Bot.ls_outcomeIndex lastSeen) st Hamt Hl)
        as [Hamt1 Hl1].
      apply replicateOpen_noProfit; assumption.
    + destruct (Bot.isInitialSync st); cbn; [auto|].
      apply replicateOpen_noProfit; assumption.
Qed.

Lemma pollLoop_noProfit (worlds : nat -> Bot.World) (feed : list Feed.Position)
    (i : nat) (st : Bot.State) :
  amountsNonneg st -> noProfit (Bot.tradeTracker st) ->
  amountsNonneg (Bot.pollLoop cfg worlds i st feed)
  /\ noProfit (Bot.tradeTracker (Bot.pollLoop cfg worlds i st feed)).
Proof.
  revert i st. induction feed as [|q feed IH]; intros i st Hamt Hl; cbn; [auto|].
  destruct (processPosition_noProfit (worlds i) st q Hamt Hl). apply IH; assumption.
Qed.

Lemma noProfit_winRate (l : list Trade) :
  noProfit l -> (winRate (getStats l) == 0)%Q.
Proof.
  intros Hl. unfold getStats, updateStats; simpl.
  rewrite closed_of_buys.
  replace (List.filter isProfitable (getClosedPositions l)) with (@nil Trade).
  - destruct (Nat.ltb 0 _); [|reflexivity]. simpl.
    unfold Qdiv. ring.
  - symmetry. unfold getClosedPositions.
    induction Hl as [|t l Ht _ IH]; simpl; [reflexivity|].
    destruct (isBuy t && isClosed t); simpl; [rewrite Ht|]; exact IH.
Qed.

End LiveWinRate.

(** X18. The live bot never records a profit: a close leg books the
    return as the invested amount minus one percent, so every SELL it
    records has a PnL of -(amount / 100).  With a non-negative minimum bet,
    a ledger without profitable entries and non-negative local amounts, no
    poll ever produces a profitable entry and the reported win rate stays
    0. *)
Theorem live_win_rate_stays_zero (cfg : Bot.Config) (worlds : nat -> Bot.World)
    (st : Bot.State) (feed : list Feed.Position) :
  (0 <= Bot.MIN_BET_USDC cfg)%Q ->
  amountsNonneg st ->
  noProfit (Bot.tradeTracker st) ->
  noProfit (Bot.tradeTracker (Bot.poll cfg worlds st feed))
  /\ amountsNonneg (Bot.poll cfg worlds st feed)
  /\ (winRate (getStats (Bot.tradeTracker (Bot.poll cfg worlds st feed))) == 0)%Q.
Proof.
  intros Hmin Hamt Hl.
  assert (H : amountsNonneg (Bot.poll cfg worlds st feed)
              /\ noProfit (Bot.tradeTracker (Bot.poll cfg worlds st feed))).
  { unfold Bot.poll. destruct feed as [|q feed]; [auto|].
    destruct (pollLoop_noProfit cfg Hmin worlds (q :: feed) 0 st Hamt Hl).
    split; assumption. }
  destruct H as [Ha Hn]. repeat split; try assumption.
  apply noProfit_winRate, Hn.
Qed.

Lemma live_win_rate_stays_zero_witness :
  (winRate
     (getStats
        (Bot.tradeTracker
           (Bot.poll Examples.readmeLive Examples.worlds Examples.liveHolding
              [Examples.feedOf Examples.marketM2 0 0]))) == 0)%Q
  /\ map t_status
       (Bot.tradeTracker
          (Bot.poll Examples.readmeLive Examples.worlds Examples.liveHolding
             [Examples.feedOf Examples.marketM2 0 0]))
     = [CLOSED; CLOSED].
Proof.
  destruct (live_win_rate_stays_zero Examples.readmeLive Examples.worlds
              Examples.liveHolding [Examples.feedOf Examples.marketM2 0 0])
    as (_ & _ & Hw).
  - vm_compute. discriminate.
  - apply map_Forall_singleton. vm_compute. discriminate.
  - repeat constructor.
  - split; [exact Hw | reflexivity].
Defined.

(** ** Legs that are not retried, and the reach of the initial-sync flag *)

Section NoRetry.

Variable cfg : Bot.Config.

Lemma pollLoop_out_of_market (worlds : nat -> Bot.World) (slug : string)
    (feed : list Feed.Position) (i : nat) (st : Bot.State) :
  Bot.lastSeenPositions st !! slug = None ->
  Forall (fun q => forall s m o b, reading q = Held s m o b -> s <> slug) feed ->
  Bot.lastSeenPositions (Bot.pollLoop cfg worlds i st feed) !! slug = None
  /\ Bot.ourPositions (Bot.pollLoop cfg worlds i st feed) !! slug
     = Bot.ourPositions st !! slug.
Proof.
  intros Hseen Hfeed. revert i st Hseen.
  induction Hfeed as [|q feed Hq _ IH]; intros i st Hseen; cbn; [auto|].
  assert (Hstep : Bot.lastSeenPositions (Bot.processPosition cfg (worlds i) st q)
                  !! slug = None
                  /\ Bot.ourPositions (Bot.processPosition cfg (worlds i) st q)
                     !! slug = Bot.ourPositions st !! slug).
  { destruct (decide (slugOf q = Some slug)) as [Hs|Hs].
    - rewrite processPosition_reading. unfold slugOf in Hs.
      destruct (reading q) as [|s m|s m o b] eqn:Hr; try discriminate.
      + injection Hs as ->. rewrite Hseen. auto.
      + injection Hs as ->. exfalso. exact (Hq _ _ _ _ eq_refl eq_refl).
    - rewrite processPosition_other, processPosition_ours_other by exact Hs.
      auto. }
  destruct Hstep as [Hs1 Ho1].
  destruct (IH (S i) _ Hs1) as [Hs2 Ho2].
  split; [exact Hs2 | rewrite Ho2; exact Ho1].
Qed.

Lemma replicateOpen_flag (stamp : Stamp) (chain : Bot.OpenOracle)
    (slug : string) (market : Feed.Market) (o : Z) (b : bool) (st : Bot.State) :
  Bot.replicateOpen cfg stamp chain slug market o (Bot.setInitialSync b st)
  = Bot.setInitialSync b (Bot.replicateOpen cfg stamp chain slug market o st).
Proof.
  unfold Bot.replicateOpen. cbn [Bot.setInitialSync Bot.tradeTracker Bot.submit].
  split_early_returns ltac:(reflexivity).
Qed.

Lemma replicateClose_flag (stamp : Stamp) (chain : Bot.CloseOracle)
    (slug : string) (market : Feed.Market) (o : Z) (b : bool) (st : Bot.State) :
  Bot.replicateClose stamp chain slug market o (Bot.setInitialSync b st)
  = Bot.setInitialSync b (Bot.replicateClose stamp chain slug market o st).
Proof.
  unfold Bot.replicateClose.
  cbn [Bot.setInitialSync Bot.tradeTracker Bot.submit Bot.ourPositions].
  split_early_returns ltac:(reflexivity).
  destruct (Tracker.recordSell _ _ _). reflexivity.
Qed.

End NoRetry.

(** X19. Once the target has left a market the bot forgets it, whatever
    happened to the close leg: the last-seen entry is deleted even when
    the leg failed and the local position is still held, and as long as
    the feed does not show the target holding that market again, no later
    pass touches the local position - a failed close is never retried. *)
Theorem close_after_exit_is_not_retried (cfg : Bot.Config) (w : Bot.World)
    (worlds : nat -> Bot.World) (st : Bot.State) (p : Feed.Position)
    (slug : string) (market : Feed.Market) (later : list Feed.Position) :
  reading p = Gone slug market ->
  Forall (fun q => forall s m o b, reading q = Held s m o b -> s <> slug) later ->
  let st1 := Bot.processPosition cfg w st p in
  Bot.lastSeenPositions st1 !! slug = None
  /\ Bot.ourPositions (Bot.poll cfg worlds st1 later) !! slug
     = Bot.ourPositions st1 !! slug
  /\ Bot.lastSeenPositions (Bot.poll cfg worlds st1 later) !! slug = None.
Proof.
  intros Hr Hlater st1.
  assert (Hgone : Bot.lastSeenPositions st1 !! slug = None).
  { pose proof (processPosition_records cfg w st p) as Hrec.
    unfold recorded in Hrec. rewrite Hr in Hrec. exact Hrec. }
  split; [exact Hgone|].
  unfold Bot.poll. destruct later as [|q later]; [auto|].
  destruct (pollLoop_out_of_market cfg worlds slug (q :: later) 0 st1 Hgone Hlater)
    as [Hs Ho].
  split; [exact Ho | exact Hs].
Qed.

Lemma close_after_exit_is_not_retried_witness :
  let st1 := Bot.processPosition Examples.readmeLive Scenarios.worldBlocked
               Examples.liveHolding (Examples.feedOf Examples.marketM2 0 0) in
  Bot.op_outcomeIndex <$> Bot.ourPositions st1 !! "M2" = Some 1%Z
  /\ Bot.lastSeenPositions st1 !! "M2" = None
  /\ Bot.ourPositions (Bot.poll Examples.readmeLive Examples.worlds st1
                         Scenarios.staysOut) !! "M2"
     = Bot.ourPositions st1 !! "M2".
Proof.
  destruct (close_after_exit_is_not_retried Examples.readmeLive
              Scenarios.worldBlocked Examples.worlds Examples.liveHolding
              (Examples.feedOf Examples.marketM2 0 0) "M2" Examples.marketM2
              Scenarios.staysOut) as (Hs & Ho & _).
  - reflexivity.
  - repeat constructor; intros s m o b Hr; vm_compute in Hr;
      try discriminate; injection Hr as <- _ _ _; discriminate.
  - cbv zeta. split; [reflexivity|]. split; [exact Hs | exact Ho].
Defined.

(** X20. The initial-sync flag only matters for markets that are not in
    the last-seen map: for a feed element whose market is already there
    (or that is skipped, or shows no side) the bot does the same with the
    flag set or cleared - so in the first pass after a restart closes and
    side switches are replicated at once. *)
Theorem initial_sync_only_suppresses_new_markets (cfg : Bot.Config)
    (w : Bot.World) (st : Bot.State) (p : Feed.Position) (flag : bool) :
  (forall slug market o b,
      reading p = Held slug market o b ->
      is_Some (Bot.lastSeenPositions st !! slug)) ->
  Bot.processPosition cfg w (Bot.setInitialSync flag st) p
  = Bot.setInitialSync flag (Bot.processPosition cfg w st p).
Proof.
  intros Hseen. rewrite !processPosition_reading.
  cbn [Bot.setInitialSync Bot.lastSeenPositions].
  destruct (reading p) as [|slug market|slug market o b]; [reflexivity| |].
  - destruct (Bot.lastSeenPositions st !! slug); [|reflexivity].
    cbv zeta. rewrite replicateClose_flag. reflexivity.
  - destruct (Hseen _ _ _ _ eq_refl) as [lastSeen ->].
    destruct (negb _); [|reflexivity].
    cbv zeta. rewrite replicateClose_flag, replicateOpen_flag. reflexivity.
Qed.

Lemma initial_sync_only_suppresses_new_markets_witness :
  map (fun t => (t_id t, t_type t))
      (Bot.tradeTracker
         (Bot.processPosition Examples.readmeLive Examples.worldSwitch
            Scenarios.restarted (Examples.feedOf Examples.marketM2 0 1000)))
  = [("b1", BUY); ("s1", SELL); ("b2", BUY)].
Proof.
  unfold Scenarios.restarted.
  rewrite (initial_sync_only_suppresses_new_markets Examples.readmeLive
             Examples.worldSwitch Examples.liveHolding
             (Examples.feedOf Examples.marketM2 0 1000) true).
  - reflexivity.
  - intros slug market o b Hr. vm_compute in Hr. injection Hr as <- _ _ _.
    eexists. reflexivity.
Defined.

(** ** The simulator's ledger against its positions *)

Section SimLedger.

Variable cfg : Sim.Config.

Lemma filter_singleton_split {A} (g : A -> bool) (l : list A) (x : A) :
  List.filter g l = [x] ->
  exists pre post, l = pre ++ x :: post
                   /\ List.filter g pre = [] /\ List.filter g post = [].
Proof.
  induction l as [|y l IH]; simpl; [discriminate|].
  destruct (g y) eqn:E.
  - intros [= -> Hl]. exists [], l. auto.
  - intros H. destruct (IH H) as (pre & post & -> & Hpre & Hpost).
    exists (y :: pre), post. simpl. rewrite E. auto.
Qed.

Lemma filter_nil_Forall {A} (g : A -> bool) (l : list A) :
  List.filter g l = [] -> Forall (fun t => g t = false) l.
Proof.
  induction l as [|y l IH]; simpl; [constructor|].
  destruct (g y) eqn:E; [discriminate|]. constructor; auto.
Qed.

Lemma openOutcomes_app (slug : string) (l k : list Trade) :
  openOutcomes slug (l ++ k) = openOutcomes slug l ++ openOutcomes slug k.
Proof. unfold openOutcomes. rewrite List.filter_app, List.map_app. reflexivity. Qed.

Lemma openOutcomes_cons (slug : string) (t : Trade) (l : list Trade) :
  openOutcomes slug (t :: l) = openOutcomes slug [t] ++ openOutcomes slug l.
Proof. apply (openOutcomes_app slug [t] l). Qed.

Lemma idUnused_spec (id : string) (l : list Trade) :
  idUnused id l = true -> (id ∉ map t_id l) /\ Forall (fun t => t_id t <> id) l.
Proof.
  unfold idUnused. rewrite negb_true_iff.
  induction l as [|t l IH]; simpl; intros H.
  - split; [apply not_elem_of_nil | constructor].
  - apply orb_false_iff in H as [Ht Hl]. apply String.eqb_neq in Ht.
    destruct (IH Hl) as [Hnot Hall]. split.
    + apply not_elem_of_cons. split; [congruence | exact Hnot].
    + constructor; assumption.
Qed.

Lemma NoDup_ids_split (pre post : list Trade) (b : Trade) :
  NoDup (map t_id (pre ++ b :: post)) -> Forall (fun t => t_id t <> t_id b) pre.
Proof.
  rewrite List.map_app. intros H. apply NoDup_app in H as (_ & Hdisj & _).
  apply Forall_forall. intros t Ht E.
  apply (Hdisj (t_id t)).
  - apply list_elem_of_fmap. eauto.
  - rewrite E. left.
Qed.

(** A sell without link closes the first open BUY of its market and
    outcome and appends itself. *)
Lemma recordSell_closes_first (stamp : Stamp) (data : SellData)
    (pre post : list Trade) (b : Trade) :
  truthyStr (sd_relatedBuyTradeId data) = false ->
  isOpenBuyFor (sd_marketSlug data) (sd_outcome data) b = true ->
  Forall (fun t => isOpenBuyFor (sd_marketSlug data) (sd_outcome data) t = false) pre ->
  Forall (fun t => t_id t <> t_id b) pre ->
  exists closed sell,
    fst (recordSell stamp data (pre ++ b :: post)) = pre ++ closed :: post ++ [sell]
    /\ t_type sell = SELL /\ t_id sell = freshId stamp
    /\ t_id closed = t_id b /\ t_status closed = CLOSED.
Proof.
  intros Hnone Hb Hpre Hids.
  unfold recordSell, orNull. rewrite Hnone. unfold findOpenBuy.
  rewrite <- app_assoc, <- app_comm_cons.
  rewrite (find_split _ pre (post ++ [sellTrade stamp data]) b Hpre Hb).
  cbn [fst].
  rewrite (closeTrade_split _ _ _ pre (post ++ [sellTrade stamp data]) b Hids eq_refl).
  cbn [fst]. rewrite app_comm_cons, app_assoc.
  match goal with
  | |- context [setLastRelated ?i (?l ++ [?t])] =>
      destruct (setLastRelated_snoc i l t) as (sell & Heq & _ & Hsame & _)
  end.
  eexists _, sell. rewrite Heq, <- app_assoc, <- app_comm_cons.
  split; [reflexivity|].
  destruct Hsame as (Hid & Ht & _).
  rewrite Ht, Hid. repeat split.
Qed.

Lemma simulateBuy_consistent (stamp : Stamp) (st : Sim.State) (slug : string)
    (o : Z) (t : Q) :
  simConsistent st ->
  Sim.positions st !! slug = None ->
  idUnused (freshId stamp) (Sim.tradeTracker st) = true ->
  simConsistent (fst (Sim.simulateBuy cfg stamp st slug o t)).
Proof.
  intros [Hids Hmatch] Hnone Hfresh. unfold Sim.simulateBuy.
  destruct (Qltb _ _); [split; assumption|].
  unfold Tracker.recordBuy. cbn. split; cbn [Sim.tradeTracker Sim.positions].
  - rewrite List.map_app. apply NoDup_app. split; [exact Hids|].
    split; [|apply NoDup_singleton].
    intros x Hx Hin. apply list_elem_of_singleton in Hin as ->.
    exact (proj1 (idUnused_spec _ _ Hfresh) Hx).
  - intros slug'. rewrite openOutcomes_app, Hmatch.
    unfold openOutcomes at 1, isOpenBuyOf. cbn.
    destruct (String.eqb_spec slug slug') as [<-|Hne].
    + rewrite Hnone, lookup_insert_eq. reflexivity.
    + rewrite lookup_insert_ne by exact Hne. apply app_nil_r.
Qed.

Lemma simulateBuy_ids (stamp : Stamp) (st : Sim.State) (slug : string)
    (o : Z) (t : Q) (id : string) :
  idUnused id (Sim.tradeTracker st) = true -> id <> freshId stamp ->
  idUnused id (Sim.tradeTracker (fst (Sim.simulateBuy cfg stamp st slug o t)))
  = true.
Proof.
  intros Hid Hne. unfold Sim.simulateBuy.
  destruct (Qltb _ _); [exact Hid|].
  unfold Tracker.recordBuy, idUnused in *. cbn.
  rewrite existsb_app, negb_orb, Hid. cbn.
  rewrite orb_false_r. apply negb_true_iff, String.eqb_neq. congruence.
Qed.

Lemma simulateSell_consistent (stamp : Stamp) (st : Sim.State) (slug : string)
    (held : Sim.SimPosition) (mv : option Q) (w : option Z) :
  simConsistent st ->
  Sim.positions st !! slug = Some held ->
  idUnused (freshId stamp) (Sim.tradeTracker st) = true ->
  let st' := fst (Sim.simulateSell cfg stamp st slug (Sim.outcome held) mv w) in
  simConsistent st'
  /\ Sim.positions st' !! slug = None
  /\ (forall id, idUnused id (Sim.tradeTracker st) = true ->
                 id <> freshId stamp ->
                 idUnused id (Sim.tradeTracker st') = true).
Proof.
  intros [Hids Hmatch] Hheld Hfresh.
  pose proof (Hmatch slug) as Hslug. rewrite Hheld in Hslug.
  unfold openOutcomes in Hslug.
  destruct (List.filter (isOpenBuyOf slug) (Sim.tradeTracker st))
    as [|b [|b' rest]] eqn:Hfilter; try discriminate.
  injection Hslug as Hout.
  destruct (filter_singleton_split _ _ _ Hfilter)
    as (pre & post & Hl & Hpre & Hpost).
  assert (Hb : isOpenBuyOf slug b = true).
  { assert (Hin : In b (List.filter (isOpenBuyOf slug) (Sim.tradeTracker st)))
      by (rewrite Hfilter; left; reflexivity).
    apply filter_In in Hin. tauto. }
  unfold Sim.simulateSell. rewrite Hheld, Z.eqb_refl. cbn [negb].
  match goal with
  | |- context [Tracker.recordSell ?s ?d ?l] =>
      destruct (recordSell_closes_first s d pre post b)
        as (closed & sell & Heq & Hty & Hid & Hcid & Hcst);
      [reflexivity
      | | | |
       destruct (Tracker.recordSell s d l) as [trades' id0] eqn:Hrec ]
  end.
  - unfold isOpenBuyFor, isOpenBuyOf, isBuy, isOpen in *. cbn.
    apply andb_true_iff in Hb as [Hb Hs]. apply andb_true_iff in Hb as [Hb Ho].
    rewrite Hb, Hs, Ho, Hout, Z.eqb_refl. reflexivity.
  - apply filter_nil_Forall in Hpre.
    eapply Forall_impl; [exact Hpre|]. intros t Ht. cbn.
    unfold isOpenBuyFor, isOpenBuyOf, isBuy, isOpen in *.
    destruct (TradeType_eqb (t_type t) BUY), (Status_eqb (t_status t) OPEN),
      (String.eqb (t_marketSlug t) slug), (Z.eqb (t_outcome t) (Sim.outcome held));
      simpl in *; congruence.
  - rewrite Hl in Hids. exact (NoDup_ids_split _ _ _ Hids).
  - rewrite Hl in Hrec. rewrite Hrec in Heq. cbn [fst] in Heq. subst trades'.
    cbn.
    assert (Hidmap : map t_id (pre ++ closed :: post ++ [sell])
                     = map t_id (Sim.tradeTracker st) ++ [freshId stamp]).
    { rewrite Hl, !List.map_app. cbn. rewrite List.map_app. cbn.
      rewrite Hcid, Hid, <- app_assoc. reflexivity. }
    split; [split|split]; cbn [Sim.tradeTracker Sim.positions].
    + rewrite Hidmap. apply NoDup_app. split; [exact Hids|].
      split; [|apply NoDup_singleton].
      intros x Hx Hin. apply list_elem_of_singleton in Hin as ->.
      exact (proj1 (idUnused_spec _ _ Hfresh) Hx).
    + intros slug'. rewrite openOutcomes_app, (openOutcomes_cons slug' closed),
        openOutcomes_app.
      assert (Hc : openOutcomes slug' [closed] = []).
      { unfold openOutcomes, isOpenBuyOf, isOpen. cbn. rewrite Hcst.
        cbn. rewrite andb_false_r. reflexivity. }
      assert (Hs : openOutcomes slug' [sell] = []).
      { unfold openOutcomes, isOpenBuyOf, isBuy. cbn. rewrite Hty. reflexivity. }
      rewrite Hc, Hs, app_nil_r. cbn [app].
      destruct (String.eqb_spec slug slug') as [<-|Hne].
      * rewrite lookup_delete_eq. unfold openOutcomes. rewrite Hpre, Hpost.
        reflexivity.
      * rewrite lookup_delete_ne by exact Hne. rewrite <- Hmatch, Hl.
        rewrite openOutcomes_app, (openOutcomes_cons slug' b).
        replace (openOutcomes slug' [b]) with (@nil Z); [reflexivity|].
        unfold openOutcomes, isOpenBuyOf in *. cbn.
        apply andb_true_iff in Hb as [_ Hs']. apply String.eqb_eq in Hs'.
        rewrite Hs'. apply String.eqb_neq in Hne. rewrite Hne, andb_false_r.
        reflexivity.
    + apply lookup_delete_eq.
    + intros id Hunused Hne. unfold idUnused in *. rewrite Hl in Hunused.
      rewrite existsb_app in *. cbn [existsb] in *.
      rewrite existsb_app. cbn [existsb]. rewrite Hcid, Hid.
      destruct (String.eqb_spec (freshId stamp) id); [congruence|].
      rewrite !orb_false_r. exact Hunused.
Qed.

End SimLedger.

Section SimRun.

Variable cfg : Sim.Config.

Lemma processPosition_consistent (stamps : Sim.Stamps) (st : Sim.State)
    (pos : Feed.Position) :
  simConsistent st ->
  idUnused (freshId (Sim.sellStamp stamps)) (Sim.tradeTracker st) = true ->
  idUnused (freshId (Sim.buyStamp stamps)) (Sim.tradeTracker st) = true ->
  freshId (Sim.sellStamp stamps) <> freshId (Sim.buyStamp stamps) ->
  simConsistent (Sim.processPosition cfg stamps st pos).
Proof.
  intros Hst Hsell Hbuy Hne. unfold Sim.processPosition.
  destruct (Feed.p_market pos) as [market|]; [|exact Hst].
  destruct (String.eqb (Feed.m_slug market) ""); [exact Hst|].
  destruct (Feed.p_tokensBalance pos) as [tb|]; [|exact Hst].
  destruct (Sim.targetOutcome _ _) as [side|]; [|exact Hst].
  destruct (String.eqb (Feed.m_status market) "RESOLVED").
  - destruct (Sim.positions st !! Feed.m_slug market) as [held|] eqn:Hheld;
      [|exact Hst].
    apply (simulateSell_consistent cfg _ st _ held None _ Hst Hheld Hsell).
  - destruct (Sim.positions st !! Feed.m_slug market) as [ourPos|] eqn:Hours.
    + destruct (negb (Z.eqb (Sim.outcome ourPos) side)); [|exact Hst].
      destruct (simulateSell_consistent cfg (Sim.sellStamp stamps) st
                  (Feed.m_slug market) ourPos
                  (Sim.estimateMarketValue ourPos pos) None Hst Hours Hsell)
        as (Hst1 & Hgone & Hids).
      apply simulateBuy_consistent; [exact Hst1 | exact Hgone|].
      apply Hids; [exact Hbuy | congruence].
    + apply simulateBuy_consistent; assumption.
Qed.

Lemma runLoop_consistent (stamps : nat -> Sim.Stamps) (feed : list Feed.Position)
    (i : nat) (st : Sim.State) :
  simConsistent st ->
  stampsFresh cfg stamps i st feed = true ->
  simConsistent (Sim.runLoop cfg stamps i st feed).
Proof.
  revert i st. induction feed as [|pos feed IH]; intros i st Hst Hfresh; cbn.
  - exact Hst.
  - cbn in Hfresh.
    apply andb_true_iff in Hfresh as [Hfresh Hrest].
    apply andb_true_iff in Hfresh as [Hfresh Hne].
    apply andb_true_iff in Hfresh as [Hsell Hbuy].
    apply negb_true_iff, String.eqb_neq in Hne.
    apply IH; [|exact Hrest].
    apply processPosition_consistent; assumption.
Qed.

Lemma filter_has {A} (g : A -> bool) (l : list A) (y : A) :
  In y l -> g y = true -> 1 <= length (List.filter g l).
Proof.
  induction l as [|x l IH]; simpl; [tauto|].
  intros [->|Hin] Hy.
  - rewrite Hy. simpl. lia.
  - destruct (g x); simpl; [lia | auto].
Qed.

Lemma at_most_one_NoDup (l : list Trade) :
  (forall slug, length (List.filter (isOpenBuyOf slug) l) <= 1) ->
  NoDup (openSlugs l).
Proof.
  unfold openSlugs, getOpenPositions.
  induction l as [|t l IH]; intros H; simpl; [constructor|].
  assert (Hl : forall slug, length (List.filter (isOpenBuyOf slug) l) <= 1).
  { intros slug. specialize (H slug). simpl in H.
    destruct (isOpenBuyOf slug t); simpl in H; lia. }
  destruct (isBuy t && isOpen t) eqn:Ht; simpl; [|auto].
  apply NoDup_cons. split; [|auto].
  intros Hin. apply list_elem_of_In, in_map_iff in Hin as (y & Hy & Hiny).
  apply filter_In in Hiny as [Hiny Hopen].
  specialize (H (t_marketSlug t)). simpl in H.
  unfold isOpenBuyOf at 1 in H. rewrite Ht, String.eqb_refl in H. simpl in H.
  pose proof (filter_has (isOpenBuyOf (t_marketSlug t)) l y Hiny) as Hge.
  unfold isOpenBuyOf at 1 in Hge. rewrite Hopen, Hy, String.eqb_refl in Hge.
  specialize (Hge eq_refl). lia.
Qed.

Lemma simConsistent_oneOpen (st : Sim.State) :
  simConsistent st -> oneOpenPerMarket (Sim.tradeTracker st).
Proof.
  intros [_ Hmatch]. apply at_most_one_NoDup. intros slug.
  specialize (Hmatch slug). unfold openOutcomes in Hmatch.
  apply (f_equal (@length Z)) in Hmatch. rewrite length_map in Hmatch.
  rewrite Hmatch. destruct (Sim.positions st !! slug); simpl; lia.
Qed.

End SimRun.

(** X21. In the simulator the ledger and the positions stay in step.
    Starting from a consistent state (such as the freshly constructed
    simulator with an empty ledger) and with trade ids that are never
    reused, after any run a market has an OPEN BUY in the ledger exactly
    when a position is held for it, a single one and of the side held; so
    getOpenPositions never lists a market twice. *)
Theorem sim_ledger_matches_positions (cfg : Sim.Config)
    (stamps : nat -> Sim.Stamps) (st : Sim.State) (feed : list Feed.Position) :
  simConsistent st ->
  stampsFresh cfg stamps 0 st feed = true ->
  simConsistent (Sim.runSimulation cfg stamps st feed)
  /\ oneOpenPerMarket (Sim.tradeTracker (Sim.runSimulation cfg stamps st feed))
  /\ simConsistent (Sim.init cfg []).
Proof.
  intros Hst Hfresh.
  assert (H : simConsistent (Sim.runSimulation cfg stamps st feed))
    by (apply runLoop_consistent; assumption).
  split; [exact H|]. split; [apply simConsistent_oneOpen, H|].
  split; [constructor|]. intros slug. cbn. rewrite lookup_empty. reflexivity.
Qed.

Lemma sim_ledger_matches_positions_witness :
  oneOpenPerMarket
    (Sim.tradeTracker
       (Sim.runSimulation Examples.readmeSim Scenarios.simStampsAt
          (Sim.init Examples.readmeSim []) Scenarios.simFeed))
  /\ map (fun t => (t_id t, t_marketSlug t, t_status t))
       (Sim.tradeTracker
          (Sim.runSimulation Examples.readmeSim Scenarios.simStampsAt
             (Sim.init Examples.readmeSim []) Scenarios.simFeed))
     = [("b0", "A", CLOSED); ("s1", "A", CLOSED); ("b1", "A", OPEN)].
Proof.
  destruct (sim_ledger_matches_positions Examples.readmeSim Scenarios.simStampsAt
              (Sim.init Examples.readmeSim []) Scenarios.simFeed)
    as (_ & Hone & Hinit).
  - split; [constructor|]. intros slug. cbn. rewrite lookup_empty. reflexivity.
  - vm_compute. reflexivity.
  - split; [exact Hone|]. vm_compute. reflexivity.
Defined.
